(** * Zenith digital life planner: date utilities, repositories and derivations

    A shallow embedding of the derivation layer of the planner
    ([Utils] in [src/js/utils.js], [Storage] in the storage module) together
    with the ECMAScript [Date] operations those functions are built on.

    Conventions of the embedding.
    - A JavaScript [Date] is its time value: milliseconds since the epoch,
      an integer.  Invalid dates ([NaN]) and the clipping of time values
      beyond 8.64e15 ms are outside the model.
    - The host time zone is a parameter [tz] giving ECMAScript's
      [LocalTZA(t, isUTC)].
    - An ISO date string [YYYY-MM-DD] is the triple of its numeric fields;
      for four-digit years the code-unit order used by [Array.prototype.sort]
      and by [<=] on strings is the lexicographic order on the triple.
    - A timestamp produced by [toISOString] is represented by its instant.
    - JavaScript numbers that arise from a division are binary64 floats;
      counts, day numbers and time values are integers.
    - An object with a fixed set of properties is a record whose fields are
      [None] where the object lacks the property.
    - A collection under a storage key is [None] while the key is absent;
      the repository functions return their result together with the
      collection they leave in the store.
    - The [while] loop of [getProductivityStats] runs on fuel. *)

From Stdlib Require Import ZArith Bool List Lia Floats.
From stdpp Require Import gmap strings list sorting pretty.

#[local] Set Warnings "-register-all,-inexact-float".

Local Open Scope Z_scope.

(** ** ECMAScript time values (ECMA-262, "Time Values and Time Range") *)

Module ESDate.

Definition msPerDay : Z := 86400000.
Definition msPerHour : Z := 3600000.
Definition msPerMinute : Z := 60000.
Definition msPerSecond : Z := 1000.

Definition Day (t : Z) : Z := t / msPerDay.
Definition TimeWithinDay (t : Z) : Z := t mod msPerDay.

Definition DaysInYear (y : Z) : Z :=
  if negb (y mod 4 =? 0) then 365
  else if negb (y mod 100 =? 0) then 366
  else if negb (y mod 400 =? 0) then 365
  else 366.

Definition DayFromYear (y : Z) : Z :=
  365 * (y - 1970) + (y - 1969) / 4 - (y - 1901) / 100 + (y - 1601) / 400.

Definition TimeFromYear (y : Z) : Z := msPerDay * DayFromYear y.

(** [YearFromTime t] is the largest [y] with [TimeFromYear y <= t]: the
    quotient by the mean Gregorian year is off by at most one, and is
    adjusted against [DayFromYear]. *)
Definition YearFromTime (t : Z) : Z :=
  let d := Day t in
  let y0 := 1970 + (400 * d) / 146097 in
  if d <? DayFromYear y0 then y0 - 1
  else if DayFromYear (y0 + 1) <=? d then y0 + 1
  else y0.

Definition InLeapYear (t : Z) : Z :=
  if DaysInYear (YearFromTime t) =? 366 then 1 else 0.

Definition DayWithinYear (t : Z) : Z := Day t - DayFromYear (YearFromTime t).

(** Day within the year on which month [m] (0 = January) starts; [L] is 1
    in a leap year.  Month 12 is the start of the next year. *)
Definition monthStart (m L : Z) : Z :=
  match m with
  | 0 => 0
  | 1 => 31
  | 2 => 59 + L
  | 3 => 90 + L
  | 4 => 120 + L
  | 5 => 151 + L
  | 6 => 181 + L
  | 7 => 212 + L
  | 8 => 243 + L
  | 9 => 273 + L
  | 10 => 304 + L
  | 11 => 334 + L
  | _ => 365 + L
  end.

Definition MonthFromTime (t : Z) : Z :=
  let d := DayWithinYear t in
  let L := InLeapYear t in
  if d <? monthStart 1 L then 0
  else if d <? monthStart 2 L then 1
  else if d <? monthStart 3 L then 2
  else if d <? monthStart 4 L then 3
  else if d <? monthStart 5 L then 4
  else if d <? monthStart 6 L then 5
  else if d <? monthStart 7 L then 6
  else if d <? monthStart 8 L then 7
  else if d <? monthStart 9 L then 8
  else if d <? monthStart 10 L then 9
  else if d <? monthStart 11 L then 10
  else 11.

Definition DateFromTime (t : Z) : Z :=
  DayWithinYear t - monthStart (MonthFromTime t) (InLeapYear t) + 1.

Definition WeekDay (t : Z) : Z := (Day t + 4) mod 7.

Definition MakeTime (hour min sec ms : Z) : Z :=
  hour * msPerHour + min * msPerMinute + sec * msPerSecond + ms.

(** [MakeDay]: the day number of the first of month [mn] of year [ym],
    moved by [date - 1] days. *)
Definition MakeDay (year month date : Z) : Z :=
  let ym := year + month / 12 in
  let mn := month mod 12 in
  let L := if DaysInYear ym =? 366 then 1 else 0 in
  DayFromYear ym + monthStart mn L + date - 1.

Definition MakeDate (day time : Z) : Z := day * msPerDay + time.

(** Length of the month [month] (any integer, counted from January of
    [year]): the distance between two consecutive month starts. *)
Definition daysInMonth (year month : Z) : Z :=
  let L := if DaysInYear (year + month / 12) =? 366 then 1 else 0 in
  monthStart (month mod 12 + 1) L - monthStart (month mod 12) L.

(** *** Time zones *)

(** [LocalTZA tz t true] is the offset in force at the UTC instant [t];
    [LocalTZA tz t false] is the offset used to read [t] as a local time. *)
Record TimeZone : Type := mkZone { LocalTZA : Z -> bool -> Z }.

Definition LocalTime (tz : TimeZone) (t : Z) : Z := t + LocalTZA tz t true.
Definition UTC (tz : TimeZone) (t : Z) : Z := t - LocalTZA tz t false.

(** A zone without transitions, [offset] milliseconds east of Greenwich. *)
Definition fixedZone (offset : Z) : TimeZone := mkZone (fun _ _ => offset).

(** America/New_York as it is in 2026: UTC-5, and UTC-4 between
    2026-03-08T07:00Z and 2026-11-01T06:00Z.  A local time that is skipped
    or repeated at a transition is read with the offset before it. *)
Definition newYorkSpring : Z := MakeDate (MakeDay 2026 2 8) (MakeTime 7 0 0 0).
Definition newYorkFall : Z := MakeDate (MakeDay 2026 10 1) (MakeTime 6 0 0 0).
Definition EST : Z := -5 * msPerHour.
Definition EDT : Z := -4 * msPerHour.

Definition newYork2026 : TimeZone :=
  mkZone (fun t isUTC =>
    if isUTC then
      if t <? newYorkSpring then EST
      else if t <? newYorkFall then EDT
      else EST
    else
      if t <? newYorkSpring + EDT then EST
      else if t <? newYorkFall + EDT then EDT
      else EST).



(** Pacific/Apia around the end of 2011: UTC-10 until 2011-12-30T10:00Z,
    which is the end of 29 December there, and UTC+14 from then on, so that
    30 December 2011 has no local time. *)
Definition apiaChange : Z := MakeDate (MakeDay 2011 11 30) (MakeTime 10 0 0 0).

Definition apia2011 : TimeZone :=
  mkZone (fun t isUTC =>
    if isUTC then
      if t <? apiaChange then -10 * msPerHour else 14 * msPerHour
    else
      if t <? apiaChange + 14 * msPerHour then -10 * msPerHour else 14 * msPerHour).

(** A zone in which reading a local time never leaves its calendar day and
    every local midnight exists (no transition skips over a midnight). *)
Record RegularZone (tz : TimeZone) : Prop := mkRegular {
  zone_day : forall tl, Day (LocalTime tz (UTC tz tl)) = Day tl;
  zone_midnight : forall d, LocalTime tz (UTC tz (MakeDate d 0)) = MakeDate d 0
}.

(** *** Date objects *)

(** [new Date(year, month, date)]: local midnight of that day; a year in
    0..99 means 1900 + year. *)
Definition newDate (tz : TimeZone) (year month date : Z) : Z :=
  let yr := if (0 <=? year) && (year <=? 99) then 1900 + year else year in
  UTC tz (MakeDate (MakeDay yr month date) (MakeTime 0 0 0 0)).

Definition getFullYear (tz : TimeZone) (t : Z) : Z := YearFromTime (LocalTime tz t).
Definition getMonth (tz : TimeZone) (t : Z) : Z := MonthFromTime (LocalTime tz t).
Definition getDate (tz : TimeZone) (t : Z) : Z := DateFromTime (LocalTime tz t).
Definition getDay (tz : TimeZone) (t : Z) : Z := WeekDay (LocalTime tz t).

Definition setDate (tz : TimeZone) (t dt : Z) : Z :=
  let lt := LocalTime tz t in
  UTC tz (MakeDate (MakeDay (YearFromTime lt) (MonthFromTime lt) dt) (TimeWithinDay lt)).

Definition setHours (tz : TimeZone) (t hour min sec ms : Z) : Z :=
  let lt := LocalTime tz t in
  UTC tz (MakeDate (Day lt) (MakeTime hour min sec ms)).

(** [Date.UTC(year, month, date)]; a year in 0..99 means 1900 + year. *)
Definition DateUTC (year month date : Z) : Z :=
  let yr := if (0 <=? year) && (year <=? 99) then 1900 + year else year in
  MakeDate (MakeDay yr month date) (MakeTime 0 0 0 0).

Definition setUTCDate (t dt : Z) : Z :=
  MakeDate (MakeDay (YearFromTime t) (MonthFromTime t) dt) (TimeWithinDay t).

(** A zone in which a later local midnight is a later instant. *)
Definition OrderedMidnights (tz : TimeZone) : Prop :=
  forall d, UTC tz (MakeDate d 0) < UTC tz (MakeDate (d + 1) 0).

(** *** ISO dates *)

Record isodate : Type := mkIso { iso_year : Z; iso_month : Z; iso_day : Z }.

Definition iso_eqb (a b : isodate) : bool :=
  (iso_year a =? iso_year b) && (iso_month a =? iso_month b) && (iso_day a =? iso_day b).

(** [a <= b] on the strings. *)
Definition iso_leb (a b : isodate) : bool :=
  if iso_year a =? iso_year b then
    if iso_month a =? iso_month b then iso_day a <=? iso_day b
    else iso_month a <? iso_month b
  else iso_year a <? iso_year b.

(** [d.toISOString().split('T')[0]]: the calendar date in UTC. *)
Definition toISODate (t : Z) : isodate :=
  mkIso (YearFromTime t) (MonthFromTime t + 1) (DateFromTime t).

(** [new Date("YYYY-MM-DD")]: a date-only string is midnight UTC. *)
Definition parseISODate (s : isodate) : Z :=
  MakeDate (MakeDay (iso_year s) (iso_month s - 1) (iso_day s)) 0.

End ESDate.

(** ** JavaScript numbers *)

Module JSNumber.

(** [floor (x + 1/2)] for the dyadic number [x = n / 2^k]. *)
Definition roundHalfUp (n : Z) (k : Z) : Z := (2 * n + 2 ^ k) / 2 ^ (k + 1).

(** The float of an integer of magnitude below 2^53, with the sign bit [s]. *)
Definition ofInteger (s : bool) (r : Z) : float :=
  let a := PrimFloat.of_uint63 (Uint63.of_Z (Z.abs r)) in
  if s then PrimFloat.opp a else a.

(** [Math.round]: the integral number nearest to [x], the larger one at a
    tie; [NaN], the infinities, the zeros and integral numbers are
    returned as they are, and a result of zero keeps the sign of [x]. *)
Definition Math_round (x : float) : float :=
  match Prim2SF x with
  | S754_finite s m e =>
      if 0 <=? e then x
      else ofInteger s (roundHalfUp (if s then Z.neg m else Z.pos m) (- e))
  | _ => x
  end.

(** A count (a non-negative integer below 2^53) as a number. *)
Definition ofCount (n : Z) : float := PrimFloat.of_uint63 (Uint63.of_Z n).

(** A sum of integers (of magnitude below 2^53) as a number; a sum of 0 is
    the positive zero. *)
Definition ofSum (n : Z) : float := ofInteger (n <? 0) n.

(** [x.toFixed(1)]: the decimal with one fractional digit nearest to [x],
    the one of larger magnitude at a tie, given by its number of tenths
    ("3.7" is 37); [None] for the texts of [NaN] and the infinities. *)
Definition toFixed1 (x : float) : option Z :=
  match Prim2SF x with
  | S754_zero _ => Some 0
  | S754_finite s m e =>
      let n := if 0 <=? e then 10 * Z.pos m * 2 ^ e else roundHalfUp (10 * Z.pos m) (- e) in
      Some (if s then - n else n)
  | _ => None
  end.

(** [Math.ceil]: the least integral number not below [x]; [NaN], the
    infinities, the zeros and integral numbers are returned as they are,
    and a result of zero keeps the sign of [x]. *)
Definition Math_ceil (x : float) : float :=
  match Prim2SF x with
  | S754_finite s m e =>
      if 0 <=? e then x
      else ofInteger s (- ((- (if s then Z.neg m else Z.pos m)) / 2 ^ (- e)))
  | _ => x
  end.

(** [a - b] for two time values: the number nearest to the difference. *)
Definition timeDiff (a b : Z) : float := ofInteger (a - b <? 0) (a - b).

End JSNumber.

(** ** [Utils] (src/js/utils.js) *)

Module Utils.
Import ESDate JSNumber.

(** [date.toISOString().split('T')[0]] *)
Definition formatDateStr (date : Z) : isodate := toISODate date.

(** [d.toDateString()]: weekday, month, day and year in local time. *)
Definition toDateString (tz : TimeZone) (d : Z) : Z * Z * Z * Z :=
  (getDay tz d, getMonth tz d, getDate tz d, getFullYear tz d).

Definition dateString_eqb (a b : Z * Z * Z * Z) : bool :=
  let '(w1, m1, d1, y1) := a in
  let '(w2, m2, d2, y2) := b in
  (w1 =? w2) && (m1 =? m2) && (d1 =? d2) && (y1 =? y2).

(** [isToday(date)], with the clock reading [now]. *)
Definition isToday (tz : TimeZone) (now : Z) (date : Z) : bool :=
  dateString_eqb (toDateString tz date) (toDateString tz now).

Definition getWeekStart (tz : TimeZone) (date : Z) : Z :=
  let d := date in
  let day := getDay tz d in
  let diff := getDate tz d - day + (if day =? 0 then -6 else 1) in
  let d := setDate tz d diff in
  let d := setHours tz d 0 0 0 0 in
  d.

Record DayCell : Type := mkCell {
  cell_date : Z;
  cell_dateStr : isodate;
  cell_dayNum : Z;
  cell_isOtherMonth : bool;
  cell_isToday : bool
}.

Definition getCalendarDays (tz : TimeZone) (now : Z) (year month : Z) : list DayCell :=
  let firstDay := newDate tz year month 1 in
  let lastDay := newDate tz year (month + 1) 0 in
  let startDay := getDay tz firstDay - 1 in
  let startDay := if startDay =? -1 then 6 else startDay in
  (* i = startDay - 1 down to 0 *)
  let days :=
    map (fun i =>
           let date := newDate tz year month (- i) in
           mkCell date (formatDateStr date) (getDate tz date) true false)
        (rev (seqZ 0 startDay)) in
  (* i = 1 up to lastDay.getDate() *)
  let days := days ++
    map (fun i =>
           let date := newDate tz year month i in
           mkCell date (formatDateStr date) i false (isToday tz now date))
        (seqZ 1 (getDate tz lastDay)) in
  let remaining := 42 - Z.of_nat (length days) in
  days ++
    map (fun i =>
           let date := newDate tz year (month + 1) i in
           mkCell date (formatDateStr date) i true false)
        (seqZ 1 remaining).

(** [getWeekDates(weekStart)] *)
Definition getWeekDates (tz : TimeZone) (weekStart : Z) : list Z :=
  map (fun i =>
         let date := weekStart in
         setDate tz date (getDate tz date + i))
      (seqZ 0 7).

(** [getWeekNumber(date)] *)
Definition getWeekNumber (tz : TimeZone) (date : Z) : float :=
  let d := DateUTC (getFullYear tz date) (getMonth tz date) (getDate tz date) in
  let dayNum := if WeekDay d =? 0 then 7 else WeekDay d in
  let d := setUTCDate d (DateFromTime d + 4 - dayNum) in
  let yearStart := DateUTC (YearFromTime d) 0 1 in
  Math_ceil (((timeDiff d yearStart / 86400000) + 1) / 7)%float.

Record YearDay : Type := mkYearDay {
  yd_date : Z;
  yd_dateStr : isodate;
  yd_week : float;
  yd_dayOfWeek : Z
}.

(** The [while (currentDate <= endDate)] loop of [getYearDays]; [None]
    when [fuel] iterations do not reach the end of the loop. *)
Fixpoint yearLoop (fuel : nat) (tz : TimeZone) (currentDate endDate : Z) : option (list YearDay) :=
  if currentDate <=? endDate then
    match fuel with
    | O => None
    | S fuel' =>
        let day := mkYearDay currentDate (formatDateStr currentDate)
                             (getWeekNumber tz currentDate) (getDay tz currentDate) in
        match yearLoop fuel' tz (setDate tz currentDate (getDate tz currentDate + 1)) endDate with
        | Some days => Some (day :: days)
        | None => None
        end
    end
  else Some [].

Definition getYearDays (fuel : nat) (tz : TimeZone) (year : Z) : option (list YearDay) :=
  let startDate := newDate tz year 0 1 in
  let endDate := newDate tz year 11 31 in
  yearLoop fuel tz startDate endDate.



End Utils.

(** ** [Storage] (the storage module) *)

Module Storage.
Import ESDate JSNumber.

(** *** The document store *)

(** A parsed JSON text.  [localStorage] holds texts written by
    [JSON.stringify] and read back by [JSON.parse]; a stored text is
    represented by the value it parses to. *)
Inductive json : Type :=
| JNull
| JBool (b : bool)
| JNum (n : Z)
| JStr (s : string)
| JArr (items : list json)
| JObj (fields : list (string * json)).

(** [KEYS], in the order of the object literal. *)
Definition KEYS : list (string * string) :=
  [ ("USER", "zenith_user");
    ("TASKS", "zenith_tasks");
    ("HABITS", "zenith_habits");
    ("GOALS", "zenith_goals");
    ("TIME_BLOCKS", "zenith_timeblocks");
    ("DAILY_DATA", "zenith_daily_data");
    ("WEEKLY_OBJECTIVES", "zenith_weekly_objectives");
    ("SETTINGS", "zenith_settings");
    ("THEME", "zenith_theme") ].

(** [Object.keys(this.KEYS)] and [Object.values(this.KEYS)] *)
Definition KEYS_keys : list string := map fst KEYS.
Definition KEYS_values : list string := map snd KEYS.

(** [this.KEYS[name]] *)
Definition KEYS_lookup (name : string) : option string :=
  (fun r => snd (snd r)) <$> list_find (fun kv => fst kv = name) KEYS.

Definition get (ls : gmap string json) (key : string) : json :=
  match ls !! key with
  | Some data => data
  | None => JNull
  end.

Definition set (ls : gmap string json) (key : string) (data : json) : gmap string json :=
  <[key := data]> ls.

Definition remove (ls : gmap string json) (key : string) : gmap string json :=
  delete key ls.

Definition clearAll (ls : gmap string json) : gmap string json :=
  foldl remove ls KEYS_values.

(** [exportData]: the object that is handed to [JSON.stringify]. *)
Definition exportData (ls : gmap string json) : json :=
  JObj (map (fun key =>
               (key, match KEYS_lookup key with
                     | Some k => get ls k
                     | None => JNull
                     end))
            KEYS_keys).

(** [Object.keys(data)] with [data[key]], for the values [JSON.parse] can
    return; [None] where [Object.keys] throws. *)
Definition entries (data : json) : option (list (string * json)) :=
  match data with
  | JNull => None
  | JBool _ | JNum _ => Some []
  | JStr s =>
      Some (imap (fun i c => (pretty i, JStr (String c EmptyString)))
                 (Stdlib.Strings.String.list_ascii_of_string s))
  | JArr items => Some (imap (fun i v => (pretty i, v)) items)
  | JObj fields => Some fields
  end.

(** [importData]: [parsed] is the outcome of [JSON.parse(jsonString)],
    [None] when it throws.  Returns the success flag and the store. *)
Definition importData (parsed : option json) (ls : gmap string json) : bool * gmap string json :=
  match parsed ≫= entries with
  | Some kvs =>
      (true,
       foldl (fun ls kv =>
                if bool_decide (fst kv ∈ KEYS_values) then set ls (fst kv) (snd kv) else ls)
             ls kvs)
  | None => (false, ls)
  end.

(** *** Tasks *)

(** A task object; a field is [None] when the object has no such property.
    [completedAt] is [Some None] when it is [null].  The same type serves
    for the partial objects given to [addTask] and [updateTask]. *)
Record Task : Type := mkTask {
  task_id : option string;
  task_createdAt : option Z;
  task_completed : option bool;
  task_completedAt : option (option Z);
  task_title : option string;
  task_priority : option string;
  task_category : option string;
  task_duration : option Z;
  task_date : option isodate
}.

(** One property of [{...base, ...patch}]. *)
Definition over {A : Type} (base patch : option A) : option A :=
  match patch with
  | Some v => Some v
  | None => base
  end.

(** [{...base, ...patch}] *)
Definition spreadTask (base patch : Task) : Task :=
  mkTask (over (task_id base) (task_id patch))
         (over (task_createdAt base) (task_createdAt patch))
         (over (task_completed base) (task_completed patch))
         (over (task_completedAt base) (task_completedAt patch))
         (over (task_title base) (task_title patch))
         (over (task_priority base) (task_priority patch))
         (over (task_category base) (task_category patch))
         (over (task_duration base) (task_duration patch))
         (over (task_date base) (task_date patch)).

(** [this.get(this.KEYS.TASKS) || []]; the state is what is stored under
    [zenith_tasks], [None] when nothing is. *)
Definition getTasks (st : option (list Task)) : list Task :=
  match st with
  | Some tasks => tasks
  | None => []
  end.

(** [addTask(task)]; [freshId] is what [generateId()] returns and [now]
    the clock.  Returns the new task and the stored collection. *)
Definition addTask (freshId : string) (now : Z) (task : Task) (st : option (list Task))
  : Task * option (list Task) :=
  let tasks := getTasks st in
  let newTask :=
    spreadTask
      (mkTask (Some freshId) (Some now) (Some false) (Some None) None None None None None)
      task in
  (newTask, Some (tasks ++ [newTask])).

(** Truthiness of [updates.completed] and of [completedAt]. *)
Definition truthy_completed (t : Task) : bool :=
  match task_completed t with
  | Some b => b
  | None => false
  end.

Definition truthy_completedAt (t : Task) : bool :=
  match task_completedAt t with
  | Some (Some _) => true
  | _ => false
  end.

Definition setCompletedAt (t : Task) (v : option Z) : Task :=
  mkTask (task_id t) (task_createdAt t) (task_completed t) (Some v)
         (task_title t) (task_priority t) (task_category t) (task_duration t) (task_date t).

(** [updateTask(id, updates)]: the result ([None] for [null]) and the
    stored collection. *)
Definition updateTask (now : Z) (id : string) (updates : Task) (st : option (list Task))
  : option Task * option (list Task) :=
  let tasks := getTasks st in
  match list_find (fun t => task_id t = Some id) tasks with
  | Some (index, t) =>
      let t := spreadTask t updates in
      let t := if truthy_completed updates && negb (truthy_completedAt t)
               then setCompletedAt t (Some now) else t in
      (Some t, Some (<[index := t]> tasks))
  | None => (None, st)
  end.

(** The task an id denotes: the first one carrying it. *)
Definition findTask (id : string) (st : option (list Task)) : option Task :=
  snd <$> list_find (fun t => task_id t = Some id) (getTasks st).

(** The patch [{ completed: b }]. *)
Definition completedPatch (b : bool) : Task :=
  mkTask None None (Some b) None None None None None None.

(** A run of calls [updateTask(id, { completed: b })], each at its own
    clock reading. *)
Definition toggleCompleted (id : string) (steps : list (Z * bool)) (st : option (list Task))
  : option (list Task) :=
  foldl (fun st step => snd (updateTask (fst step) id (completedPatch (snd step)) st)) st steps.

(** *** Habits *)

Record Habit : Type := mkHabit {
  habit_id : string;
  habit_createdAt : Z;
  completedDates : list isodate;
  currentStreak : Z;
  longestStreak : Z;
  habit_name : option string;
  habit_frequency : option string
}.

(** The object given to [addHabit]. *)
Record HabitPartial : Type := mkHabitPartial {
  partial_id : option string;
  partial_createdAt : option Z;
  partial_completedDates : option (list isodate);
  partial_currentStreak : option Z;
  partial_longestStreak : option Z;
  partial_name : option string;
  partial_frequency : option string
}.

Definition getHabits (st : option (list Habit)) : list Habit :=
  match st with
  | Some habits => habits
  | None => []
  end.

Definition addHabit (freshId : string) (now : Z) (habit : HabitPartial) (st : option (list Habit))
  : Habit * option (list Habit) :=
  let habits := getHabits st in
  let newHabit :=
    mkHabit (default freshId (partial_id habit))
            (default now (partial_createdAt habit))
            (default [] (partial_completedDates habit))
            (default 0 (partial_currentStreak habit))
            (default 0 (partial_longestStreak habit))
            (partial_name habit)
            (partial_frequency habit) in
  (newHabit, Some (habits ++ [newHabit])).

(** [Array.prototype.sort()] on ISO date strings. *)
Fixpoint insertSorted (x : isodate) (l : list isodate) : list isodate :=
  match l with
  | [] => [x]
  | y :: l' => if iso_leb x y then x :: l else y :: insertSorted x l'
  end.

Definition sortDates (l : list isodate) : list isodate :=
  foldr insertSorted [] l.

(** The [for] loop of [calculateStreak], from index [i] on, where [rest]
    is [sortedDates.slice(i)]. *)
Fixpoint streakLoop (tz : TimeZone) (currentDate : Z) (rest : list isodate) (streak : Z)
    {struct rest} : Z :=
  match rest with
  | [] => streak
  | s :: rest' =>
      let prevDate := currentDate in
      let prevDate := setDate tz prevDate (getDate tz prevDate - 1) in
      if iso_eqb s (toISODate prevDate) then streakLoop tz prevDate rest' (streak + 1)
      else streak
  end.

(** [calculateStreak(completedDates)], with the clock reading [now]. *)
Definition calculateStreak (tz : TimeZone) (now : Z) (completedDates : list isodate) : Z :=
  match rev (sortDates completedDates) with
  | [] => 0
  | first :: rest =>
      let today := toISODate now in
      let yesterday := toISODate (now - 86400000) in
      if negb (iso_eqb first today) && negb (iso_eqb first yesterday) then 0
      else streakLoop tz (parseISODate first) rest 1
  end.

(** [completedDates.indexOf(dateStr)], then [splice(index, 1)] or [push]. *)
Fixpoint removeFirst (x : isodate) (l : list isodate) : list isodate :=
  match l with
  | [] => []
  | y :: l' => if iso_eqb y x then l' else y :: removeFirst x l'
  end.

Definition toggleDate (dateStr : isodate) (dates : list isodate) : list isodate :=
  if existsb (fun y => iso_eqb y dateStr) dates then removeFirst dateStr dates
  else dates ++ [dateStr].

(** [toggleHabitCompletion(habitId, dateStr)]: the result ([None] for
    [undefined]) and the stored collection. *)
Definition toggleHabitCompletion (tz : TimeZone) (now : Z) (habitId : string) (dateStr : isodate)
    (st : option (list Habit)) : option Habit * option (list Habit) :=
  let habits := getHabits st in
  match list_find (fun h => habit_id h = habitId) habits with
  | Some (index, habit) =>
      let dates := toggleDate dateStr (completedDates habit) in
      let current := calculateStreak tz now dates in
      let longest := Z.max (longestStreak habit) current in
      let habit := mkHabit (habit_id habit) (habit_createdAt habit) dates current longest
                           (habit_name habit) (habit_frequency habit) in
      (Some habit, Some (<[index := habit]> habits))
  | None => (None, st)
  end.

(** The habit an id denotes: the first one carrying it. *)
Definition findHabit (habitId : string) (st : option (list Habit)) : option Habit :=
  snd <$> list_find (fun h => habit_id h = habitId) (getHabits st).

(** A run of calls [toggleHabitCompletion(habitId, dateStr)], each at its
    own clock reading. *)
Definition toggleAll (tz : TimeZone) (steps : list (Z * string * isodate))
    (st : option (list Habit)) : option (list Habit) :=
  foldl (fun st step =>
           let '(now, habitId, dateStr) := step in
           snd (toggleHabitCompletion tz now habitId dateStr st))
        st steps.

(** *** Analytics *)

(** [date >= startDate && date <= endDate] on strings *)
Definition inRange (startDate endDate date : isodate) : bool :=
  iso_leb startDate date && iso_leb date endDate.

(** The [while (current <= end)] loop counting the days of the range.
    [None] when [fuel] iterations do not reach the end of the loop. *)
Fixpoint countDays (fuel : nat) (tz : TimeZone) (current end_ : Z) (habitPossible : Z) : option Z :=
  if current <=? end_ then
    match fuel with
    | O => None
    | S fuel' =>
        countDays fuel' tz (setDate tz current (getDate tz current + 1)) end_ (habitPossible + 1)
    end
  else Some habitPossible.

(** The [habits.forEach] of [getProductivityStats]: the pair
    [(habitCompletions, habitPossible)]. *)
Fixpoint habitCounts (fuel : nat) (tz : TimeZone) (startDate endDate : isodate)
    (habits : list Habit) (acc : Z * Z) : option (Z * Z) :=
  match habits with
  | [] => Some acc
  | habit :: habits' =>
      let habitCompletions :=
        fst acc + Z.of_nat (length (filter (fun date => inRange startDate endDate date = true)
                                           (completedDates habit))) in
      match countDays fuel tz (parseISODate startDate) (parseISODate endDate) (snd acc) with
      | Some habitPossible => habitCounts fuel tz startDate endDate habits' (habitCompletions, habitPossible)
      | None => None
      end
  end.

(** The result; [averageMood] is [None] for [null], and it and
    [focusHours] hold what [toFixed1] gives. *)
Record Stats : Type := mkStats {
  totalTasks : Z;
  completedTasks : Z;
  completionRate : float;
  habitCompletionRate : float;
  averageMood : option (option Z);
  focusHours : option Z
}.

(** [dailyData[date].mood] where it is truthy, for the dates in range; the
    daily data are the pairs of a date and its mood ([None] for [null]). *)
Definition moodsInRange (startDate endDate : isodate) (dailyData : list (isodate * option Z))
  : list Z :=
  omap (fun entry =>
          match snd entry with
          | Some mood =>
              if inRange startDate endDate (fst entry) && negb (mood =? 0) then Some mood
              else None
          | None => None
          end)
       dailyData.

(** [t.duration || 30] *)
Definition durationOr30 (t : Task) : Z :=
  match task_duration t with
  | Some duration => if duration =? 0 then 30 else duration
  | None => 30
  end.

Definition taskInRange (startDate endDate : isodate) (t : Task) : bool :=
  match task_date t with
  | Some date => inRange startDate endDate date
  | None => false
  end.

Definition getProductivityStats (fuel : nat) (tz : TimeZone) (startDate endDate : isodate)
    (tasks : list Task) (habits : list Habit) (dailyData : list (isodate * option Z))
  : option Stats :=
  let tasksInRange := filter (fun t => taskInRange startDate endDate t = true) tasks in
  let completed := filter (fun t => truthy_completed t = true) tasksInRange in
  match habitCounts fuel tz startDate endDate habits (0, 0) with
  | Some (habitCompletions, habitPossible) =>
      let moods := moodsInRange startDate endDate dailyData in
      let totalMood := foldr Z.add 0 moods in
      let moodCount := Z.of_nat (length moods) in
      let focusMinutes := foldr Z.add 0 (durationOr30 <$> completed) in
      Some (mkStats
        (Z.of_nat (length tasksInRange))
        (Z.of_nat (length completed))
        (if 0 <? Z.of_nat (length tasksInRange)
         then Math_round ((ofCount (Z.of_nat (length completed))
                           / ofCount (Z.of_nat (length tasksInRange))) * 100)%float
         else 0%float)
        (if 0 <? habitPossible
         then Math_round ((ofCount habitCompletions / ofCount habitPossible) * 100)%float
         else 0%float)
        (if 0 <? moodCount then Some (toFixed1 (ofSum totalMood / ofCount moodCount)%float)
         else None)
        (toFixed1 (ofSum focusMinutes / 60)%float))
  | None => None
  end.

(** *** More of the task and habit repositories *)

(** ISO dates as keys: equality is decidable and the dates can be counted. *)
#[global] Instance isodate_eq_dec : EqDecision isodate.
Proof. solve_decision. Defined.

#[global] Instance isodate_countable : Countable isodate.
Proof.
  apply (inj_countable' (fun d => (iso_year d, iso_month d, iso_day d))
                        (fun t => mkIso t.1.1 t.1.2 t.2)).
  intros [y m d]. reflexivity.
Defined.

(** [getTasksForDate(dateStr)] *)
Definition getTasksForDate (dateStr : isodate) (st : option (list Task)) : list Task :=
  filter (fun task => task_date task = Some dateStr) (getTasks st).

(** [deleteTask(id)]: the stored collection. *)
Definition deleteTask (id : string) (st : option (list Task)) : option (list Task) :=
  let tasks := getTasks st in
  let filtered := filter (fun t => task_id t <> Some id) tasks in
  Some filtered.

(** The patch [{ date: newDate }]. *)
Definition datePatch (newDate : isodate) : Task :=
  mkTask None None None None None None None None (Some newDate).

(** [moveTask(id, newDate)]: the stored collection. *)
Definition moveTask (now : Z) (id : string) (newDate : isodate) (st : option (list Task))
  : option (list Task) :=
  snd (updateTask now id (datePatch newDate) st).

(** [deleteHabit(id)]: the stored collection. *)
Definition deleteHabit (id : string) (st : option (list Habit)) : option (list Habit) :=
  let habits := getHabits st in
  let filtered := filter (fun h => habit_id h <> id) habits in
  Some filtered.

(** *** Daily data *)








(** *** Weekly objectives *)

Record Objective : Type := mkObjective {
  objective_id : option string;
  objective_completed : option bool;
  objective_title : option string;
  objective_weekStart : option isodate
}.

Definition getObjectives (st : option (list Objective)) : list Objective :=
  match st with
  | Some objectives => objectives
  | None => []
  end.

(** [getWeeklyObjectives(weekStart)] *)
Definition getWeeklyObjectives (weekStart : isodate) (st : option (list Objective))
  : list Objective :=
  filter (fun o => objective_weekStart o = Some weekStart) (getObjectives st).

(** [addWeeklyObjective(objective)]: the result and the stored collection. *)
Definition addWeeklyObjective (freshId : string) (objective : Objective)
    (st : option (list Objective)) : Objective * option (list Objective) :=
  let objectives := getObjectives st in
  let newObjective :=
    mkObjective (over (Some freshId) (objective_id objective))
                (over (Some false) (objective_completed objective))
                (objective_title objective)
                (objective_weekStart objective) in
  (newObjective, Some (objectives ++ [newObjective])).

(** [!objective.completed] *)
Definition notCompleted (o : Objective) : bool :=
  match objective_completed o with
  | Some b => negb b
  | None => true
  end.

(** [toggleWeeklyObjective(id)]: the stored collection. *)
Definition toggleWeeklyObjective (id : string) (st : option (list Objective))
  : option (list Objective) :=
  let objectives := getObjectives st in
  match list_find (fun o => objective_id o = Some id) objectives with
  | Some (index, objective) =>
      let objective :=
        mkObjective (objective_id objective) (Some (notCompleted objective))
                    (objective_title objective) (objective_weekStart objective) in
      Some (<[index := objective]> objectives)
  | None => st
  end.

(** *** Initialisation of the store *)

(** [!value] is false. *)
Definition truthy (value : json) : bool :=
  match value with
  | JNull => false
  | JBool b => b
  | JNum n => negb (n =? 0)
  | JStr s => negb (String.eqb s "")
  | JArr _ | JObj _ => true
  end.

(** The keys [init] fills and what it fills them with, in its order. *)
Definition initDefaults : list (string * json) :=
  [ ("zenith_tasks", JArr []);
    ("zenith_habits", JArr []);
    ("zenith_goals",
       JObj [ ("yearly", JArr []);
              ("monthly", JArr []);
              ("lifeAreas",
                 JObj [ ("career", JArr []); ("health", JArr []);
                        ("relationships", JArr []); ("finance", JArr []);
                        ("learning", JArr []); ("creativity", JArr []) ]) ]);
    ("zenith_timeblocks", JArr []);
    ("zenith_daily_data", JObj []);
    ("zenith_weekly_objectives", JArr []);
    ("zenith_settings",
       JObj [ ("workStart", JStr "09:00"); ("workEnd", JStr "17:00");
              ("dailyCapacity", JNum 5); ("pomodoroLength", JNum 25);
              ("breakLength", JNum 5) ]) ].

(** [init()] *)
Definition init (ls : gmap string json) : gmap string json :=
  foldl (fun ls entry => if truthy (get ls (fst entry)) then ls else set ls (fst entry) (snd entry))
        ls initDefaults.

(** [getTheme()] and [setTheme(theme)] *)
Definition getTheme (ls : gmap string json) : json :=
  let theme := get ls "zenith_theme" in
  if truthy theme then theme else JStr "light".

Definition setTheme (ls : gmap string json) (theme : json) : gmap string json :=
  set ls "zenith_theme" theme.

End Storage.

(** ** [App] (src/js/app.js): what its handlers do to the store *)

Module App.
Import ESDate Storage.

(** [resetData()], once confirmed: [Storage.clearAll(); Storage.init()]. *)
Definition resetData (ls : gmap string json) : gmap string json :=
  init (clearAll ls).

(** The range [updateWeeklyStats()] asks the statistics for:
    [formatDateStr] of [weekDates[0]] and of [weekDates[6]]. *)
Definition weeklyStatsRange (tz : TimeZone) (currentWeek : Z) : option (isodate * isodate) :=
  let weekDates := Utils.getWeekDates tz currentWeek in
  match weekDates !! 0%nat, weekDates !! 6%nat with
  | Some first, Some last => Some (Utils.formatDateStr first, Utils.formatDateStr last)
  | _, _ => None
  end.

(** [toggleTheme()] *)
Definition toggleTheme (ls : gmap string json) : gmap string json :=
  let current := getTheme ls in
  let newTheme :=
    match current with
    | JStr name => if String.eqb name "light" then "dark" else "light"
    | _ => "light"
    end in
  setTheme ls (JStr newTheme).

End App.

(** ** What the spec says of streaks and day counts *)

Module Spec.
Import ESDate.

(** The ISO date of the day with number [d]. *)
Definition isoOfDay (d : Z) : isodate := toISODate (MakeDate d 0).

(** How many of the days [d], [d - 1], ... are in [ds] before the first
    one that is not, looking at no more than [n] days. *)
Fixpoint runLength (n : nat) (d : Z) (ds : list Z) : Z :=
  match n with
  | O => 0
  | S n' => if bool_decide (d ∈ ds) then 1 + runLength n' (d - 1) ds else 0
  end.

(** The streak of the days [ds] whose most recent one is [m]: 0 unless [m]
    is today or yesterday, else the run of consecutive days ending at [m]. *)
Definition streakOf (today m : Z) (ds : list Z) : Z :=
  if bool_decide (m = today \/ m = today - 1) then runLength (length ds) m ds else 0.

(** Insertion sort on day numbers, the counterpart of [sortDates]. *)
Fixpoint insertDay (x : Z) (l : list Z) : list Z :=
  match l with
  | [] => [x]
  | y :: l' => if x <=? y then x :: l else y :: insertDay x l'
  end.

Definition sortDays (l : list Z) : list Z := foldr insertDay [] l.

(** The run of [d], [d - 1], ... at the head of the list [l]. *)
Fixpoint headRun (d : Z) (l : list Z) : Z :=
  match l with
  | [] => 0
  | x :: l' => if x =? d then 1 + headRun (d - 1) l' else 0
  end.

(** Number of days in the inclusive range of day numbers [a .. b]. *)
Definition daysInRange (a b : Z) : Z := Z.max 0 (b - a + 1).

(** Completions of all habits that fall in the range. *)
Definition completionsInRange (startDate endDate : isodate) (habits : list Storage.Habit) : Z :=
  foldr (fun habit n =>
           Z.of_nat (length (filter (fun date => Storage.inRange startDate endDate date = true)
                                    (Storage.completedDates habit))) + n)
        0 habits.





(** A backup whose fields are the storage keys themselves. *)
Definition backupByStorageKey (ls : gmap string Storage.json) : Storage.json :=
  Storage.JObj ((fun key => (key, Storage.get ls key)) <$> Storage.KEYS_values).

(** [round(completions / possible * 100)], and 0 when nothing is possible. *)
Definition habitRateOf (completions possible : Z) : float :=
  if 0 <? possible
  then JSNumber.Math_round ((JSNumber.ofCount completions / JSNumber.ofCount possible) * 100)%float
  else 0%float.

End Spec.

(** ** Sample data *)

Module Examples.
Import ESDate Storage.

Definition exampleTask : Task :=
  mkTask (Some "a") (Some 1) (Some false) (Some None)
         (Some "Write report") (Some "high") (Some "work") (Some 90)
         (Some (mkIso 2026 1 12)).

Definition exampleTasks : option (list Task) := Some [exampleTask].

Definition exampleHabit : Habit :=
  mkHabit "h" 1 [] 0 0 (Some "Read") (Some "daily").

Definition exampleHabits : option (list Habit) := Some [exampleHabit].

(** A partial for [addHabit] that carries a current streak. *)
Definition streakPartial : HabitPartial :=
  mkHabitPartial None None None (Some 3) None (Some "Read") (Some "daily").

(** A store that holds one task under [zenith_tasks]. *)
Definition exampleStore : gmap string json :=
  <["zenith_tasks" := JArr [JObj [("id", JStr "a"); ("title", JStr "Write report")]]]> ∅.

(** Three days in a row, up to 3 November 2026, and that day at noon UTC. *)
Definition oct31 : isodate := mkIso 2026 10 31.
Definition nov1 : isodate := mkIso 2026 11 1.
Definition nov2 : isodate := mkIso 2026 11 2.
Definition nov3 : isodate := mkIso 2026 11 3.
Definition nov3_noon : Z := parseISODate nov3 + 12 * msPerHour.

Definition dec15_2011_noon : Z := MakeDate (MakeDay 2011 11 15) (MakeTime 12 0 0 0).

(** A habit done on 31 October and 1 November. *)
Definition weekendHabit : Habit :=
  mkHabit "h" 1 [oct31; nov1] 0 0 (Some "Read") (Some "daily").

End Examples.

(** * Properties *)

Import ESDate JSNumber Utils Storage App Spec Examples.

(** Linear arithmetic with floor division. *)
Ltac divmod := Z.to_euclidean_division_equations; lia.

(** Reads the entries of the month table that occur in the goal, where the
    month is a numeral. *)
Ltac is_pos_numeral p :=
  lazymatch p with
  | xH => idtac
  | xO ?q => is_pos_numeral q
  | xI ?q => is_pos_numeral q
  end.

Ltac is_Z_numeral a :=
  lazymatch a with
  | Z0 => idtac
  | Zpos ?p => is_pos_numeral p
  | Zneg ?p => is_pos_numeral p
  | (?x + ?y)%Z => is_Z_numeral x; is_Z_numeral y
  end.

Ltac eval_monthStart :=
  repeat match goal with
         | |- context [monthStart (?x + ?y) ?L] =>
             is_Z_numeral x; is_Z_numeral y;
             let v := eval cbv in (x + y) in change (x + y) with v
         | H : context [monthStart (?x + ?y) ?L] |- _ =>
             is_Z_numeral x; is_Z_numeral y;
             let v := eval cbv in (x + y) in change (x + y) with v in H
         end;
  cbn [monthStart] in *.

(** Membership, bounds and distinctness in a list of days written out. *)
Ltac days_mem := rewrite ?elem_of_cons, ?elem_of_nil; lia.
Ltac days_le := let d := fresh "d" in intros d; rewrite ?elem_of_cons, ?elem_of_nil; lia.
Ltac days_nodup := repeat (apply NoDup_cons; split; [days_mem |]); apply NoDup_nil; exact I.

Ltac month_cases m :=
  let Hcase := fresh "Hcase" in
  assert (m = 0 \/ m = 1 \/ m = 2 \/ m = 3 \/ m = 4 \/ m = 5 \/ m = 6 \/ m = 7
          \/ m = 8 \/ m = 9 \/ m = 10 \/ m = 11) as Hcase by lia;
  repeat (destruct Hcase as [-> | Hcase]); try subst m.

(** ** The calendar *)

Section Calendar.


Lemma DaysInYear_cases y : DaysInYear y = 365 \/ DaysInYear y = 366.
Proof.
  unfold DaysInYear.
  repeat match goal with |- context [negb ?b] => destruct b; cbn [negb] end; auto.
Qed.

Lemma DayFromYear_succ y : DayFromYear (y + 1) = DayFromYear y + DaysInYear y.
Proof.
  unfold DayFromYear, DaysInYear.
  destruct (Z.eqb_spec (y mod 4) 0); destruct (Z.eqb_spec (y mod 100) 0);
    destruct (Z.eqb_spec (y mod 400) 0); cbn [negb]; divmod.
Qed.

Lemma DayFromYear_mono y1 y2 : y1 <= y2 -> DayFromYear y1 <= DayFromYear y2.
Proof. unfold DayFromYear. intros. divmod. Qed.

Lemma DayFromYear_lt y1 y2 : y1 < y2 -> DayFromYear y1 < DayFromYear y2.
Proof.
  intros H. pose proof (DayFromYear_mono (y1 + 1) y2 ltac:(lia)) as Hm.
  rewrite DayFromYear_succ in Hm. destruct (DaysInYear_cases y1); lia.
Qed.

(** [YearFromTime] is the year whose span of days holds [Day t]. *)
Lemma YearFromTime_spec t :
  DayFromYear (YearFromTime t) <= Day t < DayFromYear (YearFromTime t + 1).
Proof.
  unfold YearFromTime. generalize (Day t) as d. intros d.
  set (y0 := 1970 + 400 * d / 146097).
  destruct (Z.ltb_spec d (DayFromYear y0)) as [Hlt | Hge].
  - replace (y0 - 1 + 1) with y0 by lia. split; [| lia].
    unfold DayFromYear in *. subst y0. divmod.
  - destruct (Z.leb_spec (DayFromYear (y0 + 1)) d) as [Hle | Hgt]; [| lia].
    split; [lia |]. unfold DayFromYear in *. subst y0. divmod.
Qed.

Lemma YearFromTime_unique t y :
  DayFromYear y <= Day t < DayFromYear (y + 1) -> YearFromTime t = y.
Proof.
  intros Hy. pose proof (YearFromTime_spec t) as Hs.
  destruct (Z.lt_trichotomy (YearFromTime t) y) as [Hlt | [Heq | Hgt]]; [| exact Heq |].
  - pose proof (DayFromYear_mono (YearFromTime t + 1) y ltac:(lia)). lia.
  - pose proof (DayFromYear_mono (y + 1) (YearFromTime t) ltac:(lia)). lia.
Qed.

(** The ECMAScript wording: the largest [y] with [TimeFromYear y <= t]. *)
Lemma YearFromTime_largest t :
  TimeFromYear (YearFromTime t) <= t /\
  forall y, TimeFromYear y <= t -> y <= YearFromTime t.
Proof.
  pose proof (YearFromTime_spec t) as [Hlo Hhi].
  unfold TimeFromYear, Day, msPerDay in *. split.
  - divmod.
  - intros y Hy.
    destruct (Z.le_gt_cases y (YearFromTime t)) as [Hle | Hgt]; [exact Hle |].
    pose proof (DayFromYear_mono (YearFromTime t + 1) y ltac:(lia)).
    exfalso. revert Hhi Hy H. generalize (DayFromYear y) (DayFromYear (YearFromTime t + 1)).
    intros. divmod.
Qed.

Lemma InLeapYear_DaysInYear t : DaysInYear (YearFromTime t) = 365 + InLeapYear t.
Proof.
  unfold InLeapYear. destruct (DaysInYear_cases (YearFromTime t)) as [H | H]; rewrite H; reflexivity.
Qed.

Lemma InLeapYear_cases t : InLeapYear t = 0 \/ InLeapYear t = 1.
Proof. unfold InLeapYear. destruct (_ =? _); auto. Qed.

Lemma DayWithinYear_bounds t : 0 <= DayWithinYear t < 365 + InLeapYear t.
Proof.
  unfold DayWithinYear. pose proof (YearFromTime_spec t) as Hs.
  rewrite DayFromYear_succ, InLeapYear_DaysInYear in Hs. lia.
Qed.

Lemma MonthFromTime_bounds t :
  0 <= MonthFromTime t <= 11 /\
  monthStart (MonthFromTime t) (InLeapYear t) <= DayWithinYear t
    < monthStart (MonthFromTime t + 1) (InLeapYear t).
Proof.
  pose proof (DayWithinYear_bounds t) as Hb.
  unfold MonthFromTime. generalize dependent (DayWithinYear t). intros d Hb.
  destruct (InLeapYear_cases t) as [HL | HL]; rewrite HL in *; eval_monthStart;
    repeat match goal with
           | |- context [?a <? ?b] => destruct (Z.ltb_spec a b)
           end; eval_monthStart; lia.
Qed.

Lemma DateFromTime_bounds t : 1 <= DateFromTime t <= 31.
Proof.
  pose proof (MonthFromTime_bounds t) as [Hm Hd]. unfold DateFromTime.
  assert (Hc : exists m, MonthFromTime t = m /\ 0 <= m <= 11) by eauto.
  destruct Hc as [m [Hm' Hr]]. rewrite Hm' in *. clear Hm'.
  destruct (InLeapYear_cases t) as [HL | HL]; rewrite HL in *;
    assert (m = 0 \/ m = 1 \/ m = 2 \/ m = 3 \/ m = 4 \/ m = 5 \/ m = 6 \/ m = 7
            \/ m = 8 \/ m = 9 \/ m = 10 \/ m = 11) as Hcase by lia;
    repeat (destruct Hcase as [-> | Hcase]); try subst m; eval_monthStart; lia.
Qed.

(** Moving the day of the month moves the day number by as much. *)
Lemma MakeDay_civil t k :
  MakeDay (YearFromTime t) (MonthFromTime t) (DateFromTime t + k) = Day t + k.
Proof.
  pose proof (MonthFromTime_bounds t) as [Hm _].
  unfold MakeDay.
  replace (MonthFromTime t / 12) with 0 by divmod.
  replace (MonthFromTime t mod 12) with (MonthFromTime t) by divmod.
  rewrite Z.add_0_r. fold (InLeapYear t).
  unfold DateFromTime, DayWithinYear. lia.
Qed.

Lemma Day_MakeDate d time : 0 <= time < msPerDay -> Day (MakeDate d time) = d.
Proof. unfold Day, MakeDate, msPerDay. intros. divmod. Qed.

Lemma TimeWithinDay_MakeDate d time :
  0 <= time < msPerDay -> TimeWithinDay (MakeDate d time) = time.
Proof. unfold TimeWithinDay, MakeDate, msPerDay. intros. divmod. Qed.

Lemma TimeWithinDay_bounds t : 0 <= TimeWithinDay t < msPerDay.
Proof. unfold TimeWithinDay, msPerDay. divmod. Qed.

Lemma MakeDate_Day t : MakeDate (Day t) (TimeWithinDay t) = t.
Proof. unfold MakeDate, Day, TimeWithinDay, msPerDay. divmod. Qed.

Lemma daysInMonth_bounds year month : 28 <= daysInMonth year month <= 31.
Proof.
  unfold daysInMonth.
  assert (Hr : 0 <= month mod 12 < 12) by divmod.
  generalize dependent (month mod 12). intros m Hr.
  assert (m = 0 \/ m = 1 \/ m = 2 \/ m = 3 \/ m = 4 \/ m = 5 \/ m = 6 \/ m = 7
          \/ m = 8 \/ m = 9 \/ m = 10 \/ m = 11) as Hcase by lia.
  destruct (_ =? _);
    repeat (destruct Hcase as [-> | Hcase]); try subst m; eval_monthStart; lia.
Qed.

Lemma MakeDay_shift year month date k :
  MakeDay year month (date + k) = MakeDay year month date + k.
Proof. unfold MakeDay. lia. Qed.

Lemma MakeDay_next_month year month date :
  MakeDay year (month + 1) date = MakeDay year month date + daysInMonth year month.
Proof.
  unfold MakeDay, daysInMonth.
  assert (Hr : 0 <= month mod 12 < 12) by divmod.
  destruct (Z.eq_dec (month mod 12) 11) as [H11 | H11].
  - replace ((month + 1) / 12) with (month / 12 + 1) by divmod.
    replace ((month + 1) mod 12) with 0 by divmod.
    rewrite H11, Z.add_assoc, DayFromYear_succ.
    destruct (DaysInYear_cases (year + month / 12)) as [Hd | Hd]; rewrite Hd;
      change (365 =? 366) with false; change (366 =? 366) with true;
      eval_monthStart; lia.
  - replace ((month + 1) / 12) with (month / 12) by divmod.
    replace ((month + 1) mod 12) with (month mod 12 + 1) by divmod.
    lia.
Qed.

Lemma Day_midnight d : Day (MakeDate d 0) = d.
Proof. apply Day_MakeDate. unfold msPerDay. lia. Qed.

(** Going back by the weekday counted from Monday lands on a Monday. *)
Lemma monday_before d i :
  (d - ((d + 4) mod 7 + 6) mod 7 + i + 4) mod 7 = (i + 1) mod 7.
Proof. divmod. Qed.

Lemma month_neq_pred month : (month - 1) mod 12 <> month mod 12.
Proof. divmod. Qed.

Lemma month_neq_succ month : (month + 1) mod 12 <> month mod 12.
Proof. divmod. Qed.

(** The calendar date of a day of the month [month] of [year]. *)
Lemma civil_of_MakeDay year month k t :
  0 <= k < daysInMonth year month ->
  Day t = MakeDay year month (k + 1) ->
  YearFromTime t = year + month / 12 /\
  MonthFromTime t = month mod 12 /\
  DateFromTime t = k + 1.
Proof.
  intros Hk Ht. unfold daysInMonth, MakeDay in *.
  set (ym := year + month / 12) in *.
  assert (Hr : 0 <= month mod 12 < 12) by divmod.
  generalize dependent (month mod 12). intros m Hk Ht Hr.
  assert (Hy : YearFromTime t = ym).
  { apply YearFromTime_unique. rewrite DayFromYear_succ, Ht.
    assert (m = 0 \/ m = 1 \/ m = 2 \/ m = 3 \/ m = 4 \/ m = 5 \/ m = 6 \/ m = 7
            \/ m = 8 \/ m = 9 \/ m = 10 \/ m = 11) as Hcase by lia.
    destruct (DaysInYear_cases ym) as [Hd | Hd]; rewrite Hd in *; cbn [Z.eqb Pos.eqb] in *;
      repeat (destruct Hcase as [-> | Hcase]); try subst m; eval_monthStart; lia. }
  split; [exact Hy |].
  assert (HL : InLeapYear t = if DaysInYear ym =? 366 then 1 else 0).
  { unfold InLeapYear. rewrite Hy. reflexivity. }
  assert (Hd : DayWithinYear t =
               monthStart m (if DaysInYear ym =? 366 then 1 else 0) + k).
  { unfold DayWithinYear. rewrite Hy, Ht. lia. }
  assert (Hm : MonthFromTime t = m).
  { unfold MonthFromTime. rewrite HL, Hd.
    assert (m = 0 \/ m = 1 \/ m = 2 \/ m = 3 \/ m = 4 \/ m = 5 \/ m = 6 \/ m = 7
            \/ m = 8 \/ m = 9 \/ m = 10 \/ m = 11) as Hcase by lia.
    destruct (DaysInYear ym =? 366);
      repeat (destruct Hcase as [-> | Hcase]); try subst m; eval_monthStart;
      repeat match goal with
             | |- context [?a <? ?b] => destruct (Z.ltb_spec a b); try lia
             end. }
  split; [exact Hm |].
  unfold DateFromTime. rewrite Hm, HL, Hd. lia.
Qed.

End Calendar.

(** ** Time zones *)

Section Zones.

Lemma fixedZone_roundtrip offset tl :
  LocalTime (fixedZone offset) (UTC (fixedZone offset) tl) = tl.
Proof. unfold LocalTime, UTC, fixedZone; cbn. lia. Qed.

Lemma fixedZone_regular offset : RegularZone (fixedZone offset).
Proof.
  split; intros; rewrite fixedZone_roundtrip; reflexivity.
Qed.

Ltac eval_transitions :=
  let s := eval vm_compute in newYorkSpring in
  let f := eval vm_compute in newYorkFall in
  change newYorkSpring with s in *; change newYorkFall with f in *;
  unfold EST, EDT, msPerHour in *.

Lemma Day_between a b d :
  d * msPerDay <= a < (d + 1) * msPerDay ->
  d * msPerDay <= b < (d + 1) * msPerDay ->
  Day a = Day b.
Proof. unfold Day, msPerDay. intros. divmod. Qed.

(** Only the hour skipped on 8 March is moved, to the hour after it. *)
Lemma newYork2026_roundtrip tl :
  LocalTime newYork2026 (UTC newYork2026 tl) = tl \/
  (newYorkSpring + EST <= tl < newYorkSpring + EDT /\
   LocalTime newYork2026 (UTC newYork2026 tl) = tl + msPerHour).
Proof.
  unfold LocalTime, UTC, newYork2026; cbn [LocalTZA].
  eval_transitions.
  destruct (Z.ltb_spec tl (1772953200000 + -4 * 3600000));
    [| destruct (Z.ltb_spec tl (1793512800000 + -4 * 3600000))];
    repeat match goal with
           | |- context [?a <? ?b] => destruct (Z.ltb_spec a b); try lia
           end.
Qed.

Lemma newYork2026_regular : RegularZone newYork2026.
Proof.
  split.
  - intros tl. destruct (newYork2026_roundtrip tl) as [-> | [Hgap ->]]; [reflexivity |].
    revert Hgap. eval_transitions. intros Hgap.
    apply (Day_between _ _ 20520); unfold msPerDay; lia.
  - intros d. destruct (newYork2026_roundtrip (MakeDate d 0)) as [-> | [Hgap _]]; [reflexivity |].
    exfalso. revert Hgap. eval_transitions. unfold MakeDate, msPerDay. lia.
Qed.

End Zones.

(** ** [getWeekStart] *)

Section WeekStart.

Variable tz : TimeZone.

(** The day number of the Monday on or before the local day of [D]. *)
Let mondayOf (D : Z) : Z :=
  Day (LocalTime tz D) - (WeekDay (LocalTime tz D) + 6) mod 7.

(** [getWeekStart D] is the instant the zone gives to midnight of that
    Monday, where the local time of day of [D] on that Monday is read as an
    instant of that Monday. *)
Lemma getWeekStart_instant D :
  Day (LocalTime tz (UTC tz (MakeDate (mondayOf D) (TimeWithinDay (LocalTime tz D)))))
  = mondayOf D ->
  getWeekStart tz D = UTC tz (MakeDate (mondayOf D) 0).
Proof.
  unfold getWeekStart, setHours, setDate, getDay, getDate, mondayOf.
  set (lt := LocalTime tz D).
  set (k := - WeekDay lt + (if WeekDay lt =? 0 then -6 else 1)).
  replace (DateFromTime lt - WeekDay lt + (if WeekDay lt =? 0 then -6 else 1))
    with (DateFromTime lt + k) by (subst k; lia).
  rewrite MakeDay_civil.
  replace (Day lt + k) with (Day lt - (WeekDay lt + 6) mod 7).
  - intros ->. reflexivity.
  - subst k. unfold WeekDay. destruct (Z.eqb_spec ((Day lt + 4) mod 7) 0); divmod.
Qed.

Hypothesis Hz : RegularZone tz.

Lemma getWeekStart_value D :
  getWeekStart tz D =
  UTC tz (MakeDate (Day (LocalTime tz D) - (WeekDay (LocalTime tz D) + 6) mod 7) 0).
Proof.
  apply getWeekStart_instant. rewrite (zone_day tz Hz).
  apply Day_MakeDate, TimeWithinDay_bounds.
Qed.

(** The local time of the week start: midnight, as many days back as the
    weekday is past Monday. *)
Lemma getWeekStart_local D :
  LocalTime tz (getWeekStart tz D) =
  MakeDate (Day (LocalTime tz D) - (WeekDay (LocalTime tz D) + 6) mod 7) 0.
Proof. rewrite getWeekStart_value. apply (zone_midnight tz Hz). Qed.

End WeekStart.




(** ** [getCalendarDays] *)

Section CalendarGrid.

Variable tz : TimeZone.
Variables (now year month : Z).

Lemma map_fmap {A B} (f : A -> B) (l : list A) : map f l = f <$> l.
Proof. induction l as [| x l IH]; [reflexivity |]. cbn. rewrite IH. reflexivity. Qed.

Lemma rev_reverse {A} (l : list A) : rev l = reverse l.
Proof. apply rev_alt. Qed.

(** The year meant by [new Date(year, ...)]. *)
Let yr : Z := if (0 <=? year) && (year <=? 99) then 1900 + year else year.
(** Day number of the first of the month. *)
Let first : Z := MakeDay yr month 1.
(** Cells before the first: its weekday counted from Monday. *)
Let lead : Z := (WeekDay (MakeDate first 0) + 6) mod 7.

Lemma WeekDay_of_Day t1 t2 : Day t1 = Day t2 -> WeekDay t1 = WeekDay t2.
Proof. unfold WeekDay. intros ->. reflexivity. Qed.

Lemma civil_of_Day t1 t2 :
  Day t1 = Day t2 ->
  YearFromTime t1 = YearFromTime t2 /\ MonthFromTime t1 = MonthFromTime t2 /\
  DateFromTime t1 = DateFromTime t2.
Proof.
  intros H.
  assert (Hy : YearFromTime t1 = YearFromTime t2) by (unfold YearFromTime; rewrite H; reflexivity).
  assert (HL : InLeapYear t1 = InLeapYear t2) by (unfold InLeapYear; rewrite Hy; reflexivity).
  assert (Hd : DayWithinYear t1 = DayWithinYear t2) by (unfold DayWithinYear; rewrite H, Hy; reflexivity).
  assert (Hm : MonthFromTime t1 = MonthFromTime t2) by (unfold MonthFromTime; rewrite Hd, HL; reflexivity).
  repeat split; try assumption.
  unfold DateFromTime. rewrite Hd, Hm, HL. reflexivity.
Qed.

Lemma lead_range : 0 <= lead <= 6.
Proof. subst lead. cbv zeta. divmod. Qed.

Lemma lead_monday i : (first - lead + i + 4) mod 7 = (i + 1) mod 7.
Proof using Type.
  subst lead. cbv zeta. unfold WeekDay. rewrite Day_midnight. apply monday_before.
Qed.

(** The count of 42 needs nothing of the zone: the first loop makes at most
    6 cells and the second at most 31, and the third fills up. *)
Lemma getCalendarDays_length : length (getCalendarDays tz now year month) = 42%nat.
Proof.
  unfold getCalendarDays. cbv zeta.
  set (w := getDay tz (newDate tz year month 1)).
  set (n := getDate tz (newDate tz year (month + 1) 0)).
  assert (Hw : 0 <= w < 7) by (subst w; unfold getDay, WeekDay; divmod).
  assert (Hn : 1 <= n <= 31) by (subst n; apply DateFromTime_bounds).
  rewrite !length_app, !length_map, length_rev, !length_seqZ.
  destruct (Z.eqb_spec (w - 1) (-1)); lia.
Qed.

(** From here on, each of the 42 local midnights from the Monday on or
    before the first of the month is read as an instant of its own day. *)
Hypothesis Hshown : forall d,
  first - lead <= d < first - lead + 42 ->
  Day (LocalTime tz (UTC tz (MakeDate d 0))) = d.

Lemma newDate_local_day m d :
  first - lead <= MakeDay yr m d < first - lead + 42 ->
  Day (LocalTime tz (newDate tz year m d)) = MakeDay yr m d.
Proof.
  intros Hr. unfold newDate. fold yr. change (MakeTime 0 0 0 0) with 0.
  apply Hshown, Hr.
Qed.

Lemma startDay_lead :
  (let startDay := getDay tz (newDate tz year month 1) - 1 in
   if startDay =? -1 then 6 else startDay) = lead.
Proof.
  pose proof lead_range as Hl.
  cbv zeta. unfold getDay.
  rewrite (WeekDay_of_Day _ (MakeDate first 0)).
  2:{ rewrite newDate_local_day, Day_MakeDate;
        [reflexivity | unfold msPerDay; lia | fold first; lia]. }
  subst lead. cbv zeta.
  assert (0 <= WeekDay (MakeDate first 0) < 7) by (unfold WeekDay; divmod).
  destruct (Z.eqb_spec (WeekDay (MakeDate first 0) - 1) (-1)); divmod.
Qed.

(** [lastDay.getDate()] is the length of the month. *)
Lemma lastDay_getDate :
  getDate tz (newDate tz year (month + 1) 0) = daysInMonth yr month.
Proof.
  unfold getDate.
  pose proof lead_range as Hl.
  pose proof (daysInMonth_bounds yr month) as Hb.
  assert (Hmk : MakeDay yr (month + 1) 0 = first + daysInMonth yr month - 1)
    by (rewrite MakeDay_next_month; subst first; unfold MakeDay; lia).
  destruct (civil_of_MakeDay yr month (daysInMonth yr month - 1)
              (LocalTime tz (newDate tz year (month + 1) 0))) as (_ & _ & Hd).
  - lia.
  - rewrite newDate_local_day by lia. rewrite Hmk. subst first. unfold MakeDay. lia.
  - rewrite Hd. lia.
Qed.

Let cellPrev (i : Z) : DayCell :=
  let date := newDate tz year month (- i) in
  mkCell date (formatDateStr date) (getDate tz date) true false.
Let cellCur (i : Z) : DayCell :=
  let date := newDate tz year month i in
  mkCell date (formatDateStr date) i false (isToday tz now date).
Let cellNext (i : Z) : DayCell :=
  let date := newDate tz year (month + 1) i in
  mkCell date (formatDateStr date) i true false.

(** The three loops: [lead] cells, the month, and what is left of 42. *)
Lemma getCalendarDays_segments :
  getCalendarDays tz now year month =
  (cellPrev <$> reverse (seqZ 0 lead))
    ++ (cellCur <$> seqZ 1 (daysInMonth yr month))
    ++ (cellNext <$> seqZ 1 (42 - lead - daysInMonth yr month)).
Proof.
  pose proof startDay_lead as Hs. cbv zeta in Hs.
  pose proof lead_range as Hl.
  pose proof (daysInMonth_bounds yr month) as Hb.
  unfold getCalendarDays. cbv zeta.
  rewrite Hs, lastDay_getDate, rev_reverse. repeat rewrite map_fmap.
  rewrite <- app_assoc. do 2 f_equal.
  rewrite length_app, !length_fmap, length_reverse, !length_seqZ.
  do 2 f_equal. lia.
Qed.

(** The cell at index [i], by the loop that made it. *)
Lemma getCalendarDays_lookup (i : nat) (c : DayCell) :
  getCalendarDays tz now year month !! i = Some c ->
  (Z.of_nat i < lead /\ c = cellPrev (lead - 1 - Z.of_nat i)) \/
  (lead <= Z.of_nat i < lead + daysInMonth yr month /\
   c = cellCur (Z.of_nat i - lead + 1)) \/
  (lead + daysInMonth yr month <= Z.of_nat i < 42 /\
   c = cellNext (Z.of_nat i - lead - daysInMonth yr month + 1)).
Proof.
  pose proof lead_range as Hl.
  pose proof (daysInMonth_bounds yr month) as Hb.
  rewrite getCalendarDays_segments. intros H.
  apply lookup_app_Some in H as [H | [Hlen H]].
  - left. apply list_lookup_fmap_Some in H as (x & -> & Hx).
    apply reverse_lookup_Some in Hx as [Hx Hi].
    rewrite length_seqZ in Hx, Hi.
    apply lookup_seqZ in Hx as [-> _].
    split; [lia |]. f_equal. lia.
  - rewrite length_fmap, length_reverse, length_seqZ in Hlen, H.
    apply lookup_app_Some in H as [H | [Hlen2 H]].
    + right; left. apply list_lookup_fmap_Some in H as (x & -> & Hx).
      apply lookup_seqZ in Hx as [-> Hi].
      split; [lia |]. f_equal. lia.
    + right; right. rewrite length_fmap, length_seqZ in Hlen2, H.
      apply list_lookup_fmap_Some in H as (x & -> & Hx).
      apply lookup_seqZ in Hx as [-> Hi].
      split; [lia |]. f_equal. lia.
Qed.

(** What a cell holds, for each of the three loops. *)
Lemma cell_properties (i : nat) (c : DayCell) :
  getCalendarDays tz now year month !! i = Some c ->
  Day (LocalTime tz (cell_date c)) = first - lead + Z.of_nat i /\
  cell_dayNum c = getDate tz (cell_date c) /\
  ((cell_isOtherMonth c = true /\ Z.of_nat i < lead /\
    getFullYear tz (cell_date c) = yr + (month - 1) / 12 /\
    getMonth tz (cell_date c) = (month - 1) mod 12) \/
   (cell_isOtherMonth c = false /\
    lead <= Z.of_nat i < lead + daysInMonth yr month /\
    cell_dayNum c = Z.of_nat i - lead + 1 /\
    getFullYear tz (cell_date c) = yr + month / 12 /\
    getMonth tz (cell_date c) = month mod 12) \/
   (cell_isOtherMonth c = true /\ lead + daysInMonth yr month <= Z.of_nat i /\
    getFullYear tz (cell_date c) = yr + (month + 1) / 12 /\
    getMonth tz (cell_date c) = (month + 1) mod 12)).
Proof.
  pose proof lead_range as Hl.
  pose proof (daysInMonth_bounds yr month) as Hb.
  pose proof (daysInMonth_bounds yr (month - 1)) as Hp.
  pose proof (daysInMonth_bounds yr (month + 1)) as Hn.
  intros H. apply getCalendarDays_lookup in H as [[Hi ->] | [[Hi ->] | [Hi ->]]].
  - (* tail of the previous month *)
    set (j := lead - 1 - Z.of_nat i).
    assert (Hmk : MakeDay yr month (- j) = first - lead + Z.of_nat i)
      by (subst j first; unfold MakeDay; lia).
    assert (Hloc : Day (LocalTime tz (newDate tz year month (- j))) = first - lead + Z.of_nat i)
      by (rewrite newDate_local_day; lia).
    assert (Hday : Day (LocalTime tz (newDate tz year month (- j))) =
                   MakeDay yr (month - 1) (daysInMonth yr (month - 1) - 1 - j + 1)).
    { rewrite Hloc, <- Hmk.
      pose proof (MakeDay_next_month yr (month - 1) (- j)) as Hm.
      replace (month - 1 + 1) with month in Hm by lia. rewrite Hm.
      unfold MakeDay. lia. }
    destruct (civil_of_MakeDay yr (month - 1) (daysInMonth yr (month - 1) - 1 - j) _
                ltac:(subst j; lia) Hday) as (Hy & Hm & _).
    unfold cellPrev; cbn [cell_date cell_dayNum cell_isOtherMonth].
    split; [exact Hloc |].
    split; [reflexivity |].
    left. unfold getFullYear, getMonth. auto.
  - (* the month *)
    set (j := Z.of_nat i - lead + 1).
    assert (Hmk : MakeDay yr month j = first - lead + Z.of_nat i)
      by (subst j first; unfold MakeDay; lia).
    assert (Hloc : Day (LocalTime tz (newDate tz year month j)) = first - lead + Z.of_nat i)
      by (rewrite newDate_local_day; lia).
    assert (Hday : Day (LocalTime tz (newDate tz year month j)) = MakeDay yr month (j - 1 + 1)).
    { rewrite Hloc, <- Hmk. f_equal. lia. }
    destruct (civil_of_MakeDay yr month (j - 1) _ ltac:(subst j; lia) Hday) as (Hy & Hm & Hd).
    unfold cellCur; cbn [cell_date cell_dayNum cell_isOtherMonth].
    split; [exact Hloc |].
    split; [unfold getDate; rewrite Hd; lia |].
    right; left. unfold getFullYear, getMonth. repeat split; auto; lia.
  - (* head of the next month *)
    set (j := Z.of_nat i - lead - daysInMonth yr month + 1).
    assert (Hmk : MakeDay yr (month + 1) j = first - lead + Z.of_nat i)
      by (rewrite MakeDay_next_month; subst j first; unfold MakeDay; lia).
    assert (Hloc : Day (LocalTime tz (newDate tz year (month + 1) j)) = first - lead + Z.of_nat i)
      by (rewrite newDate_local_day; lia).
    assert (Hday : Day (LocalTime tz (newDate tz year (month + 1) j)) =
                   MakeDay yr (month + 1) (j - 1 + 1)).
    { rewrite Hloc, <- Hmk. f_equal. lia. }
    destruct (civil_of_MakeDay yr (month + 1) (j - 1) _ ltac:(subst j; lia) Hday) as (Hy & Hm & Hd).
    unfold cellNext; cbn [cell_date cell_dayNum cell_isOtherMonth].
    split; [exact Hloc |].
    split; [unfold getDate; rewrite Hd; lia |].
    right; right. unfold getFullYear, getMonth. repeat split; auto; lia.
Qed.

End CalendarGrid.

(** C4. For every year and month, in every time zone, the grid has exactly
    42 cells.  Where each of the 42 local midnights from [start], the Monday
    on or before the first of the month, is read as an instant of its own
    day, the cell at index [i] is the calendar day [start + i], so its
    weekday is [(i + 1) mod 7] and the cells at indices 6, 13, 20, 27, 34
    and 41 are Sundays; the cells of the month itself are not flagged and
    carry their day of the month, the cells before them lie in the previous
    month and the cells after them in the next month, both flagged
    [isOtherMonth]. *)
Theorem getCalendarDays_grid (tz : TimeZone) (now year month : Z) :
  let yr := if (0 <=? year) && (year <=? 99) then 1900 + year else year in
  let first := MakeDay yr month 1 in
  let start := first - (WeekDay (MakeDate first 0) + 6) mod 7 in
  let cells := getCalendarDays tz now year month in
  length cells = 42%nat /\
  WeekDay (MakeDate start 0) = 1 /\
  start <= first <= start + 6 /\
  ((forall d, start <= d < start + 42 -> Day (LocalTime tz (UTC tz (MakeDate d 0))) = d) ->
   (forall (i : nat) (c : DayCell),
       cells !! i = Some c ->
       Day (LocalTime tz (cell_date c)) = start + Z.of_nat i /\
       getDay tz (cell_date c) = (Z.of_nat i + 1) mod 7 /\
       cell_dayNum c = getDate tz (cell_date c) /\
       (cell_isOtherMonth c = false <->
        getFullYear tz (cell_date c) = yr + month / 12 /\
        getMonth tz (cell_date c) = month mod 12) /\
       (cell_isOtherMonth c = true ->
        (Day (LocalTime tz (cell_date c)) < first /\
         getFullYear tz (cell_date c) = yr + (month - 1) / 12 /\
         getMonth tz (cell_date c) = (month - 1) mod 12) \/
        (first + daysInMonth yr month <= Day (LocalTime tz (cell_date c)) /\
         getFullYear tz (cell_date c) = yr + (month + 1) / 12 /\
         getMonth tz (cell_date c) = (month + 1) mod 12))) /\
   (forall k : nat,
       (1 <= k <= 6)%nat ->
       exists c, cells !! (7 * k - 1)%nat = Some c /\ getDay tz (cell_date c) = 0)).
Proof.
  intros yr first start cells.
  pose proof (lead_range year month) as Hl. cbv zeta in Hl. fold yr first in Hl.
  pose proof (lead_monday year month) as Hmon. cbv zeta in Hmon. fold yr first in Hmon.
  split; [apply getCalendarDays_length |].
  split.
  { unfold WeekDay. rewrite Day_MakeDate by (unfold msPerDay; lia).
    specialize (Hmon 0). rewrite Z.add_0_r in Hmon. exact Hmon. }
  split; [subst start; lia |].
  intros Hshown.
  assert (Hcell : forall (i : nat) c, cells !! i = Some c ->
            Day (LocalTime tz (cell_date c)) = start + Z.of_nat i /\
            getDay tz (cell_date c) = (Z.of_nat i + 1) mod 7).
  { intros i c Hc.
    pose proof (cell_properties tz now year month Hshown i c Hc) as (Hd & _).
    cbv zeta in Hd. fold yr first in Hd. fold start in Hd.
    split; [exact Hd |].
    unfold getDay, WeekDay. rewrite Hd. apply Hmon. }
  split.
  - intros i c Hc. destruct (Hcell i c Hc) as [Hd Hw].
    pose proof (cell_properties tz now year month Hshown i c Hc) as (_ & Hnum & Hseg).
    cbv zeta in Hseg. fold yr first in Hseg.
    pose proof (month_neq_pred month). pose proof (month_neq_succ month).
    split; [exact Hd |]. split; [exact Hw |]. split; [exact Hnum |].
    destruct Hseg as [(Hf & Hi & Hy & Hm) | [(Hf & Hi & _ & Hy & Hm) | (Hf & Hi & Hy & Hm)]].
    + split; [split; [intros; congruence | intros [_ Hm']; congruence] |].
      intros _. left. subst start. split; [lia | auto].
    + split; [split; auto |]. intros; congruence.
    + split; [split; [intros; congruence | intros [_ Hm']; congruence] |].
      intros _. right. subst start. split; [lia | auto].
  - intros k Hk.
    destruct (lookup_lt_is_Some_2 cells (7 * k - 1)) as [c Hc].
    { unfold cells. rewrite getCalendarDays_length. lia. }
    exists c. split; [exact Hc |].
    destruct (Hcell _ c Hc) as [_ Hw]. rewrite Hw. divmod.
Qed.

Lemma getCalendarDays_grid_witness :
  (forall d,
     MakeDay 2026 10 1 - (WeekDay (MakeDate (MakeDay 2026 10 1) 0) + 6) mod 7 <= d
       < MakeDay 2026 10 1 - (WeekDay (MakeDate (MakeDay 2026 10 1) 0) + 6) mod 7 + 42 ->
     Day (LocalTime newYork2026 (UTC newYork2026 (MakeDate d 0))) = d) /\
  length (getCalendarDays newYork2026 1793664000000 2026 10) = 42%nat /\
  exists c,
    getCalendarDays newYork2026 1793664000000 2026 10 !! 6%nat = Some c /\
    getDay newYork2026 (cell_date c) = 0.
Proof.
  assert (Hshown : forall d,
     MakeDay 2026 10 1 - (WeekDay (MakeDate (MakeDay 2026 10 1) 0) + 6) mod 7 <= d
       < MakeDay 2026 10 1 - (WeekDay (MakeDate (MakeDay 2026 10 1) 0) + 6) mod 7 + 42 ->
     Day (LocalTime newYork2026 (UTC newYork2026 (MakeDate d 0))) = d).
  { intros d _. rewrite (zone_day newYork2026 newYork2026_regular). apply Day_midnight. }
  pose proof (getCalendarDays_grid newYork2026 1793664000000 2026 10) as (Hlen & _ & _ & Hgrid).
  split; [exact Hshown |]. split; [exact Hlen |].
  exact (proj2 (Hgrid Hshown) 1%nat (conj (le_n 1) (le_S _ _ (le_S _ _ (le_S _ _ (le_S _ _ (le_S _ _ (le_n 1)))))))).
Defined.

(** In Apia the 30th of December 2011 was skipped: the cells of the grid
    of that month numbered 30 and 31 are the same instant, on the 31st, so
    the cells are not consecutive calendar dates. *)
Lemma getCalendarDays_apia_2011 :
  exists c30 c31,
    getCalendarDays apia2011 dec15_2011_noon 2011 11 !! 32%nat = Some c30 /\
    getCalendarDays apia2011 dec15_2011_noon 2011 11 !! 33%nat = Some c31 /\
    cell_dayNum c30 = 30 /\ cell_dayNum c31 = 31 /\
    cell_isOtherMonth c30 = false /\ cell_isOtherMonth c31 = false /\
    cell_date c30 = cell_date c31 /\
    getDate apia2011 (cell_date c30) = 31 /\
    Day (LocalTime apia2011 (cell_date c30)) = Day (LocalTime apia2011 (cell_date c31)).
Proof.
  do 2 eexists. do 8 (split; [vm_compute; reflexivity |]). vm_compute. reflexivity.
Qed.

(** ** Numbers, capacity *)

Section Numbers.

(** [roundHalfUp n k] is the integer [r] with [r - 1/2 <= n / 2^k < r + 1/2]. *)
Lemma roundHalfUp_spec n k :
  0 <= k ->
  let r := roundHalfUp n k in
  2 ^ k * (2 * r - 1) <= 2 * n < 2 ^ k * (2 * r + 1).
Proof.
  intros Hk r. subst r. unfold roundHalfUp.
  rewrite Z.pow_add_r by lia. change (2 ^ 1) with 2.
  assert (Hp : 0 < 2 ^ k) by (apply Z.pow_pos_nonneg; lia).
  generalize dependent (2 ^ k). intros p Hp.
  pose proof (Z.div_mod (2 * n + p) (p * 2) ltac:(lia)) as Hdm.
  pose proof (Z.mod_pos_bound (2 * n + p) (p * 2) ltac:(lia)) as Hmb.
  nia.
Qed.










End Numbers.




(** ** Tasks *)

Section ListFind.

Context {A : Type} (P : A -> Prop) `{!forall x, Decision (P x)}.

Lemma list_find_insert_found (l : list A) i x y :
  list_find P l = Some (i, x) -> P y -> list_find P (<[i := y]> l) = Some (i, y).
Proof.
  intros (Hi & _ & Hmin)%list_find_Some Hy. apply list_find_Some.
  split; [apply list_lookup_insert_eq; eauto using lookup_lt_Some |].
  split; [exact Hy |].
  intros j z Hj Hlt. rewrite list_lookup_insert_ne in Hj by lia. eauto.
Qed.

Lemma list_find_insert_other (l : list A) i j x y z :
  list_find P l = Some (j, z) -> l !! i = Some x -> i <> j -> (P x <-> P y) ->
  list_find P (<[i := y]> l) = Some (j, z).
Proof.
  intros (Hj & Hz & Hmin)%list_find_Some Hi Hne Hxy. apply list_find_Some.
  split; [rewrite list_lookup_insert_ne by done; exact Hj |].
  split; [exact Hz |].
  intros k w Hk Hlt. destruct (decide (k = i)) as [-> | Hki].
  - rewrite list_lookup_insert_eq in Hk by eauto using lookup_lt_Some.
    injection Hk as <-. rewrite <- Hxy. eauto.
  - rewrite list_lookup_insert_ne in Hk by done. eauto.
Qed.

End ListFind.

(** C8. For an id that no stored task carries, [updateTask] returns [null]
    and the stored collection is what it was. *)
Theorem updateTask_not_found (now : Z) (id : string) (updates : Task) (st : option (list Task)) :
  Forall (fun t => task_id t <> Some id) (getTasks st) ->
  updateTask now id updates st = (None, st).
Proof.
  intros Hnone. unfold updateTask.
  rewrite (proj2 (list_find_None _ _) Hnone). reflexivity.
Qed.

Lemma updateTask_not_found_witness :
  Forall (fun t => task_id t <> Some "b") (getTasks exampleTasks) /\
  updateTask 5 "b" (completedPatch true) exampleTasks = (None, exampleTasks).
Proof.
  assert (H : Forall (fun t => task_id t <> Some "b") (getTasks exampleTasks)).
  { repeat constructor. cbn. discriminate. }
  split; [exact H |].
  exact (updateTask_not_found 5 "b" (completedPatch true) exampleTasks H).
Defined.

(** C10. [addTask] appends and returns the partial laid over the defaults:
    [id], [createdAt], [completed] and [completedAt] are the generated id,
    the clock, [false] and [null] only where the partial has no such field,
    and every field the partial has is kept as it is. *)
Theorem addTask_defaults (freshId : string) (now : Z) (task : Task) (st : option (list Task)) :
  let newTask := fst (addTask freshId now task st) in
  snd (addTask freshId now task st) = Some (getTasks st ++ [newTask]) /\
  task_id newTask = Some (default freshId (task_id task)) /\
  task_createdAt newTask = Some (default now (task_createdAt task)) /\
  task_completed newTask = Some (default false (task_completed task)) /\
  task_completedAt newTask = Some (default None (task_completedAt task)) /\
  task_title newTask = task_title task /\
  task_priority newTask = task_priority task /\
  task_category newTask = task_category task /\
  task_duration newTask = task_duration task /\
  task_date newTask = task_date task.
Proof.
  destruct task as [i c d a t p g u e]. cbn.
  destruct i, c, d, a; cbn; repeat split; try reflexivity;
    match goal with |- over None ?x = ?x => destruct x; reflexivity end.
Qed.

(** A task created already completed, under an id of the caller's. *)
Lemma addTask_override_example :
  let partial := mkTask (Some "mine") None (Some true) (Some (Some 7)) (Some "Write report")
                        None None None None in
  fst (addTask "generated" 100 partial None)
  = mkTask (Some "mine") (Some 100) (Some true) (Some (Some 7)) (Some "Write report")
           None None None None.
Proof. reflexivity. Qed.

Section CompletedAt.

Variable id : string.

(** The task after [updateTask(id, { completed: b })] at clock [now]. *)
Let stamped (now : Z) (b : bool) (t : Task) : Task :=
  mkTask (task_id t) (task_createdAt t) (Some b)
         (if b && negb (truthy_completedAt t) then Some (Some now) else task_completedAt t)
         (task_title t) (task_priority t) (task_category t) (task_duration t) (task_date t).

Lemma updateTask_completed_step now b st index t :
  list_find (fun t => task_id t = Some id) (getTasks st) = Some (index, t) ->
  updateTask now id (completedPatch b) st
  = (Some (stamped now b t), Some (<[index := stamped now b t]> (getTasks st))).
Proof.
  intros Hfind. unfold updateTask. rewrite Hfind.
  destruct t as [i c d a ti p g u e]. unfold stamped. cbn.
  destruct b; cbn; [| destruct ti, p, g, u, e; reflexivity].
  destruct a as [[ts |] |]; cbn; destruct ti, p, g, u, e; reflexivity.
Qed.

Lemma findTask_completed_step now b st t :
  findTask id st = Some t ->
  fst (updateTask now id (completedPatch b) st) = Some (stamped now b t) /\
  findTask id (snd (updateTask now id (completedPatch b) st)) = Some (stamped now b t).
Proof.
  unfold findTask. intros Hfind.
  destruct (list_find _ (getTasks st)) as [[index t0] |] eqn:Hf; [| discriminate].
  cbn in Hfind. injection Hfind as ->.
  rewrite (updateTask_completed_step now b st index t Hf). cbn.
  split; [reflexivity |].
  erewrite list_find_insert_found; [reflexivity | exact Hf |].
  apply list_find_Some in Hf as (_ & Hid & _). exact Hid.
Qed.

Lemma toggleCompleted_keeps_stamp steps st t ts :
  findTask id st = Some t ->
  task_completedAt t = Some (Some ts) ->
  exists t', findTask id (toggleCompleted id steps st) = Some t' /\
             task_completedAt t' = Some (Some ts).
Proof.
  revert st t. induction steps as [| [now b] steps IH]; intros st t Hfind Hts.
  - exists t. split; assumption.
  - cbn. destruct (findTask_completed_step now b st t Hfind) as [_ Hnext].
    apply (IH _ _ Hnext). cbn. unfold truthy_completedAt. rewrite Hts.
    rewrite andb_false_r. reflexivity.
Qed.

End CompletedAt.

(** C6. For the task an id denotes, [updateTask(id, { completed: true })]
    stamps [completedAt] with the clock only when it holds no timestamp yet
    and otherwise leaves it; [updateTask(id, { completed: false })] leaves
    [completedAt] as it is; and after any run of such calls a timestamp that
    was set is still the same timestamp. *)
Theorem updateTask_completedAt_once (id : string) (st : option (list Task)) (t : Task) :
  findTask id st = Some t ->
  (forall now, exists t',
      fst (updateTask now id (completedPatch true) st) = Some t' /\
      findTask id (snd (updateTask now id (completedPatch true) st)) = Some t' /\
      task_completed t' = Some true /\
      task_completedAt t' =
        (if truthy_completedAt t then task_completedAt t else Some (Some now))) /\
  (forall now, exists t',
      fst (updateTask now id (completedPatch false) st) = Some t' /\
      findTask id (snd (updateTask now id (completedPatch false) st)) = Some t' /\
      task_completed t' = Some false /\
      task_completedAt t' = task_completedAt t) /\
  (forall steps ts,
      task_completedAt t = Some (Some ts) ->
      exists t', findTask id (toggleCompleted id steps st) = Some t' /\
                 task_completedAt t' = Some (Some ts)).
Proof.
  intros Hfind. split; [| split].
  - intros now. destruct (findTask_completed_step id now true st t Hfind) as [H1 H2].
    eexists. split; [exact H1 |]. split; [exact H2 |]. cbn.
    split; [reflexivity |]. destruct (truthy_completedAt t); reflexivity.
  - intros now. destruct (findTask_completed_step id now false st t Hfind) as [H1 H2].
    eexists. split; [exact H1 |]. split; [exact H2 |]. cbn. split; reflexivity.
  - intros steps ts. apply toggleCompleted_keeps_stamp. exact Hfind.
Qed.

Lemma updateTask_completedAt_once_witness :
  findTask "a" exampleTasks = Some exampleTask /\
  exists t',
    fst (updateTask 10 "a" (completedPatch true) exampleTasks) = Some t' /\
    findTask "a" (snd (updateTask 10 "a" (completedPatch true) exampleTasks)) = Some t' /\
    task_completed t' = Some true /\
    task_completedAt t' =
      (if truthy_completedAt exampleTask then task_completedAt exampleTask else Some (Some 10)).
Proof.
  split; [reflexivity |].
  exact (proj1 (updateTask_completedAt_once "a" exampleTasks exampleTask eq_refl) 10).
Defined.

(** ** Habits *)

Section Habits.

Variable tz : TimeZone.

(** The habit after [toggleHabitCompletion(habitId, dateStr)] at [now]. *)
Let toggled (now : Z) (dateStr : isodate) (h : Habit) : Habit :=
  let dates := toggleDate dateStr (completedDates h) in
  mkHabit (habit_id h) (habit_createdAt h) dates
          (calculateStreak tz now dates)
          (Z.max (longestStreak h) (calculateStreak tz now dates))
          (habit_name h) (habit_frequency h).

Lemma toggle_found now habitId dateStr st h :
  findHabit habitId st = Some h ->
  fst (toggleHabitCompletion tz now habitId dateStr st) = Some (toggled now dateStr h) /\
  findHabit habitId (snd (toggleHabitCompletion tz now habitId dateStr st))
  = Some (toggled now dateStr h).
Proof.
  unfold findHabit, toggleHabitCompletion. intros Hfind.
  destruct (list_find _ (getHabits st)) as [[index h0] |] eqn:Hf; [| discriminate].
  cbn in Hfind. injection Hfind as ->. cbn.
  split; [reflexivity |].
  erewrite list_find_insert_found; [reflexivity | exact Hf |].
  apply list_find_Some in Hf as (_ & Hid & _). exact Hid.
Qed.

Lemma toggle_other now habitId other dateStr st h :
  other <> habitId ->
  findHabit habitId st = Some h ->
  findHabit habitId (snd (toggleHabitCompletion tz now other dateStr st)) = Some h.
Proof.
  unfold findHabit, toggleHabitCompletion. intros Hne Hfind.
  destruct (list_find (fun h => habit_id h = habitId) (getHabits st))
    as [[index h0] |] eqn:Hf; [| discriminate].
  cbn in Hfind. injection Hfind as ->.
  destruct (list_find (fun h => habit_id h = other) (getHabits st))
    as [[index' g] |] eqn:Hg; cbn; [| rewrite Hf; reflexivity].
  pose proof Hg as (Hg1 & Hg2 & _)%list_find_Some.
  pose proof Hf as (Hf1 & Hf2 & _)%list_find_Some.
  erewrite list_find_insert_other; [reflexivity | exact Hf | exact Hg1 | | ].
  - intros ->. congruence.
  - cbn. reflexivity.
Qed.

Lemma toggleAll_longest steps : forall habitId st h,
  findHabit habitId st = Some h ->
  exists h', findHabit habitId (toggleAll tz steps st) = Some h' /\
             longestStreak h <= longestStreak h'.
Proof.
  induction steps as [| [[now other] dateStr] steps IH]; intros habitId st h Hfind.
  - exists h. split; [exact Hfind | lia].
  - cbn. destruct (decide (other = habitId)) as [-> | Hne].
    + destruct (toggle_found now habitId dateStr st h Hfind) as [_ Hnext].
      destruct (IH _ _ _ Hnext) as (h' & Hh' & Hle).
      exists h'. split; [exact Hh' |]. cbn in Hle. lia.
    + apply IH. apply toggle_other; assumption.
Qed.

End Habits.

(** C3, as the code has it.  For the habit an id denotes, after
    [toggleHabitCompletion] the current streak is recomputed from the
    toggled dates and the longest streak is the larger of its previous value
    and the recomputed current streak, so it is at least the current streak
    and at least what it was; over any run of toggles (of this or of other
    habits) the longest streak does not decrease.  [addHabit] stores 0 for
    both streaks where the partial has no such field, and the partial's
    value where it has one. *)
Theorem toggleHabitCompletion_watermark (tz : TimeZone) (habitId : string)
    (st : option (list Habit)) (h : Habit) :
  findHabit habitId st = Some h ->
  (forall now dateStr, exists h',
      fst (toggleHabitCompletion tz now habitId dateStr st) = Some h' /\
      findHabit habitId (snd (toggleHabitCompletion tz now habitId dateStr st)) = Some h' /\
      completedDates h' = toggleDate dateStr (completedDates h) /\
      currentStreak h' = calculateStreak tz now (completedDates h') /\
      longestStreak h' = Z.max (longestStreak h) (currentStreak h') /\
      currentStreak h' <= longestStreak h' /\
      longestStreak h <= longestStreak h') /\
  (forall steps, exists h',
      findHabit habitId (toggleAll tz steps st) = Some h' /\
      longestStreak h <= longestStreak h') /\
  (forall freshId now partial st',
      currentStreak (fst (addHabit freshId now partial st'))
      = default 0 (partial_currentStreak partial) /\
      longestStreak (fst (addHabit freshId now partial st'))
      = default 0 (partial_longestStreak partial)).
Proof.
  intros Hfind. split; [| split].
  - intros now dateStr.
    destruct (toggle_found tz now habitId dateStr st h Hfind) as [H1 H2].
    eexists. split; [exact H1 |]. split; [exact H2 |]. cbn.
    repeat split; lia.
  - intros steps. apply toggleAll_longest. exact Hfind.
  - intros. split; reflexivity.
Qed.

Lemma toggleHabitCompletion_watermark_witness :
  findHabit "h" exampleHabits = Some exampleHabit /\
  exists h',
    findHabit "h" (toggleAll (fixedZone 0) [(nov3_noon, "h", nov3); (nov3_noon, "h", nov2)]
                     exampleHabits) = Some h' /\
    longestStreak exampleHabit <= longestStreak h'.
Proof.
  split; [reflexivity |].
  exact (proj1 (proj2 (toggleHabitCompletion_watermark (fixedZone 0) "h" exampleHabits
                         exampleHabit eq_refl)) _).
Defined.

(** [addHabit] with a partial that carries [currentStreak: 3]: the stored
    habit has a current streak of 3 over a longest streak of 0. *)
Lemma addHabit_streak_override :
  let h := fst (addHabit "generated" 100 streakPartial None) in
  currentStreak h = 3 /\ longestStreak h = 0 /\
  ~ (currentStreak h = 0 /\ longestStreak h = 0) /\
  ~ (longestStreak h >= currentStreak h).
Proof. cbn. repeat split; try reflexivity; lia. Qed.

(** ** Export and import *)

Section Backup.

Lemma exportData_fields ls :
  exists fields, exportData ls = JObj fields /\ map fst fields = KEYS_keys.
Proof. eexists. split; reflexivity. Qed.

Lemma exportData_values ls :
  exportData ls =
  JObj [ ("USER", get ls "zenith_user");
         ("TASKS", get ls "zenith_tasks");
         ("HABITS", get ls "zenith_habits");
         ("GOALS", get ls "zenith_goals");
         ("TIME_BLOCKS", get ls "zenith_timeblocks");
         ("DAILY_DATA", get ls "zenith_daily_data");
         ("WEEKLY_OBJECTIVES", get ls "zenith_weekly_objectives");
         ("SETTINGS", get ls "zenith_settings");
         ("THEME", get ls "zenith_theme") ].
Proof. reflexivity. Qed.

(** No field name of an export is a storage key, so importing an export
    writes nothing, whatever the store. *)
Lemma importData_exportData_noop ls ls' :
  importData (Some (exportData ls)) ls' = (true, ls').
Proof. rewrite exportData_values. reflexivity. Qed.

End Backup.

(** C1, at a store holding one task: the export has the field names
    [USER], [TASKS], ... and not the storage keys; importing it into the
    cleared store reports success and writes nothing, so the tasks are not
    restored. *)
Theorem exportData_importData_restores_nothing :
  let backup := exportData exampleStore in
  let cleared := clearAll exampleStore in
  (exists fields, backup = JObj fields /\
     map fst fields = ["USER"; "TASKS"; "HABITS"; "GOALS"; "TIME_BLOCKS"; "DAILY_DATA";
                       "WEEKLY_OBJECTIVES"; "SETTINGS"; "THEME"]) /\
  importData (Some backup) cleared = (true, cleared) /\
  get exampleStore "zenith_tasks" =
    JArr [JObj [("id", JStr "a"); ("title", JStr "Write report")]] /\
  get (snd (importData (Some backup) cleared)) "zenith_tasks" = JNull.
Proof.
  cbv zeta. split; [apply exportData_fields |].
  rewrite importData_exportData_noop.
  split; [reflexivity |]. split; reflexivity.
Qed.

(** ** Streaks and day counts across a time zone transition *)

(** C2, in New York on 3 November 2026.  The habit was done on 1, 2 and
    3 November; today is 3 November.  The walk starts at
    2026-11-03T00:00Z, which is 2 November 19:00 local; one day back is
    1 November 19:00 local, 2026-11-02T00:00Z; one more day back is
    31 October 19:00 local, before the clocks went back, which is
    2026-10-31T23:00Z, so the date compared with [2026-11-01] is
    [2026-10-31] and the streak stops at 2.  In a zone that stays at UTC-5
    the streak is 3. *)
Theorem calculateStreak_newYork_fall_back :
  toISODate nov3_noon = nov3 /\
  setDate newYork2026 (parseISODate nov3) (getDate newYork2026 (parseISODate nov3) - 1)
  = parseISODate nov2 /\
  setDate newYork2026 (parseISODate nov2) (getDate newYork2026 (parseISODate nov2) - 1)
  = parseISODate nov1 - msPerHour /\
  toISODate (parseISODate nov1 - msPerHour) = oct31 /\
  calculateStreak newYork2026 nov3_noon [nov1; nov2; nov3] = 2 /\
  calculateStreak (fixedZone EST) nov3_noon [nov1; nov2; nov3] = 3.
Proof. repeat split; vm_compute; reflexivity. Qed.

(** C7, in New York for the range 31 October to 2 November 2026 and one
    habit done on the first two of the three days.  The counting loop goes
    from 2026-10-31T00:00Z to 2026-11-01T00:00Z and then, a local day later
    with the clocks gone back, to 2026-11-02T01:00Z, which is past the end
    2026-11-02T00:00Z: two days are counted and the rate is 100.  In a zone
    that stays at UTC-5 three days are counted and the rate is 67. *)
Theorem getProductivityStats_newYork_fall_back :
  countDays 10 newYork2026 (parseISODate oct31) (parseISODate nov2) 0 = Some 2 /\
  habitCompletionRate <$> getProductivityStats 10 newYork2026 oct31 nov2 [] [weekendHabit] []
  = Some 100%float /\
  countDays 10 (fixedZone EST) (parseISODate oct31) (parseISODate nov2) 0 = Some 3 /\
  habitCompletionRate <$> getProductivityStats 10 (fixedZone EST) oct31 nov2 [] [weekendHabit] []
  = Some 67%float.
Proof. repeat split; vm_compute; reflexivity. Qed.

(** ** ISO dates and day numbers *)

Section IsoDates.

Lemma Day_isoOfDay_time d : Day (MakeDate d 0) = d.
Proof. apply Day_midnight. Qed.

(** [new Date(s)] gives back the day an ISO date was made from. *)
Lemma parseISODate_isoOfDay d : parseISODate (isoOfDay d) = MakeDate d 0.
Proof.
  unfold parseISODate, isoOfDay, toISODate; cbn [iso_year iso_month iso_day].
  replace (MonthFromTime (MakeDate d 0) + 1 - 1) with (MonthFromTime (MakeDate d 0)) by lia.
  pose proof (MakeDay_civil (MakeDate d 0) 0) as H.
  rewrite Z.add_0_r, Z.add_0_r, Day_midnight in H. rewrite H. reflexivity.
Qed.

Lemma isoOfDay_inj a b : isoOfDay a = isoOfDay b -> a = b.
Proof.
  intros H. pose proof (parseISODate_isoOfDay a) as Ha.
  rewrite H, parseISODate_isoOfDay in Ha. unfold MakeDate, msPerDay in Ha. lia.
Qed.

Lemma toISODate_Day t : toISODate t = isoOfDay (Day t).
Proof.
  unfold isoOfDay, toISODate.
  destruct (civil_of_Day t (MakeDate (Day t) 0)) as (-> & -> & ->);
    [rewrite Day_midnight; reflexivity | reflexivity].
Qed.

Lemma iso_eqb_eq x y : iso_eqb x y = true <-> x = y.
Proof.
  destruct x as [y1 m1 d1], y as [y2 m2 d2]. unfold iso_eqb; cbn.
  rewrite !andb_true_iff, !Z.eqb_eq. split.
  - intros [[-> ->] ->]. reflexivity.
  - intros [= -> -> ->]. auto.
Qed.

Lemma iso_eqb_isoOfDay a b : iso_eqb (isoOfDay a) (isoOfDay b) = (a =? b).
Proof.
  destruct (Z.eqb_spec a b) as [-> | Hne].
  - apply iso_eqb_eq. reflexivity.
  - apply not_true_is_false. intros H%iso_eqb_eq%isoOfDay_inj. contradiction.
Qed.

Lemma iso_leb_antisym x y : iso_leb x y = true -> iso_leb y x = true -> x = y.
Proof.
  destruct x as [y1 m1 d1], y as [y2 m2 d2]. unfold iso_leb; cbn.
  destruct (Z.eqb_spec y1 y2), (Z.eqb_spec y2 y1); try lia;
    destruct (Z.eqb_spec m1 m2), (Z.eqb_spec m2 m1); try lia;
    intros H1 H2; f_equal; lia.
Qed.

(** Later days have later dates in the order of the strings. *)
Lemma iso_leb_mono a b : a <= b -> iso_leb (isoOfDay a) (isoOfDay b) = true.
Proof.
  intros Hab. unfold isoOfDay, toISODate, iso_leb; cbn [iso_year iso_month iso_day].
  set (ta := MakeDate a 0). set (tb := MakeDate b 0).
  pose proof (YearFromTime_spec ta) as Hya. pose proof (YearFromTime_spec tb) as Hyb.
  unfold ta, tb in Hya, Hyb. rewrite !Day_midnight in Hya, Hyb. fold ta tb in Hya, Hyb.
  destruct (Z.eqb_spec (YearFromTime ta) (YearFromTime tb)) as [Hy | Hy].
  - assert (HL : InLeapYear ta = InLeapYear tb) by (unfold InLeapYear; rewrite Hy; reflexivity).
    assert (Hd : DayWithinYear ta <= DayWithinYear tb).
    { unfold DayWithinYear, ta, tb. rewrite !Day_midnight. fold ta tb. rewrite Hy. lia. }
    pose proof (MonthFromTime_bounds ta) as [Hma Hda].
    pose proof (MonthFromTime_bounds tb) as [Hmb Hdb].
    unfold DateFromTime. rewrite <- HL in *.
    destruct (InLeapYear_cases ta) as [HLa | HLa]; rewrite HLa in *;
      generalize dependent (MonthFromTime ta); intros ma Hma Hda;
      generalize dependent (MonthFromTime tb); intros mb Hmb Hdb;
      generalize dependent (DayWithinYear ta); intros da Hda;
      generalize dependent (DayWithinYear tb); intros db Hd Hdb;
      month_cases ma; month_cases mb; eval_monthStart;
      cbn [Z.eqb Pos.eqb Z.add Pos.add Pos.succ Z.ltb Z.compare Pos.compare Pos.compare_cont];
      try reflexivity; try lia; apply Z.leb_le; lia.
  - apply Z.ltb_lt.
    destruct (Z.lt_trichotomy (YearFromTime ta) (YearFromTime tb)) as [Hlt | [Heq | Hgt]];
      [exact Hlt | contradiction |].
    pose proof (DayFromYear_mono (YearFromTime tb + 1) (YearFromTime ta) ltac:(lia)). lia.
Qed.

Lemma iso_leb_isoOfDay a b : iso_leb (isoOfDay a) (isoOfDay b) = (a <=? b).
Proof.
  destruct (Z.leb_spec a b) as [Hle | Hgt].
  - apply iso_leb_mono. exact Hle.
  - apply not_true_is_false. intros H.
    pose proof (iso_leb_mono b a ltac:(lia)) as H'.
    pose proof (isoOfDay_inj _ _ (iso_leb_antisym _ _ H H')). lia.
Qed.

End IsoDates.

(** ** Streaks where the zone offset does not change *)

Section FixedZone.

Variable offset : Z.
Let tz : TimeZone := fixedZone offset.

(** In a zone without transitions [setDate] moves by whole days. *)
Lemma setDate_fixed t k : setDate tz t (getDate tz t + k) = t + k * msPerDay.
Proof using Type.
  unfold setDate, getDate, tz, LocalTime, UTC, fixedZone; cbn [LocalTZA].
  rewrite MakeDay_civil.
  pose proof (MakeDate_Day (t + offset)) as H. unfold MakeDate in *. lia.
Qed.

Lemma streakLoop_fixed l : forall d k,
  streakLoop tz (MakeDate d 0) (isoOfDay <$> l) k = k + headRun (d - 1) l.
Proof using Type.
  induction l as [| x l IH]; intros d k; cbn [streakLoop headRun fmap list_fmap]; [lia |].
  replace (getDate tz (MakeDate d 0) - 1) with (getDate tz (MakeDate d 0) + -1) by lia.
  rewrite setDate_fixed.
  replace (MakeDate d 0 + -1 * msPerDay) with (MakeDate (d - 1) 0) by (unfold MakeDate; lia).
  fold (isoOfDay (d - 1)). rewrite iso_eqb_isoOfDay.
  destruct (Z.eqb_spec x (d - 1)); [rewrite IH; lia | lia].
Qed.

End FixedZone.

Section SortedDays.

Lemma insertSorted_isoOfDay x l :
  insertSorted (isoOfDay x) (isoOfDay <$> l) = isoOfDay <$> insertDay x l.
Proof.
  induction l as [| y l IH]; [reflexivity |].
  cbn [insertSorted insertDay fmap list_fmap]. rewrite iso_leb_isoOfDay.
  destruct (x <=? y); [reflexivity |]. cbn [fmap list_fmap]. f_equal. exact IH.
Qed.

Lemma sortDates_isoOfDay ds : sortDates (isoOfDay <$> ds) = isoOfDay <$> sortDays ds.
Proof.
  induction ds as [| d ds IH]; [reflexivity |].
  cbn [sortDates sortDays foldr fmap list_fmap] in *.
  unfold sortDates in IH. rewrite IH. apply insertSorted_isoOfDay.
Qed.

Lemma elem_of_insertDay x y l : y ∈ insertDay x l <-> y = x \/ y ∈ l.
Proof.
  induction l as [| z l IH]; cbn [insertDay].
  - rewrite list_elem_of_singleton, elem_of_nil. tauto.
  - destruct (x <=? z); rewrite ?elem_of_cons; [tauto |]. rewrite IH. tauto.
Qed.

Lemma elem_of_sortDays y ds : y ∈ sortDays ds <-> y ∈ ds.
Proof.
  induction ds as [| d ds IH]; [reflexivity |].
  cbn [sortDays foldr]. rewrite elem_of_insertDay, elem_of_cons.
  unfold sortDays in IH. rewrite IH. tauto.
Qed.

Lemma insertDay_sorted x l :
  x ∉ l -> StronglySorted Z.lt l -> StronglySorted Z.lt (insertDay x l).
Proof.
  intros Hx Hs. induction Hs as [| y l Hs IH Hy]; cbn [insertDay].
  - repeat constructor.
  - apply not_elem_of_cons in Hx as [Hne Hx].
    destruct (Z.leb_spec x y) as [Hle | Hgt].
    + constructor; [constructor; assumption |].
      constructor; [lia |]. eapply Forall_impl; [exact Hy |]. cbn. intros; lia.
    + constructor; [apply IH; exact Hx |].
      apply Forall_forall. intros z Hz%elem_of_insertDay.
      destruct Hz as [-> | Hz]; [lia |]. rewrite Forall_forall in Hy. apply Hy, Hz.
Qed.

Lemma sortDays_sorted ds : NoDup ds -> StronglySorted Z.lt (sortDays ds).
Proof.
  induction 1 as [| d ds Hd Hnd IH]; [constructor |].
  cbn [sortDays foldr]. apply insertDay_sorted; [| exact IH].
  fold (sortDays ds). rewrite elem_of_sortDays. exact Hd.
Qed.

(** Strongly sorted upwards, read backwards, is strongly sorted downwards. *)
Lemma sorted_reverse l : StronglySorted Z.lt l -> StronglySorted (flip Z.lt) (reverse l).
Proof.
  intros Hs. apply Sorted_StronglySorted.
  - intros a b c. unfold flip. lia.
  - apply Sorted_reverse, StronglySorted_Sorted, Hs.
Qed.

Lemma runLength_ext n : forall d l1 l2,
  (forall j, j <= d -> (j ∈ l1 <-> j ∈ l2)) -> runLength n d l1 = runLength n d l2.
Proof.
  induction n as [| n IH]; intros d l1 l2 H; [reflexivity |].
  cbn [runLength]. rewrite (bool_decide_ext _ _ (H d ltac:(lia))).
  destruct (bool_decide _); [| reflexivity].
  f_equal. apply IH. intros j Hj. apply H. lia.
Qed.

(** On a list of days sorted downwards the run ending at [d] is the run at
    its head. *)
Lemma runLength_headRun l :
  StronglySorted (flip Z.lt) l ->
  forall d n, Forall (fun x => x <= d) l -> (length l <= n)%nat ->
  runLength n d l = headRun d l.
Proof.
  induction 1 as [| x l Hs IH Hx]; intros d n Hd Hn.
  - destruct n; cbn [runLength headRun]; [reflexivity |].
    rewrite bool_decide_eq_false_2; [reflexivity | set_solver].
  - apply Forall_cons in Hd as [Hxd Hd]. rewrite Forall_forall in Hx. unfold flip in Hx.
    destruct n as [| n]; [cbn in Hn; lia |]. cbn in Hn.
    cbn [runLength headRun]. destruct (Z.eqb_spec x d) as [-> | Hne].
    + rewrite bool_decide_eq_true_2 by set_solver. f_equal.
      rewrite (runLength_ext n (d - 1) (d :: l) l).
      * apply IH; [| lia]. apply Forall_forall. intros y Hy. specialize (Hx y Hy). lia.
      * intros j Hj. rewrite elem_of_cons. split; [intros [? | ?]; [lia | done] | auto].
    + rewrite bool_decide_eq_false_2; [reflexivity |].
      rewrite elem_of_cons. intros [? | Hin]; [lia |]. specialize (Hx d Hin). lia.
Qed.

End SortedDays.

(** In a zone without transitions [calculateStreak] is the streak of the
    spec: for duplicate-free days [ds] whose most recent one is [m], it is 0
    unless [m] is today or yesterday, and else the run of consecutive days
    ending at [m]. *)
Lemma calculateStreak_fixed_zone (offset now m : Z) (ds : list Z) :
  NoDup ds -> m ∈ ds -> (forall d, d ∈ ds -> d <= m) ->
  calculateStreak (fixedZone offset) now (isoOfDay <$> ds) = streakOf (Day now) m ds.
Proof.
  intros Hnd Hm Hmax. unfold calculateStreak, streakOf.
  rewrite sortDates_isoOfDay, rev_reverse, <- fmap_reverse.
  pose proof (sorted_reverse _ (sortDays_sorted ds Hnd)) as Hs.
  assert (Hmem : forall j, j ∈ reverse (sortDays ds) <-> j ∈ ds).
  { intros j. rewrite elem_of_reverse. apply elem_of_sortDays. }
  assert (Hlen : length (reverse (sortDays ds)) = length ds).
  { rewrite length_reverse. clear. induction ds as [| d ds IH]; [reflexivity |].
    cbn [sortDays foldr]. fold (sortDays ds). cbn [length]. rewrite <- IH.
    generalize (sortDays ds). clear. intros l. induction l as [| y l IH]; [reflexivity |].
    cbn [insertDay]. destruct (d <=? y); cbn [length]; [reflexivity | rewrite IH; reflexivity]. }
  rewrite (runLength_ext _ m ds (reverse (sortDays ds))) by (intros; symmetry; apply Hmem).
  rewrite <- Hlen.
  destruct (reverse (sortDays ds)) as [| x rest] eqn:HL.
  { apply Hmem in Hm. apply elem_of_nil in Hm. contradiction. }
  assert (Hxm : x = m).
  { pose proof (Hmax x (proj1 (Hmem x) ltac:(apply elem_of_cons; auto))) as Hle.
    apply Hmem in Hm. apply elem_of_cons in Hm as [-> | Hin]; [reflexivity |].
    apply StronglySorted_cons in Hs as [Hx _]. rewrite Forall_forall in Hx.
    specialize (Hx m Hin). unfold flip in Hx. lia. }
  subst x. cbn [fmap list_fmap].
  rewrite !toISODate_Day, !iso_eqb_isoOfDay, parseISODate_isoOfDay, streakLoop_fixed.
  replace (Day (now - 86400000)) with (Day now - 1) by (unfold Day, msPerDay; divmod).
  rewrite (runLength_headRun _ Hs m (length (m :: rest))); [| | lia].
  2:{ apply Forall_forall. intros y Hy. apply Hmax, Hmem, Hy. }
  cbn [headRun]. rewrite Z.eqb_refl.
  destruct (Z.eqb_spec m (Day now)), (Z.eqb_spec m (Day now - 1)); cbn [negb andb];
    (rewrite bool_decide_eq_true_2 by tauto) || (rewrite bool_decide_eq_false_2 by tauto);
    reflexivity.
Qed.

Lemma calculateStreak_no_dates (tz : TimeZone) (now : Z) : calculateStreak tz now [] = 0.
Proof. reflexivity. Qed.

(** The three examples of the spec, in a zone without transitions. *)
Lemma calculateStreak_examples (offset now : Z) :
  let today := Day now in
  calculateStreak (fixedZone offset) now (isoOfDay <$> [today; today - 1; today - 2]) = 3 /\
  calculateStreak (fixedZone offset) now (isoOfDay <$> [today - 3; today - 4]) = 0 /\
  calculateStreak (fixedZone offset) now (isoOfDay <$> [today]) = 1.
Proof.
  intros today. split; [| split].
  - rewrite (calculateStreak_fixed_zone offset now today); [| days_nodup | days_mem | days_le].
    unfold streakOf. rewrite bool_decide_eq_true_2 by tauto. cbn [length runLength].
    rewrite !bool_decide_eq_true_2 by days_mem. reflexivity.
  - rewrite (calculateStreak_fixed_zone offset now (today - 3));
      [| days_nodup | days_mem | days_le].
    unfold streakOf. rewrite bool_decide_eq_false_2; [reflexivity | fold today; lia].
  - rewrite (calculateStreak_fixed_zone offset now today); [| days_nodup | days_mem | days_le].
    unfold streakOf. rewrite bool_decide_eq_true_2 by tauto. cbn [length runLength].
    rewrite bool_decide_eq_true_2 by days_mem. reflexivity.
Qed.

(** ** Day counts where the zone offset does not change *)

Section FixedZoneStats.

Variable offset : Z.

Lemma countDays_fixed fuel : forall a b acc,
  (Z.to_nat (b - a + 1) <= fuel)%nat ->
  countDays fuel (fixedZone offset) (MakeDate a 0) (MakeDate b 0) acc
  = Some (acc + daysInRange a b).
Proof.
  unfold daysInRange.
  induction fuel as [| fuel IH]; intros a b acc Hfuel; cbn [countDays];
    (destruct (Z.leb_spec (MakeDate a 0) (MakeDate b 0)) as [Hle | Hgt];
     [| f_equal; unfold MakeDate, msPerDay in Hgt; lia]);
    unfold MakeDate, msPerDay in Hle; [lia |].
  rewrite setDate_fixed.
  replace (MakeDate a 0 + 1 * msPerDay) with (MakeDate (a + 1) 0) by (unfold MakeDate; lia).
  rewrite IH by lia. f_equal. lia.
Qed.

Lemma habitCounts_fixed fuel a b habits : forall acc,
  (Z.to_nat (b - a + 1) <= fuel)%nat ->
  habitCounts fuel (fixedZone offset) (isoOfDay a) (isoOfDay b) habits acc
  = Some (fst acc + completionsInRange (isoOfDay a) (isoOfDay b) habits,
          snd acc + Z.of_nat (length habits) * daysInRange a b).
Proof.
  induction habits as [| h habits IH]; intros [c p] Hfuel;
    cbn [habitCounts completionsInRange foldr length fst snd].
  - f_equal. f_equal; lia.
  - rewrite !parseISODate_isoOfDay, countDays_fixed by exact Hfuel.
    rewrite IH by exact Hfuel. cbn [fst snd]. unfold completionsInRange.
    f_equal. f_equal; lia.
Qed.

End FixedZoneStats.

(** In a zone without transitions the habit completion rate of
    [getProductivityStats] is that of the spec: [round(completions / possible * 100)] with
    [possible] the number of habits times the number of days of the range,
    whatever the habits' frequencies, and 0 when [possible] is 0. *)
Lemma getProductivityStats_fixed_zone (offset a b : Z) (fuel : nat)
    (tasks : list Task) (habits : list Habit) (dailyData : list (isodate * option Z)) :
  (Z.to_nat (b - a + 1) <= fuel)%nat ->
  habitCompletionRate
    <$> getProductivityStats fuel (fixedZone offset) (isoOfDay a) (isoOfDay b)
          tasks habits dailyData
  = Some (habitRateOf (completionsInRange (isoOfDay a) (isoOfDay b) habits)
                      (Z.of_nat (length habits) * daysInRange a b)).
Proof.
  intros Hfuel. unfold getProductivityStats.
  rewrite (habitCounts_fixed offset fuel a b habits (0, 0) Hfuel). cbn [fst snd].
  rewrite !Z.add_0_l. reflexivity.
Qed.

(** * More of the repositories *)

(** ** Tasks: add, find, delete, move *)

Section TaskRepository.

Lemma list_find_filter {A} (P Q : A -> Prop) `{!forall x, Decision (P x)}
    `{!forall x, Decision (Q x)} (l : list A) :
  (forall x, P x -> Q x) ->
  snd <$> list_find P (filter Q l) = snd <$> list_find P l.
Proof.
  intros HPQ. induction l as [| x l IH]; [reflexivity |].
  rewrite filter_cons. cbn [list_find]. destruct (decide (Q x)) as [Hq | Hq].
  - cbn [list_find]. destruct (decide (P x)); [reflexivity |].
    destruct (list_find P (filter Q l)) as [[i y] |], (list_find P l) as [[j z] |];
      cbn in *; congruence.
  - destruct (decide (P x)) as [Hp | Hp]; [destruct (Hq (HPQ x Hp)) |].
    rewrite IH. destruct (list_find P l) as [[j z] |]; reflexivity.
Qed.

Lemma list_find_filter_none {A} (P : A -> Prop) `{!forall x, Decision (P x)} (l : list A) :
  list_find P (filter (fun x => ~ P x) l) = None.
Proof.
  apply list_find_None, Forall_forall. intros x Hx%list_elem_of_filter. tauto.
Qed.

Lemma filter_Forall_id {A} (P : A -> Prop) `{!forall x, Decision (P x)} (l : list A) :
  Forall P l -> filter P l = l.
Proof.
  induction 1 as [| x l Hx Hl IH]; [reflexivity |].
  rewrite filter_cons. destruct (decide (P x)); [f_equal; exact IH | contradiction].
Qed.

Lemma findTask_None id st :
  findTask id st = None <-> Forall (fun t => task_id t <> Some id) (getTasks st).
Proof.
  unfold findTask. split.
  - intros H. eapply list_find_None.
    destruct (list_find _ (getTasks st)) as [[i t] |] eqn:Hf; [discriminate H | reflexivity].
  - intros H. eapply list_find_None in H. rewrite H. reflexivity.
Qed.

Lemma findTask_app id tasks t :
  findTask id (Some (tasks ++ [t])) =
  match findTask id (Some tasks) with
  | Some found => Some found
  | None => if decide (task_id t = Some id) then Some t else None
  end.
Proof.
  unfold findTask; cbn [getTasks].
  destruct (list_find _ tasks) as [[i found] |] eqn:Hf.
  - erewrite list_find_app_l by exact Hf. reflexivity.
  - rewrite list_find_app_r by exact Hf. cbn [list_find].
    destruct (decide (task_id t = Some id)); reflexivity.
Qed.

End TaskRepository.

(** X1. After [deleteTask(id)] no stored task carries [id], so a later
    [updateTask] on it returns [null] and changes nothing; tasks with other
    ids are found as before and stay in order in every day's list; deleting
    again changes nothing. *)
Theorem deleteTask_removes_id (id : string) (st : option (list Task)) :
  let st' := deleteTask id st in
  findTask id st' = None /\
  (forall now updates, updateTask now id updates st' = (None, st')) /\
  (forall other, other <> id -> findTask other st' = findTask other st) /\
  (forall dateStr,
      getTasksForDate dateStr st'
      = filter (fun t => task_id t <> Some id) (getTasksForDate dateStr st)) /\
  deleteTask id st' = st'.
Proof.
  cbv zeta. unfold deleteTask, findTask, getTasksForDate; cbn [getTasks].
  split; [rewrite list_find_filter_none; reflexivity |].
  split.
  { intros now updates. unfold updateTask; cbn [getTasks].
    rewrite list_find_filter_none. reflexivity. }
  split.
  { intros other Hne. apply list_find_filter. intros x Hx. congruence. }
  split.
  { intros dateStr. rewrite !list_filter_filter. apply list_filter_iff. tauto. }
  f_equal. rewrite list_filter_filter. apply list_filter_iff. tauto.
Qed.

(** X2. After [addTask] a lookup by id finds what it found before, and
    finds the new task only under an id no earlier task carries: a new task
    whose id is already in use is stored behind its namesake and is not the
    one [updateTask] reaches.  The day lists grow by the new task on its own
    date only. *)
Theorem addTask_then_find (freshId : string) (now : Z) (task : Task)
    (st : option (list Task)) (id : string) (dateStr : isodate) :
  let newTask := fst (addTask freshId now task st) in
  let st' := snd (addTask freshId now task st) in
  findTask id st' =
    match findTask id st with
    | Some found => Some found
    | None => if decide (task_id newTask = Some id) then Some newTask else None
    end /\
  getTasksForDate dateStr st' =
    getTasksForDate dateStr st
      ++ (if decide (task_date task = Some dateStr) then [newTask] else []) /\
  length (getTasks st') = S (length (getTasks st)).
Proof.
  cbv zeta. unfold addTask; cbn [fst snd].
  split; [destruct st; apply findTask_app |].
  split.
  - unfold getTasksForDate; cbn [getTasks]. rewrite filter_app. f_equal.
    rewrite filter_cons, filter_nil. cbn [task_date spreadTask].
    assert (Hd : over None (task_date task) = task_date task) by (destruct (task_date task); reflexivity).
    rewrite Hd. destruct (decide (task_date task = Some dateStr)); reflexivity.
  - cbn [getTasks]. rewrite length_app. cbn. lia.
Qed.

(** X3. Adding a task under an id not in use and then deleting that id gives
    back the tasks that were stored. *)
Theorem addTask_then_deleteTask (freshId : string) (now : Z) (task : Task)
    (st : option (list Task)) (id : string) :
  task_id (fst (addTask freshId now task st)) = Some id ->
  findTask id st = None ->
  deleteTask id (snd (addTask freshId now task st)) = Some (getTasks st).
Proof.
  intros Hid Hfresh. unfold deleteTask, addTask in *; cbn [fst snd getTasks] in *.
  f_equal. rewrite filter_app, filter_cons, filter_nil.
  destruct (decide (_ <> Some id)) as [Hne | _]; [contradiction |].
  rewrite app_nil_r. apply filter_Forall_id. apply (findTask_None id st), Hfresh.
Qed.

Lemma addTask_then_deleteTask_witness :
  task_id (fst (addTask "g1" 100 (completedPatch false) exampleTasks)) = Some "g1" /\
  findTask "g1" exampleTasks = None /\
  deleteTask "g1" (snd (addTask "g1" 100 (completedPatch false) exampleTasks))
  = Some (getTasks exampleTasks).
Proof.
  split; [reflexivity |]. split; [reflexivity |].
  exact (addTask_then_deleteTask "g1" 100 (completedPatch false) exampleTasks "g1"
           eq_refl eq_refl).
Defined.

(** X4. [updateTask] on a stored id replaces the first task carrying it by
    the merge and touches nothing else: the collection keeps its length,
    every other position keeps its task, and in the merged task every field
    the patch carries has the patch's value and every field the patch lacks
    is the old one.  [completedAt] is the merged value, except that it
    becomes the clock reading when the patch's [completed] is truthy and the
    merged value is not a time; so, when the patch lacks it, it changes
    only by the stamp of a first completion. *)
Theorem updateTask_merges_in_place (now : Z) (id : string) (updates : Task)
    (st : option (list Task)) (index : nat) (t : Task) :
  list_find (fun t => task_id t = Some id) (getTasks st) = Some (index, t) ->
  exists t',
    updateTask now id updates st = (Some t', Some (<[index := t']> (getTasks st))) /\
    length (<[index := t']> (getTasks st)) = length (getTasks st) /\
    (forall j, j <> index -> <[index := t']> (getTasks st) !! j = getTasks st !! j) /\
    (task_id updates = None -> task_id t' = task_id t) /\
    (task_createdAt updates = None -> task_createdAt t' = task_createdAt t) /\
    (task_completed updates = None -> task_completed t' = task_completed t) /\
    (task_title updates = None -> task_title t' = task_title t) /\
    (task_priority updates = None -> task_priority t' = task_priority t) /\
    (task_category updates = None -> task_category t' = task_category t) /\
    (task_duration updates = None -> task_duration t' = task_duration t) /\
    (task_date updates = None -> task_date t' = task_date t) /\
    (task_completedAt updates = None ->
     task_completedAt t' =
       if truthy_completed updates && negb (truthy_completedAt t)
       then Some (Some now) else task_completedAt t) /\
    (forall v, task_id updates = Some v -> task_id t' = Some v) /\
    (forall v, task_createdAt updates = Some v -> task_createdAt t' = Some v) /\
    (forall v, task_completed updates = Some v -> task_completed t' = Some v) /\
    (forall v, task_title updates = Some v -> task_title t' = Some v) /\
    (forall v, task_priority updates = Some v -> task_priority t' = Some v) /\
    (forall v, task_category updates = Some v -> task_category t' = Some v) /\
    (forall v, task_duration updates = Some v -> task_duration t' = Some v) /\
    (forall v, task_date updates = Some v -> task_date t' = Some v) /\
    (forall v,
        task_completedAt updates = Some v ->
        task_completedAt t' =
          match v with
          | Some time => Some (Some time)
          | None => if truthy_completed updates then Some (Some now) else Some None
          end).
Proof.
  intros Hfind. unfold updateTask. rewrite Hfind.
  set (t1 := spreadTask t updates).
  set (t' := if truthy_completed updates && negb (truthy_completedAt t1)
             then setCompletedAt t1 (Some now) else t1).
  exists t'. split; [reflexivity |].
  split; [apply length_insert |].
  split; [intros j Hj; apply list_lookup_insert_ne; congruence |].
  assert (Hkeep : task_id t' = over (task_id t) (task_id updates) /\
                  task_createdAt t' = over (task_createdAt t) (task_createdAt updates) /\
                  task_completed t' = over (task_completed t) (task_completed updates) /\
                  task_title t' = over (task_title t) (task_title updates) /\
                  task_priority t' = over (task_priority t) (task_priority updates) /\
                  task_category t' = over (task_category t) (task_category updates) /\
                  task_duration t' = over (task_duration t) (task_duration updates) /\
                  task_date t' = over (task_date t) (task_date updates)).
  { subst t' t1. destruct (_ && _); repeat split; reflexivity. }
  destruct Hkeep as (Hid & Hcr & Hco & Hti & Hpr & Hca & Hdu & Hda).
  assert (Hat : task_completedAt t' =
                if truthy_completed updates && negb (truthy_completedAt t1)
                then Some (Some now)
                else over (task_completedAt t) (task_completedAt updates)).
  { subst t'. destruct (_ && _); reflexivity. }
  rewrite Hid, Hcr, Hco, Hti, Hpr, Hca, Hdu, Hda, Hat.
  repeat split; try (intros Hn; rewrite Hn; reflexivity);
    try (intros v Hv; rewrite Hv; reflexivity).
  - intros Hn. subst t1. unfold truthy_completedAt; cbn. rewrite Hn. reflexivity.
  - intros v Hv. subst t1. unfold truthy_completedAt; cbn. rewrite Hv.
    destruct v as [time |]; cbn; [rewrite andb_false_r; reflexivity |].
    rewrite andb_true_r. destruct (truthy_completed updates); reflexivity.
Qed.

Lemma updateTask_merges_in_place_witness :
  list_find (fun t => task_id t = Some "a") (getTasks exampleTasks) = Some (0%nat, exampleTask) /\
  exists t',
    updateTask 7 "a" (datePatch (mkIso 2026 1 13)) exampleTasks
    = (Some t', Some (<[0%nat := t']> (getTasks exampleTasks))) /\
    task_title t' = task_title exampleTask /\
    task_date t' = Some (mkIso 2026 1 13).
Proof.
  split; [reflexivity |].
  destruct (updateTask_merges_in_place 7 "a" (datePatch (mkIso 2026 1 13)) exampleTasks
              0%nat exampleTask eq_refl)
    as (t' & Hup & _ & _ & _ & _ & _ & Htitle & _ & _ & _ & _ & _
        & _ & _ & _ & _ & _ & _ & _ & Hdate & _).
  exists t'. split; [exact Hup |]. split; [exact (Htitle eq_refl) | exact (Hdate _ eq_refl)].
Defined.

(** X5. [moveTask(id, newDate)] on a stored id gives the task the new date
    and leaves its other fields, [completedAt] included; the task is then in
    the list of the new day, and tasks with other ids are found unchanged. *)
Theorem moveTask_changes_date (now : Z) (id : string) (newDate : isodate)
    (st : option (list Task)) (t : Task) :
  findTask id st = Some t ->
  let moved := mkTask (task_id t) (task_createdAt t) (task_completed t) (task_completedAt t)
                      (task_title t) (task_priority t) (task_category t) (task_duration t)
                      (Some newDate) in
  findTask id (moveTask now id newDate st) = Some moved /\
  moved ∈ getTasksForDate newDate (moveTask now id newDate st) /\
  (forall other, other <> id ->
     findTask other (moveTask now id newDate st) = findTask other st).
Proof.
  unfold findTask, moveTask, updateTask. intros Hfind.
  destruct (list_find (fun t => task_id t = Some id) (getTasks st)) as [[index t0] |] eqn:Hf;
    [| discriminate].
  cbn in Hfind. injection Hfind as ->. cbv zeta.
  pose proof Hf as (Hlook & Hid & _)%list_find_Some.
  assert (Hmoved : (let t1 := spreadTask t (datePatch newDate) in
                    if truthy_completed (datePatch newDate) && negb (truthy_completedAt t1)
                    then setCompletedAt t1 (Some now) else t1)
                   = mkTask (task_id t) (task_createdAt t) (task_completed t)
                            (task_completedAt t) (task_title t) (task_priority t)
                            (task_category t) (task_duration t) (Some newDate)).
  { destruct t; reflexivity. }
  cbv zeta in Hmoved. rewrite Hmoved. cbn [snd getTasks].
  split; [| split].
  - erewrite list_find_insert_found; [reflexivity | exact Hf | exact Hid].
  - unfold getTasksForDate; cbn [getTasks]. apply list_elem_of_filter. split; [reflexivity |].
    apply list_elem_of_lookup. exists index. apply list_lookup_insert_eq.
    eauto using lookup_lt_Some.
  - intros other Hne.
    destruct (list_find (fun t => task_id t = Some other) (getTasks st)) as [[j u] |] eqn:Ho.
    + erewrite list_find_insert_other; [reflexivity | exact Ho | exact Hlook | | reflexivity].
      intros ->. apply list_find_Some in Ho as (Hj & Hu & _). congruence.
    + assert (Hn : list_find (fun t => task_id t = Some other)
                     (<[index := mkTask (task_id t) (task_createdAt t) (task_completed t)
                                   (task_completedAt t) (task_title t) (task_priority t)
                                   (task_category t) (task_duration t) (Some newDate)]>
                        (getTasks st)) = None).
      { apply list_find_None, Forall_forall. intros x Hx%list_elem_of_lookup.
        destruct Hx as [k Hk]. apply list_find_None in Ho. rewrite Forall_forall in Ho.
        destruct (decide (k = index)) as [-> | Hk'].
        - rewrite list_lookup_insert_eq in Hk by eauto using lookup_lt_Some.
          injection Hk as <-. cbn. congruence.
        - rewrite list_lookup_insert_ne in Hk by congruence.
          apply Ho. apply list_elem_of_lookup. eauto. }
      rewrite Hn. reflexivity.
Qed.

Lemma moveTask_changes_date_witness :
  findTask "a" exampleTasks = Some exampleTask /\
  getTasksForDate (mkIso 2026 1 13) (moveTask 7 "a" (mkIso 2026 1 13) exampleTasks) <> [].
Proof.
  split; [reflexivity |].
  destruct (moveTask_changes_date 7 "a" (mkIso 2026 1 13) exampleTasks exampleTask eq_refl)
    as (_ & Hin & _).
  intros Hnil. rewrite Hnil in Hin. apply elem_of_nil in Hin. exact Hin.
Defined.

(** ** Habits: toggled dates and the streak *)

Section ToggleDate.

Lemma existsb_iso_eqb x l : existsb (fun y => iso_eqb y x) l = true <-> x ∈ l.
Proof.
  rewrite existsb_exists. split.
  - intros (y & Hy & ->%iso_eqb_eq). apply list_elem_of_In, Hy.
  - intros Hx. exists x. split; [apply list_elem_of_In, Hx | apply iso_eqb_eq; reflexivity].
Qed.

Lemma elem_of_removeFirst x y l : y ∈ removeFirst x l -> y ∈ l.
Proof.
  induction l as [| z l IH]; cbn [removeFirst]; [done |].
  destruct (iso_eqb z x); rewrite ?elem_of_cons; [auto |]. intros [-> | H]; auto.
Qed.

Lemma removeFirst_NoDup x l :
  NoDup l -> NoDup (removeFirst x l) /\ forall y, y ∈ removeFirst x l <-> y ∈ l /\ y <> x.
Proof.
  induction 1 as [| z l Hz Hl IH]; cbn [removeFirst].
  - split; [constructor |]. intros y. rewrite elem_of_nil. tauto.
  - destruct (iso_eqb z x) eqn:Hzx.
    + apply iso_eqb_eq in Hzx as ->. split; [exact Hl |].
      intros y. rewrite elem_of_cons. split; [intros Hy; split; [auto | congruence] | tauto].
    + destruct IH as [IH1 IH2].
      assert (z <> x) by (intros ->; rewrite (proj2 (iso_eqb_eq x x) eq_refl) in Hzx; discriminate).
      split.
      * constructor; [| exact IH1]. intros Hin%elem_of_removeFirst. contradiction.
      * intros y. rewrite !elem_of_cons, IH2. split; [intros [-> | [? ?]]; auto | tauto].
Qed.

Lemma removeFirst_app_new x l : x ∉ l -> removeFirst x (l ++ [x]) = l.
Proof.
  induction l as [| z l IH]; intros Hx; cbn [removeFirst app].
  - rewrite (proj2 (iso_eqb_eq x x) eq_refl). reflexivity.
  - apply not_elem_of_cons in Hx as [Hne Hx].
    destruct (iso_eqb z x) eqn:Hzx; [apply iso_eqb_eq in Hzx; congruence |].
    f_equal. apply IH, Hx.
Qed.

End ToggleDate.

(** X6. On completed dates without duplicates, toggling a date flips
    whether that date is among them, leaves every other date as it was and
    keeps the list free of duplicates. *)
Theorem toggleDate_flips_membership (dateStr : isodate) (dates : list isodate) :
  NoDup dates ->
  NoDup (toggleDate dateStr dates) /\
  (dateStr ∈ toggleDate dateStr dates <-> dateStr ∉ dates) /\
  (forall other, other <> dateStr -> (other ∈ toggleDate dateStr dates <-> other ∈ dates)).
Proof.
  intros Hnd. unfold toggleDate.
  destruct (existsb _ dates) eqn:Hex.
  - apply existsb_iso_eqb in Hex.
    destruct (removeFirst_NoDup dateStr dates Hnd) as [H1 H2].
    split; [exact H1 |]. split.
    + rewrite H2. tauto.
    + intros other Hne. rewrite H2. tauto.
  - assert (Hnot : dateStr ∉ dates).
    { intros Hin%existsb_iso_eqb. congruence. }
    split; [| split].
    + apply NoDup_app. split; [exact Hnd |]. split; [| apply NoDup_singleton].
      intros y Hy ->%list_elem_of_singleton. contradiction.
    + rewrite elem_of_app, list_elem_of_singleton. tauto.
    + intros other Hne. rewrite elem_of_app, list_elem_of_singleton. tauto.
Qed.

Lemma toggleDate_flips_membership_witness :
  NoDup [oct31; nov1] /\ NoDup (toggleDate nov1 [oct31; nov1]).
Proof.
  assert (H : NoDup [oct31; nov1]).
  { repeat constructor; rewrite ?elem_of_cons, ?elem_of_nil; intros Hc;
      repeat destruct Hc as [Hc | Hc]; try discriminate Hc; try exact Hc. }
  split; [exact H |]. exact (proj1 (toggleDate_flips_membership nov1 [oct31; nov1] H)).
Defined.

(** X7. Marking a date that was not completed and toggling it again gives
    back the list of completed dates as it was. *)
Theorem toggleDate_twice (dateStr : isodate) (dates : list isodate) :
  dateStr ∉ dates ->
  toggleDate dateStr (toggleDate dateStr dates) = dates.
Proof.
  intros Hnot. unfold toggleDate at 2.
  destruct (existsb _ dates) eqn:Hex; [apply existsb_iso_eqb in Hex; contradiction |].
  unfold toggleDate.
  rewrite (proj2 (existsb_iso_eqb dateStr (dates ++ [dateStr])));
    [| rewrite elem_of_app, list_elem_of_singleton; tauto].
  apply removeFirst_app_new, Hnot.
Qed.

Lemma toggleDate_twice_witness :
  (nov2 ∉ [oct31; nov1]) /\ toggleDate nov2 (toggleDate nov2 [oct31; nov1]) = [oct31; nov1].
Proof.
  assert (H : nov2 ∉ [oct31; nov1]).
  { rewrite !elem_of_cons, elem_of_nil. intros Hc.
    repeat destruct Hc as [Hc | Hc]; try discriminate Hc; exact Hc. }
  split; [exact H |]. exact (toggleDate_twice nov2 [oct31; nov1] H).
Defined.

Section StreakBounds.

Variable tz : TimeZone.

Lemma streakLoop_bounds rest : forall currentDate streak,
  streak <= streakLoop tz currentDate rest streak <= streak + Z.of_nat (length rest).
Proof.
  induction rest as [| s rest IH]; intros currentDate streak; cbn [streakLoop length]; [lia |].
  destruct (iso_eqb _ _); [| lia].
  specialize (IH (setDate tz currentDate (getDate tz currentDate - 1)) (streak + 1)). lia.
Qed.

Lemma insertSorted_length x l : length (insertSorted x l) = S (length l).
Proof.
  induction l as [| y l IH]; [reflexivity |]. cbn [insertSorted].
  destruct (iso_leb x y); cbn [length]; [reflexivity | rewrite IH; reflexivity].
Qed.

Lemma sortDates_length l : length (sortDates l) = length l.
Proof.
  induction l as [| x l IH]; [reflexivity |].
  cbn [sortDates foldr]. fold (sortDates l). rewrite insertSorted_length, IH. reflexivity.
Qed.

End StreakBounds.

(** X8. In every time zone and at every clock reading the streak is at
    least 0 and at most the number of completed dates, and it is at least 1
    when the most recent date is today's or yesterday's UTC date. *)
Theorem calculateStreak_bounds (tz : TimeZone) (now : Z) (completedDates : list isodate) :
  0 <= calculateStreak tz now completedDates <= Z.of_nat (length completedDates) /\
  (forall first rest,
      rev (sortDates completedDates) = first :: rest ->
      first = toISODate now \/ first = toISODate (now - 86400000) ->
      1 <= calculateStreak tz now completedDates).
Proof.
  unfold calculateStreak.
  pose proof (sortDates_length completedDates) as Hlen.
  rewrite <- length_rev in Hlen.
  destruct (rev (sortDates completedDates)) as [| first rest] eqn:Hs.
  - split; [lia |]. intros ? ? [=].
  - cbn [length] in Hlen.
    pose proof (streakLoop_bounds tz rest (parseISODate first) 1) as Hb.
    split.
    + destruct (negb _ && negb _); lia.
    + intros f r [= <- <-] Hf.
      assert (Hc : negb (iso_eqb first (toISODate now))
                   && negb (iso_eqb first (toISODate (now - 86400000))) = false).
      { destruct Hf as [-> | ->];
          rewrite (proj2 (iso_eqb_eq _ _) eq_refl); cbn; [reflexivity | apply andb_false_r]. }
      rewrite Hc. lia.
Qed.

Section SortedDates.

(** [a <= b] on ISO date strings, as a relation. *)
Let iso_le (a b : isodate) : Prop := iso_leb a b = true.

Lemma iso_leb_total a b : iso_leb a b = true \/ iso_leb b a = true.
Proof.
  destruct a as [y1 m1 d1], b as [y2 m2 d2]. unfold iso_leb; cbn.
  destruct (Z.eqb_spec y1 y2), (Z.eqb_spec y2 y1); try lia;
    destruct (Z.eqb_spec m1 m2), (Z.eqb_spec m2 m1); try lia;
    rewrite ?Z.leb_le, ?Z.ltb_lt; lia.
Qed.

Lemma iso_leb_trans a b c : iso_leb a b = true -> iso_leb b c = true -> iso_leb a c = true.
Proof.
  destruct a as [y1 m1 d1], b as [y2 m2 d2], c as [y3 m3 d3]. unfold iso_leb; cbn.
  destruct (Z.eqb_spec y1 y2), (Z.eqb_spec y2 y3), (Z.eqb_spec y1 y3); try lia;
    destruct (Z.eqb_spec m1 m2), (Z.eqb_spec m2 m3), (Z.eqb_spec m1 m3); try lia;
    rewrite ?Z.leb_le, ?Z.ltb_lt; lia.
Qed.

Lemma insertSorted_perm x l : insertSorted x l ≡ₚ x :: l.
Proof.
  induction l as [| y l IH]; [reflexivity |]. cbn [insertSorted].
  destruct (iso_leb x y); [reflexivity |]. rewrite IH. apply Permutation_swap.
Qed.

Lemma sortDates_perm l : sortDates l ≡ₚ l.
Proof.
  induction l as [| x l IH]; [reflexivity |].
  cbn [sortDates foldr]. fold (sortDates l). rewrite insertSorted_perm, IH. reflexivity.
Qed.

Lemma insertSorted_sorted x l :
  StronglySorted iso_le l -> StronglySorted iso_le (insertSorted x l).
Proof using Type.
  induction 1 as [| y l Hs IH Hy]; cbn [insertSorted]; [repeat constructor |].
  destruct (iso_leb x y) eqn:Hxy.
  - constructor; [constructor; assumption |].
    constructor; [exact Hxy |].
    eapply Forall_impl; [exact Hy |]. intros z Hz. eapply iso_leb_trans; eassumption.
  - constructor; [exact IH |].
    rewrite insertSorted_perm. constructor; [| exact Hy].
    destruct (iso_leb_total x y) as [H | H]; [congruence | exact H].
Qed.

Lemma sortDates_sorted l : StronglySorted iso_le (sortDates l).
Proof using Type.
  induction l as [| x l IH]; [constructor |].
  cbn [sortDates foldr]. apply insertSorted_sorted, IH.
Qed.

(** The sorted list depends on the dates only, not on their order. *)
Lemma sortDates_Permutation l1 l2 : l1 ≡ₚ l2 -> sortDates l1 = sortDates l2.
Proof using Type.
  intros Hp.
  assert (Htrans : Transitive iso_le) by (intros a b c; apply iso_leb_trans).
  assert (Hanti : AntiSymm (=) iso_le) by (intros a b; apply iso_leb_antisym).
  apply (StronglySorted_unique iso_le); [apply sortDates_sorted .. |].
  rewrite !sortDates_perm. exact Hp.
Qed.

End SortedDates.

(** X9. The streak depends on which dates are completed and not on the
    order in which they were marked: lists that are permutations of each
    other have the same streak, in every time zone. *)
Theorem calculateStreak_order_independent (tz : TimeZone) (now : Z)
    (dates1 dates2 : list isodate) :
  dates1 ≡ₚ dates2 ->
  calculateStreak tz now dates1 = calculateStreak tz now dates2.
Proof.
  intros Hp. unfold calculateStreak. rewrite (sortDates_Permutation _ _ Hp). reflexivity.
Qed.

Lemma calculateStreak_order_independent_witness :
  [nov1; nov2; nov3] ≡ₚ [nov3; nov1; nov2] /\
  calculateStreak newYork2026 nov3_noon [nov1; nov2; nov3]
  = calculateStreak newYork2026 nov3_noon [nov3; nov1; nov2].
Proof.
  assert (H : [nov1; nov2; nov3] ≡ₚ [nov3; nov1; nov2]).
  { change [nov3; nov1; nov2] with ([nov3] ++ [nov1; nov2]).
    change [nov1; nov2; nov3] with ([nov1; nov2] ++ [nov3]). apply Permutation_app_comm. }
  split; [exact H |].
  exact (calculateStreak_order_independent newYork2026 nov3_noon _ _ H).
Defined.

Section Frame.

Context {A : Type} (P : A -> Prop) `{!forall x, Decision (P x)}.

(** Replacing an element that is not looked for by another that is not
    looked for does not change what is found. *)
Lemma list_find_insert_unrelated (l : list A) i x y :
  l !! i = Some x -> ~ P x -> ~ P y ->
  snd <$> list_find P (<[i := y]> l) = snd <$> list_find P l.
Proof.
  revert i. induction l as [| z l IH]; intros i Hi Hx Hy; [discriminate |].
  destruct i as [| i]; cbn in Hi |- *.
  - injection Hi as ->. rewrite !decide_False by assumption. reflexivity.
  - destruct (decide (P z)); [reflexivity |].
    specialize (IH i Hi Hx Hy).
    destruct (list_find P (<[i := y]> l)) as [[j1 w1] |], (list_find P l) as [[j2 w2] |];
      cbn in *; congruence.
Qed.

End Frame.

(** X10. [toggleHabitCompletion] on an id no habit carries returns
    [undefined] and leaves the store as it is.  On a stored id it rewrites
    only the first habit carrying it, of which it keeps the id, the creation
    time, the name and the frequency; the collection keeps its length, every
    other position keeps its habit, and habits with other ids are found
    unchanged. *)
Theorem toggleHabitCompletion_frame (tz : TimeZone) (now : Z) (habitId : string)
    (dateStr : isodate) (st : option (list Habit)) :
  (findHabit habitId st = None ->
   toggleHabitCompletion tz now habitId dateStr st = (None, st)) /\
  (forall index h,
      list_find (fun h => habit_id h = habitId) (getHabits st) = Some (index, h) ->
      exists h',
        toggleHabitCompletion tz now habitId dateStr st
        = (Some h', Some (<[index := h']> (getHabits st))) /\
        habit_id h' = habit_id h /\ habit_createdAt h' = habit_createdAt h /\
        habit_name h' = habit_name h /\ habit_frequency h' = habit_frequency h /\
        length (<[index := h']> (getHabits st)) = length (getHabits st) /\
        (forall j, j <> index -> <[index := h']> (getHabits st) !! j = getHabits st !! j)) /\
  (forall other, other <> habitId ->
     findHabit other (snd (toggleHabitCompletion tz now habitId dateStr st))
     = findHabit other st).
Proof.
  unfold findHabit, toggleHabitCompletion. split; [| split].
  - destruct (list_find _ (getHabits st)) as [[i h] |]; [discriminate | reflexivity].
  - intros index h ->. eexists. split; [reflexivity |]. cbn.
    repeat split; try reflexivity; [apply length_insert |].
    intros j Hj. apply list_lookup_insert_ne. congruence.
  - intros other Hne.
    destruct (list_find (fun h => habit_id h = habitId) (getHabits st))
      as [[index h] |] eqn:Hf; [| reflexivity].
    cbn [snd getHabits]. apply list_find_Some in Hf as (Hlook & Hid & _).
    apply (list_find_insert_unrelated _ _ index h); [exact Hlook | congruence |].
    cbn. congruence.
Qed.

Lemma toggleHabitCompletion_frame_witness :
  findHabit "nobody" exampleHabits = None /\
  toggleHabitCompletion newYork2026 nov3_noon "nobody" nov3 exampleHabits = (None, exampleHabits).
Proof.
  split; [reflexivity |].
  exact (proj1 (toggleHabitCompletion_frame newYork2026 nov3_noon "nobody" nov3 exampleHabits)
           eq_refl).
Defined.

(** ** The document store: import, clear, initialise *)

Section Store.

(** Whether a text starts with the letter z, as every storage key does. *)
Let starts_z (s : string) : bool :=
  match s with
  | String a _ => Ascii.eqb a (Ascii.ascii_of_nat 122)
  | EmptyString => false
  end.

Lemma pretty_N_go_not_z x : forall s, starts_z s = false -> starts_z (pretty_N_go x s) = false.
Proof using Type.
  induction (N.lt_wf_0 x) as [x _ IH]; intros s Hs.
  destruct (decide (x = 0)%N) as [-> | Hx]; [exact Hs |].
  rewrite pretty_N_go_step by lia. apply IH; [apply N.div_lt; lia |].
  unfold pretty_N_char. repeat case_match; reflexivity.
Qed.

Lemma pretty_nat_not_key (i : nat) : pretty i ∉ KEYS_values.
Proof using Type.
  assert (Hz : starts_z (pretty i) = false).
  { unfold pretty, pretty_nat, pretty, pretty_N. case_decide; [reflexivity |].
    apply pretty_N_go_not_z. reflexivity. }
  intros Hin. unfold KEYS_values, KEYS in Hin; cbn in Hin.
  rewrite !elem_of_cons, elem_of_nil in Hin.
  repeat destruct Hin as [Hin | Hin]; try contradiction;
    rewrite Hin in Hz; discriminate Hz.
Qed.

Lemma import_fold_no_key (kvs : list (string * json)) (ls : gmap string json) :
  Forall (fun kv => fst kv ∉ KEYS_values) kvs ->
  foldl (fun ls kv => if bool_decide (fst kv ∈ KEYS_values) then set ls (fst kv) (snd kv) else ls)
        ls kvs = ls.
Proof.
  induction 1 as [| kv kvs Hkv _ IH]; [reflexivity |].
  cbn [foldl]. rewrite bool_decide_eq_false_2 by exact Hkv. exact IH.
Qed.

Lemma imap_pretty_no_key {A} (f : nat -> A -> json) (l : list A) :
  Forall (fun kv : string * json => fst kv ∉ KEYS_values) (imap (fun i x => (pretty i, f i x)) l).
Proof.
  apply Forall_forall. intros kv Hkv%list_elem_of_lookup. destruct Hkv as [i Hi].
  rewrite list_lookup_imap in Hi. destruct (l !! i); [| discriminate].
  injection Hi as <-. apply pretty_nat_not_key.
Qed.

Lemma import_fold_lookup (fields : list (string * json)) (ls : gmap string json) (k : string) :
  foldl (fun ls kv => if bool_decide (fst kv ∈ KEYS_values) then set ls (fst kv) (snd kv) else ls)
        ls fields !! k
  = if decide (k ∈ KEYS_values)
    then match (list_to_map (reverse fields) : gmap string json) !! k with
         | Some v => Some v
         | None => ls !! k
         end
    else ls !! k.
Proof.
  induction fields as [| [k' v'] fields IH] using rev_ind.
  - cbn. rewrite lookup_empty. destruct (decide _); reflexivity.
  - rewrite foldl_app, reverse_app. cbn [foldl reverse rev_append app fst snd list_to_map foldr].
    change (rev_append [(k', v')] []) with [(k', v')]. cbn [app list_to_map foldr].
    unfold set in *. destruct (decide (k = k')) as [-> | Hne].
    + case_bool_decide as Hk.
      * rewrite lookup_insert_eq, decide_True by exact Hk. cbn.
        rewrite lookup_insert_eq. reflexivity.
      * rewrite IH, !decide_False by exact Hk. reflexivity.
    + case_bool_decide as Hk.
      * rewrite lookup_insert_ne by congruence. rewrite IH. cbn.
        rewrite lookup_insert_ne by congruence. reflexivity.
      * rewrite IH. cbn. rewrite lookup_insert_ne by congruence. reflexivity.
Qed.

Lemma clear_fold_lookup (keys : list string) : forall (ls : gmap string json) (k : string),
  foldl remove ls keys !! k = if decide (k ∈ keys) then None else ls !! k.
Proof.
  induction keys as [| key keys IH]; intros ls k; cbn [foldl].
  - rewrite decide_False by apply not_elem_of_nil. reflexivity.
  - rewrite IH. unfold remove. destruct (decide (k ∈ keys)) as [Hin | Hnin].
    + rewrite decide_True by (apply elem_of_cons; auto). reflexivity.
    + destruct (decide (k = key)) as [-> | Hne].
      * rewrite lookup_delete_eq, decide_True by (apply elem_of_cons; auto). reflexivity.
      * rewrite lookup_delete_ne by congruence.
        rewrite decide_False; [reflexivity |]. rewrite elem_of_cons. tauto.
Qed.

End Store.

(** X11. Importing something that is not a JSON object changes nothing in
    the store: a text that does not parse and the text [null] are reported
    as failures, while a number, a boolean, a string or an array is reported
    as a success. *)
Theorem importData_non_object (parsed : option json) (ls : gmap string json) :
  (forall fields, parsed <> Some (JObj fields)) ->
  snd (importData parsed ls) = ls /\
  (fst (importData parsed ls) = false <-> parsed = None \/ parsed = Some JNull).
Proof.
  intros Hno. unfold importData.
  destruct parsed as [[| b | n | s | items | fields] |]; cbn [mbind option_bind entries fst snd].
  - split; [reflexivity |]. tauto.
  - split; [reflexivity |]. split; [discriminate | intros [? | ?]; discriminate].
  - split; [reflexivity |]. split; [discriminate | intros [? | ?]; discriminate].
  - split; [apply import_fold_no_key, imap_pretty_no_key |].
    split; [discriminate | intros [? | ?]; discriminate].
  - split; [apply import_fold_no_key, imap_pretty_no_key |].
    split; [discriminate | intros [? | ?]; discriminate].
  - destruct (Hno fields eq_refl).
  - split; [reflexivity |]. tauto.
Qed.

Lemma importData_non_object_witness :
  (forall fields, Some (JArr [JNum 1; JNum 2]) <> Some (JObj fields)) /\
  snd (importData (Some (JArr [JNum 1; JNum 2])) exampleStore) = exampleStore.
Proof.
  assert (H : forall fields, Some (JArr [JNum 1; JNum 2]) <> Some (JObj fields))
    by (intros fields; discriminate).
  split; [exact H |].
  exact (proj1 (importData_non_object (Some (JArr [JNum 1; JNum 2])) exampleStore H)).
Defined.

(** X12. Importing a JSON object succeeds and overwrites exactly the storage
    keys that are field names of the object, each with the last value the
    object gives it; fields under other names are ignored and every other
    key of the store keeps its value. *)
Theorem importData_object (fields : list (string * json)) (ls : gmap string json) :
  fst (importData (Some (JObj fields)) ls) = true /\
  forall k,
    snd (importData (Some (JObj fields)) ls) !! k
    = if decide (k ∈ KEYS_values)
      then match (list_to_map (reverse fields) : gmap string json) !! k with
           | Some v => Some v
           | None => ls !! k
           end
      else ls !! k.
Proof.
  split; [reflexivity |]. intros k. apply import_fold_lookup.
Qed.

(** X13. A backup whose field names are the storage keys is restored by
    [importData] into any store: afterwards every storage key reads as it
    did in the store the backup was made from. *)
Theorem importData_backupByStorageKey (ls ls' : gmap string json) (k : string) :
  k ∈ KEYS_values ->
  get (snd (importData (Some (backupByStorageKey ls)) ls')) k = get ls k.
Proof.
  intros Hk. unfold get at 1. unfold backupByStorageKey.
  unfold importData; cbn [mbind option_bind entries fst snd].
  rewrite import_fold_lookup, decide_True by exact Hk.
  unfold KEYS_values, KEYS in *; cbn in *.
  rewrite !elem_of_cons, elem_of_nil in Hk.
  repeat destruct Hk as [-> | Hk]; try contradiction; vm_compute; reflexivity.
Qed.

Lemma importData_backupByStorageKey_witness :
  "zenith_tasks" ∈ KEYS_values /\
  get (snd (importData (Some (backupByStorageKey exampleStore)) ∅)) "zenith_tasks"
  = get exampleStore "zenith_tasks".
Proof.
  assert (H : "zenith_tasks" ∈ KEYS_values).
  { unfold KEYS_values, KEYS; cbn. rewrite !elem_of_cons. tauto. }
  split; [exact H |].
  exact (importData_backupByStorageKey exampleStore ∅ "zenith_tasks" H).
Defined.

Section Initialisation.

Lemma init_fold_lookup (defaults : list (string * json)) :
  NoDup (fst <$> defaults) ->
  forall (ls : gmap string json) (k : string),
  foldl (fun ls entry => if truthy (get ls (fst entry)) then ls else set ls (fst entry) (snd entry))
        ls defaults !! k
  = match (list_to_map defaults : gmap string json) !! k with
    | Some d => if truthy (get ls k) then ls !! k else Some d
    | None => ls !! k
    end.
Proof.
  induction defaults as [| [k0 d0] defaults IH]; intros Hnd ls k.
  - cbn. rewrite lookup_empty. reflexivity.
  - apply NoDup_cons in Hnd as [Hk0 Hnd]. cbn [foldl fst snd list_to_map foldr fmap list_fmap].
    rewrite (IH Hnd). unfold set, get. destruct (decide (k = k0)) as [-> | Hne].
    + rewrite lookup_insert_eq. rewrite (not_elem_of_list_to_map_1 _ k0 Hk0).
      destruct (truthy _); [reflexivity | apply lookup_insert_eq].
    + rewrite lookup_insert_ne by congruence.
      destruct (truthy match ls !! k0 with Some data => data | None => JNull end);
        [reflexivity |].
      rewrite lookup_insert_ne by congruence. reflexivity.
Qed.

Lemma initDefaults_NoDup : NoDup (fst <$> initDefaults).
Proof. apply (bool_decide_unpack _). vm_compute. exact I. Qed.

Lemma initDefaults_truthy (k : string) (d : json) :
  (list_to_map initDefaults : gmap string json) !! k = Some d -> truthy d = true.
Proof.
  intros Hd%elem_of_list_to_map_2. unfold initDefaults in Hd.
  rewrite !elem_of_cons, elem_of_nil in Hd.
  repeat destruct Hd as [Hd | Hd]; try contradiction; injection Hd as _ ->; reflexivity.
Qed.

Lemma initDefaults_keys (k : string) (d : json) :
  (list_to_map initDefaults : gmap string json) !! k = Some d -> k ∈ KEYS_values.
Proof.
  intros Hd%elem_of_list_to_map_2. unfold initDefaults in Hd.
  rewrite !elem_of_cons, elem_of_nil in Hd.
  unfold KEYS_values, KEYS; cbn. rewrite !elem_of_cons.
  repeat destruct Hd as [Hd | Hd]; try contradiction; injection Hd as -> _; tauto.
Qed.

Lemma init_defaults_lookup (ls : gmap string json) (k : string) :
  init ls !! k
  = match (list_to_map initDefaults : gmap string json) !! k with
    | Some d => if truthy (get ls k) then ls !! k else Some d
    | None => ls !! k
    end.
Proof. apply init_fold_lookup, initDefaults_NoDup. Qed.

End Initialisation.

(** X14. [clearAll] removes every storage key of the planner and leaves
    every other key of the store as it was. *)
Theorem clearAll_lookup (ls : gmap string json) (k : string) :
  clearAll ls !! k = if decide (k ∈ KEYS_values) then None else ls !! k.
Proof. apply clear_fold_lookup. Qed.

(** X15. [init] writes a default only under a key that has one and reads
    as a falsy value (absent, [null], [false], [0] or the empty string);
    every other key keeps what it holds. *)
Theorem init_lookup (ls : gmap string json) (k : string) :
  init ls !! k
  = match (list_to_map initDefaults : gmap string json) !! k with
    | Some d => if truthy (get ls k) then ls !! k else Some d
    | None => ls !! k
    end.
Proof. apply init_defaults_lookup. Qed.

(** X16. [init] is idempotent: a second run finds every default in place
    and writes nothing. *)
Theorem init_idempotent (ls : gmap string json) : init (init ls) = init ls.
Proof.
  apply map_eq. intros k. rewrite (init_defaults_lookup (init ls)).
  destruct ((list_to_map initDefaults : gmap string json) !! k) as [d |] eqn:Hd; [| reflexivity].
  unfold get. rewrite (init_defaults_lookup ls), Hd.
  fold (get ls k). destruct (truthy (get ls k)) eqn:Ht.
  - fold (get ls k). rewrite Ht. reflexivity.
  - rewrite (initDefaults_truthy k d Hd). reflexivity.
Qed.

(** X17. After [App.resetData] every storage key with a default holds that
    default and the two without one, [zenith_user] (which carries the
    onboarding flag) and [zenith_theme], are absent, so that the theme reads
    [light]; keys that are not storage keys are unchanged. *)
Theorem resetData_lookup (ls : gmap string json) :
  (forall k,
      resetData ls !! k
      = if decide (k ∈ KEYS_values) then (list_to_map initDefaults : gmap string json) !! k
        else ls !! k) /\
  (forall k d,
      (list_to_map initDefaults : gmap string json) !! k = Some d ->
      resetData ls !! k = Some d) /\
  resetData ls !! "zenith_user" = None /\
  resetData ls !! "zenith_theme" = None /\
  getTheme (resetData ls) = JStr "light".
Proof.
  assert (Hgen : forall k,
            resetData ls !! k
            = if decide (k ∈ KEYS_values) then (list_to_map initDefaults : gmap string json) !! k
              else ls !! k).
  { intros k. unfold resetData. rewrite init_defaults_lookup. unfold get, clearAll.
    rewrite !clear_fold_lookup.
    destruct ((list_to_map initDefaults : gmap string json) !! k) as [d |] eqn:Hd.
    - rewrite !decide_True by exact (initDefaults_keys k d Hd). reflexivity.
    - destruct (decide _); reflexivity. }
  assert (Huser : resetData ls !! "zenith_user" = None).
  { rewrite Hgen, decide_True; [reflexivity |].
    unfold KEYS_values, KEYS; cbn. rewrite !elem_of_cons. tauto. }
  assert (Htheme : resetData ls !! "zenith_theme" = None).
  { rewrite Hgen, decide_True; [reflexivity |].
    unfold KEYS_values, KEYS; cbn. rewrite !elem_of_cons. tauto. }
  split; [exact Hgen |]. split.
  - intros k d Hd. rewrite Hgen, decide_True by exact (initDefaults_keys k d Hd). exact Hd.
  - split; [exact Huser |]. split; [exact Htheme |].
    unfold getTheme, get. rewrite Htheme. reflexivity.
Qed.

(** X18. [App.toggleTheme] makes the theme read [dark] when it read
    [light] and [light] in every other case, whatever was stored; from the
    first toggle on the theme alternates between the two. *)
Theorem toggleTheme_alternates (ls : gmap string json) :
  (getTheme ls = JStr "light" -> getTheme (toggleTheme ls) = JStr "dark") /\
  (getTheme ls <> JStr "light" -> getTheme (toggleTheme ls) = JStr "light") /\
  getTheme (toggleTheme (toggleTheme (toggleTheme ls))) = getTheme (toggleTheme ls).
Proof.
  assert (Hread : forall ls' name, name <> "" ->
            getTheme (setTheme ls' (JStr name)) = JStr name).
  { intros ls' name Hname. unfold getTheme, setTheme, set, get.
    rewrite lookup_insert_eq. cbn. destruct (String.eqb_spec name ""); [contradiction | reflexivity]. }
  assert (Hlight : forall ls', getTheme ls' = JStr "light" ->
            getTheme (toggleTheme ls') = JStr "dark").
  { intros ls' H. unfold toggleTheme. rewrite H. cbn. apply Hread. discriminate. }
  assert (Hother : forall ls', getTheme ls' <> JStr "light" ->
            getTheme (toggleTheme ls') = JStr "light").
  { intros ls' H. unfold toggleTheme.
    destruct (getTheme ls') as [| b | n | name | items | fields];
      try (apply Hread; discriminate).
    destruct (String.eqb_spec name "light") as [-> | Hne]; [contradiction |].
    apply Hread. discriminate. }
  assert (Hcases : getTheme ls = JStr "light" \/ getTheme ls <> JStr "light").
  { destruct (getTheme ls) as [| b | n | name | items | fields];
      try (right; discriminate).
    destruct (String.eqb_spec name "light") as [-> | Hne]; [left; reflexivity | right; congruence]. }
  split; [apply Hlight |]. split; [apply Hother |].
  destruct Hcases as [H | H].
  - rewrite (Hlight ls H). apply Hlight, Hother. rewrite (Hlight ls H). discriminate.
  - rewrite (Hother ls H). apply Hother. rewrite (Hlight _ (Hother ls H)). discriminate.
Qed.

Lemma toggleTheme_alternates_witness :
  getTheme exampleStore = JStr "light" /\ getTheme (toggleTheme exampleStore) = JStr "dark".
Proof.
  assert (H : getTheme exampleStore = JStr "light") by (vm_compute; reflexivity).
  split; [exact H |].
  exact (proj1 (toggleTheme_alternates exampleStore) H).
Defined.

(** ** Calendar days as the views read them *)

Section LocalDays.

Lemma isToday_iff_day (tz : TimeZone) (now date : Z) :
  isToday tz now date = true <-> Day (LocalTime tz date) = Day (LocalTime tz now).
Proof.
  unfold isToday, toDateString, dateString_eqb, getDay, getMonth, getDate, getFullYear.
  rewrite !andb_true_iff, !Z.eqb_eq. split.
  - intros [[[_ Hm] Hd] Hy]. apply isoOfDay_inj. rewrite <- !toISODate_Day.
    unfold toISODate. rewrite Hm, Hd, Hy. reflexivity.
  - intros H. destruct (civil_of_Day _ _ H) as (Hy & Hm & Hd).
    rewrite (WeekDay_of_Day _ _ H). auto.
Qed.

(** The instant of a local midnight in a zone without transitions, and its
    date in UTC. *)
Lemma Day_fixed_midnight (offset d : Z) :
  Day (UTC (fixedZone offset) (MakeDate d 0)) = d + (- offset) / msPerDay.
Proof.
  unfold UTC, fixedZone, Day, MakeDate; cbn [LocalTZA].
  replace (d * msPerDay + 0 - offset) with (- offset + d * msPerDay) by lia.
  rewrite Z.div_add by (unfold msPerDay; lia). lia.
Qed.

Lemma shift_west offset : - msPerDay < offset <= 0 -> (- offset) / msPerDay = 0.
Proof. unfold msPerDay. intros. divmod. Qed.

Lemma shift_east offset : 0 < offset <= msPerDay -> (- offset) / msPerDay = -1.
Proof. unfold msPerDay. intros. divmod. Qed.

Lemma Forall_map_intro {A B} (P : B -> Prop) (f : A -> B) (l : list A) :
  (forall x, P (f x)) -> Forall P (map f l).
Proof. intros H. induction l; cbn; constructor; auto. Qed.

(** How each of the three loops of [getCalendarDays] builds its cells. *)
Lemma getCalendarDays_cells (tz : TimeZone) (now year month : Z) :
  Forall (fun c =>
            (exists m d, cell_date c = newDate tz year m d) /\
            cell_dateStr c = formatDateStr (cell_date c) /\
            cell_isToday c = negb (cell_isOtherMonth c) && isToday tz now (cell_date c))
         (getCalendarDays tz now year month).
Proof.
  unfold getCalendarDays.
  apply Forall_app_2; [apply Forall_app_2 |];
    apply Forall_map_intro; intros i; cbn [cell_date cell_dateStr cell_isToday cell_isOtherMonth negb andb];
    eauto.
Qed.

Lemma getWeekDates_lookup (tz : TimeZone) (weekStart : Z) (i : nat) (d : Z) :
  getWeekDates tz weekStart !! i = Some d <->
  (i < 7)%nat /\ d = setDate tz weekStart (getDate tz weekStart + Z.of_nat i).
Proof.
  unfold getWeekDates. rewrite map_fmap, list_lookup_fmap_Some. split.
  - intros (x & -> & Hx). apply lookup_seqZ in Hx as [-> Hi].
    split; [lia |]. rewrite Z.add_0_l. reflexivity.
  - intros [Hi ->]. exists (Z.of_nat i). split; [reflexivity |].
    apply lookup_seqZ. lia.
Qed.

Lemma setDate_local_day (tz : TimeZone) (t k : Z) :
  RegularZone tz ->
  Day (LocalTime tz (setDate tz t (getDate tz t + k))) = Day (LocalTime tz t) + k.
Proof.
  intros Hz. unfold setDate, getDate. rewrite MakeDay_civil, (zone_day tz Hz).
  apply Day_MakeDate, TimeWithinDay_bounds.
Qed.

Lemma setDate_local_midnight (tz : TimeZone) (t k : Z) :
  RegularZone tz ->
  TimeWithinDay (LocalTime tz t) = 0 ->
  setDate tz t (getDate tz t + k) = UTC tz (MakeDate (Day (LocalTime tz t) + k) 0) /\
  LocalTime tz (setDate tz t (getDate tz t + k)) = MakeDate (Day (LocalTime tz t) + k) 0.
Proof.
  intros Hz H0. unfold setDate, getDate. rewrite MakeDay_civil, H0.
  split; [reflexivity | apply (zone_midnight tz Hz)].
Qed.

End LocalDays.

(** X19. [isToday] compares calendar days in local time: it holds exactly
    when the date and the clock reading fall on the same local day,
    whatever their times of day. *)
Theorem isToday_same_local_day (tz : TimeZone) (now date : Z) :
  isToday tz now date = true <-> Day (LocalTime tz date) = Day (LocalTime tz now).
Proof. apply isToday_iff_day. Qed.

(** X20. In a regular time zone a cell of the calendar grid is flagged
    [isToday] exactly when it belongs to the month shown and its local day
    is today's; so at most one cell is flagged, and today's day is not
    flagged where it appears among the days of a neighbouring month. *)
Theorem getCalendarDays_isToday (tz : TimeZone) (now year month : Z) :
  RegularZone tz ->
  let cells := getCalendarDays tz now year month in
  (forall (i : nat) (c : DayCell),
      cells !! i = Some c ->
      (cell_isToday c = true <->
       cell_isOtherMonth c = false /\
       Day (LocalTime tz (cell_date c)) = Day (LocalTime tz now))) /\
  (forall (i j : nat) (ci cj : DayCell),
      cells !! i = Some ci -> cells !! j = Some cj ->
      cell_isToday ci = true -> cell_isToday cj = true -> i = j).
Proof.
  intros Hz cells.
  assert (Hflag : forall (i : nat) c, cells !! i = Some c ->
            (cell_isToday c = true <->
             cell_isOtherMonth c = false /\
             Day (LocalTime tz (cell_date c)) = Day (LocalTime tz now))).
  { intros i c Hc.
    pose proof (Forall_lookup_1 _ _ _ _ (getCalendarDays_cells tz now year month) Hc)
      as (_ & _ & ->).
    rewrite andb_true_iff, negb_true_iff, isToday_iff_day. reflexivity. }
  split; [exact Hflag |].
  intros i j ci cj Hi Hj Hti Htj.
  apply (Hflag i ci Hi) in Hti as [_ Hdi]. apply (Hflag j cj Hj) in Htj as [_ Hdj].
  assert (Hshown : forall d : Z, Day (LocalTime tz (UTC tz (MakeDate d 0))) = d)
    by (intros d; rewrite (zone_day tz Hz); apply Day_midnight).
  pose proof (cell_properties tz now year month (fun d _ => Hshown d) i ci Hi) as (Hci & _).
  pose proof (cell_properties tz now year month (fun d _ => Hshown d) j cj Hj) as (Hcj & _).
  cbv zeta in Hci, Hcj. lia.
Qed.

Lemma getCalendarDays_isToday_witness :
  RegularZone newYork2026 /\
  forall (i : nat) (c : DayCell),
    getCalendarDays newYork2026 nov3_noon 2026 10 !! i = Some c ->
    (cell_isToday c = true <->
     cell_isOtherMonth c = false /\
     Day (LocalTime newYork2026 (cell_date c)) = Day (LocalTime newYork2026 nov3_noon)).
Proof.
  split; [exact newYork2026_regular |].
  exact (proj1 (getCalendarDays_isToday newYork2026 nov3_noon 2026 10 newYork2026_regular)).
Defined.

(** X21. In a zone of fixed offset every cell of the calendar grid carries
    as [dateStr] the UTC date of its local midnight: the date of the day
    shown for an offset from -24 hours up to 0, and the date of the day
    before it for an offset above 0 up to 24 hours. *)
Theorem getCalendarDays_dateStr_fixed_zone (offset now year month : Z) (i : nat) (c : DayCell) :
  getCalendarDays (fixedZone offset) now year month !! i = Some c ->
  let shown := Day (LocalTime (fixedZone offset) (cell_date c)) in
  cell_dateStr c = isoOfDay (shown + (- offset) / msPerDay) /\
  (- msPerDay < offset <= 0 -> cell_dateStr c = isoOfDay shown) /\
  (0 < offset <= msPerDay -> cell_dateStr c = isoOfDay (shown - 1)).
Proof.
  intros Hc shown.
  pose proof (Forall_lookup_1 _ _ _ _ (getCalendarDays_cells (fixedZone offset) now year month) Hc)
    as ((m & d & Hdate) & Hstr & _).
  assert (Hgen : cell_dateStr c = isoOfDay (shown + (- offset) / msPerDay)).
  { rewrite Hstr. unfold formatDateStr. rewrite toISODate_Day. f_equal.
    subst shown. rewrite Hdate. unfold newDate. change (MakeTime 0 0 0 0) with 0.
    rewrite fixedZone_roundtrip, Day_midnight. apply Day_fixed_midnight. }
  split; [exact Hgen |]. split; intros Ho; rewrite Hgen.
  - rewrite (shift_west offset Ho), Z.add_0_r. reflexivity.
  - rewrite (shift_east offset Ho). reflexivity.
Qed.

Lemma getCalendarDays_dateStr_fixed_zone_witness :
  exists c,
    getCalendarDays (fixedZone msPerHour) nov3_noon 2026 10 !! 0%nat = Some c /\
    cell_dateStr c = isoOfDay (Day (LocalTime (fixedZone msPerHour) (cell_date c)) - 1).
Proof.
  assert (Hc : { c | getCalendarDays (fixedZone msPerHour) nov3_noon 2026 10 !! 0%nat = Some c }).
  { eexists. vm_compute. reflexivity. }
  destruct Hc as [c Hc]. exists c. split; [exact Hc |].
  apply (getCalendarDays_dateStr_fixed_zone msPerHour nov3_noon 2026 10 0 c Hc).
  unfold msPerHour, msPerDay. lia.
Defined.

(** X22. In a regular time zone [getWeekDates] of [getWeekStart D] is the
    week of [D]: seven dates at local midnight on consecutive local days,
    Monday first and Sunday last, one of them on the day of [D]. *)
Theorem getWeekDates_of_getWeekStart (tz : TimeZone) (D : Z) :
  RegularZone tz ->
  let W := getWeekStart tz D in
  let dates := getWeekDates tz W in
  length dates = 7%nat /\
  (forall (i : nat) (d : Z),
      dates !! i = Some d ->
      Day (LocalTime tz d) = Day (LocalTime tz W) + Z.of_nat i /\
      getDay tz d = (Z.of_nat i + 1) mod 7 /\
      TimeWithinDay (LocalTime tz d) = 0) /\
  (exists (i : nat) (d : Z),
      dates !! i = Some d /\ Day (LocalTime tz d) = Day (LocalTime tz D)).
Proof.
  intros Hz W dates.
  pose proof (getWeekStart_local tz Hz D) as HW. fold W in HW.
  set (back := (WeekDay (LocalTime tz D) + 6) mod 7) in *.
  assert (HdayW : Day (LocalTime tz W) = Day (LocalTime tz D) - back)
    by (rewrite HW; apply Day_midnight).
  assert (H0 : TimeWithinDay (LocalTime tz W) = 0)
    by (rewrite HW; apply TimeWithinDay_MakeDate; unfold msPerDay; lia).
  split; [unfold dates, getWeekDates; rewrite length_map, length_seqZ; reflexivity |].
  split.
  - intros i d Hd. apply getWeekDates_lookup in Hd as [Hi ->].
    destruct (setDate_local_midnight tz W (Z.of_nat i) Hz H0) as [_ Hl].
    split; [apply setDate_local_day, Hz |].
    split.
    + unfold getDay, WeekDay. rewrite setDate_local_day by exact Hz.
      rewrite HdayW. subst back. unfold WeekDay. divmod.
    + rewrite Hl. apply TimeWithinDay_MakeDate. unfold msPerDay. lia.
  - assert (Hb : 0 <= back < 7) by (subst back; divmod).
    exists (Z.to_nat back), (setDate tz W (getDate tz W + Z.of_nat (Z.to_nat back))).
    split; [apply getWeekDates_lookup; split; [lia | reflexivity] |].
    rewrite setDate_local_day by exact Hz. lia.
Qed.

Lemma getWeekDates_of_getWeekStart_witness :
  RegularZone newYork2026 /\
  length (getWeekDates newYork2026 (getWeekStart newYork2026 nov3_noon)) = 7%nat.
Proof.
  split; [exact newYork2026_regular |].
  exact (proj1 (getWeekDates_of_getWeekStart newYork2026 nov3_noon newYork2026_regular)).
Defined.

(** X23. The range [App.updateWeeklyStats] asks the statistics for, in a
    zone of fixed offset and for the week of the clock reading: Monday to
    Sunday for an offset from -24 hours up to 0, but Sunday to Saturday, one
    day early, for an offset above 0 up to 24 hours. *)
Theorem weeklyStatsRange_fixed_zone (offset now : Z) :
  let tz := fixedZone offset in
  let monday := Day (LocalTime tz now) - (WeekDay (LocalTime tz now) + 6) mod 7 in
  WeekDay (MakeDate monday 0) = 1 /\
  (- msPerDay < offset <= 0 ->
   weeklyStatsRange tz (getWeekStart tz now) = Some (isoOfDay monday, isoOfDay (monday + 6))) /\
  (0 < offset <= msPerDay ->
   weeklyStatsRange tz (getWeekStart tz now)
   = Some (isoOfDay (monday - 1), isoOfDay (monday + 5))).
Proof.
  intros tz monday.
  assert (Hgen : weeklyStatsRange tz (getWeekStart tz now)
            = Some (isoOfDay (monday + (- offset) / msPerDay),
                    isoOfDay (monday + 6 + (- offset) / msPerDay))).
  { assert (H0 : (0 < 7)%nat) by lia. assert (H6 : (6 < 7)%nat) by lia.
    unfold weeklyStatsRange.
    rewrite (proj2 (getWeekDates_lookup tz (getWeekStart tz now) 0 _) (conj H0 eq_refl)).
    rewrite (proj2 (getWeekDates_lookup tz (getWeekStart tz now) 6 _) (conj H6 eq_refl)).
    unfold tz. rewrite !setDate_fixed.
    rewrite (getWeekStart_value (fixedZone offset) (fixedZone_regular offset) now).
    fold tz monday. unfold formatDateStr. rewrite !toISODate_Day. do 3 f_equal.
    - change (Z.of_nat 0 * msPerDay) with 0. rewrite Z.add_0_r. apply Day_fixed_midnight.
    - replace (UTC tz (MakeDate monday 0) + Z.of_nat 6 * msPerDay)
        with (UTC tz (MakeDate (monday + 6) 0))
        by (unfold UTC, tz, fixedZone, MakeDate; cbn [LocalTZA]; lia).
      apply Day_fixed_midnight. }
  split; [unfold WeekDay; rewrite Day_midnight; subst monday; unfold WeekDay; divmod |].
  split; intros Ho; rewrite Hgen.
  - rewrite (shift_west offset Ho), !Z.add_0_r. reflexivity.
  - rewrite (shift_east offset Ho). do 3 f_equal; lia.
Qed.

Lemma weeklyStatsRange_fixed_zone_witness :
  weeklyStatsRange (fixedZone msPerHour) (getWeekStart (fixedZone msPerHour) nov3_noon)
  = Some (nov1, mkIso 2026 11 7).
Proof.
  assert (H : 0 < msPerHour <= msPerDay) by (unfold msPerHour, msPerDay; lia).
  exact (proj2 (proj2 (weeklyStatsRange_fixed_zone msPerHour nov3_noon)) H).
Defined.

(** ** Week numbers and the days of a year *)

Section WeekNumbers.

(** The arithmetic of [getWeekNumber] on a day of the year: dividing the
    milliseconds back into days, adding one and dividing by seven rounds up
    to the week. *)
Lemma week_of_day_number (n : Z) :
  0 <= n <= 365 ->
  Math_ceil (((timeDiff (n * msPerDay) 0 / 86400000) + 1) / 7)%float = ofCount (n / 7 + 1).
Proof.
  intros Hn.
  assert (Hall : Forall (fun n => Math_ceil (((timeDiff (n * msPerDay) 0 / 86400000) + 1) / 7)%float
                                  = ofCount (n / 7 + 1)) (seqZ 0 366)).
  { let l := eval vm_compute in (seqZ 0 366) in change (seqZ 0 366) with l.
    repeat (apply Forall_cons; split; [vm_compute; reflexivity |]). apply Forall_nil_2. }
  rewrite Forall_forall in Hall. apply Hall. apply elem_of_seqZ. lia.
Qed.

(** The Thursday of the Monday-to-Sunday week of the day [L]. *)
Let thursdayOf (L : Z) : Z := L - (L + 3) mod 7 + 3.

Lemma getWeekNumber_value (tz : TimeZone) (date : Z) :
  100 < getFullYear tz date ->
  getWeekNumber tz date
  = ofCount (DayWithinYear (MakeDate (thursdayOf (Day (LocalTime tz date))) 0) / 7 + 1).
Proof using Type.
  unfold getWeekNumber, getFullYear, getMonth, getDate.
  set (lt := LocalTime tz date). set (L := Day lt). intros Hy.
  assert (Hd0 : DateUTC (YearFromTime lt) (MonthFromTime lt) (DateFromTime lt) = MakeDate L 0).
  { unfold DateUTC.
    destruct (Z.leb_spec (YearFromTime lt) 99) as [Hle | _]; [lia |].
    rewrite andb_false_r. change (MakeTime 0 0 0 0) with 0.
    pose proof (MakeDay_civil lt 0) as H. rewrite !Z.add_0_r in H. rewrite H. reflexivity. }
  rewrite Hd0.
  assert (Hw : WeekDay (MakeDate L 0) = (L + 4) mod 7)
    by (unfold WeekDay; rewrite Day_midnight; reflexivity).
  rewrite Hw.
  set (dayNum := if (L + 4) mod 7 =? 0 then 7 else (L + 4) mod 7).
  assert (Hth : setUTCDate (MakeDate L 0) (DateFromTime (MakeDate L 0) + 4 - dayNum)
                = MakeDate (thursdayOf L) 0).
  { unfold setUTCDate.
    replace (DateFromTime (MakeDate L 0) + 4 - dayNum)
      with (DateFromTime (MakeDate L 0) + (4 - dayNum)) by lia.
    rewrite MakeDay_civil, Day_midnight.
    rewrite TimeWithinDay_MakeDate by (unfold msPerDay; lia).
    f_equal. subst dayNum thursdayOf. cbv beta.
    destruct (Z.eqb_spec ((L + 4) mod 7) 0); divmod. }
  rewrite Hth. set (T := thursdayOf L).
  set (Y := YearFromTime (MakeDate T 0)).
  assert (HY : 100 <= Y).
  { pose proof (YearFromTime_spec lt) as [Hlo _]. fold L in Hlo.
    pose proof (DayFromYear_mono 101 (YearFromTime lt) ltac:(lia)) as H101.
    pose proof (YearFromTime_spec (MakeDate T 0)) as [_ Hhi]. fold Y in Hhi.
    rewrite Day_midnight in Hhi.
    destruct (Z.le_gt_cases 100 Y) as [Hge | Hlt]; [exact Hge | exfalso].
    pose proof (DayFromYear_mono (Y + 1) 100 ltac:(lia)) as H100.
    assert (HT : L - 3 <= T) by (subst T thursdayOf; cbv beta; divmod).
    assert (H365 : DayFromYear 101 = DayFromYear 100 + 365) by (vm_compute; reflexivity).
    lia. }
  assert (Hys : DateUTC Y 0 1 = MakeDate (DayFromYear Y) 0).
  { unfold DateUTC.
    destruct (Z.leb_spec Y 99) as [Hle | _]; [lia |].
    rewrite andb_false_r. change (MakeTime 0 0 0 0) with 0.
    f_equal. unfold MakeDay. change (0 / 12) with 0. change (0 mod 12) with 0.
    replace (Y + 0) with Y by lia. cbn [monthStart]. lia. }
  rewrite Hys.
  set (n := DayWithinYear (MakeDate T 0)).
  assert (Hn : 0 <= n <= 365).
  { pose proof (DayWithinYear_bounds (MakeDate T 0)).
    destruct (InLeapYear_cases (MakeDate T 0)); subst n; lia. }
  rewrite <- (week_of_day_number n Hn). do 4 f_equal.
  unfold timeDiff.
  replace (MakeDate T 0 - MakeDate (DayFromYear Y) 0) with (n * msPerDay - 0); [reflexivity |].
  subst n. unfold DayWithinYear. rewrite Day_midnight. fold Y. unfold MakeDate. lia.
Qed.

Lemma thursdayOf_week (L i : Z) :
  0 <= i < 7 ->
  thursdayOf (L - ((L + 4) mod 7 + 6) mod 7 + i) = thursdayOf L.
Proof using Type. subst thursdayOf. cbv beta. intros. divmod. Qed.

Lemma year_lower_bound (t1 t2 : Z) (y : Z) :
  y < YearFromTime t1 -> Day t1 - 6 <= Day t2 -> y - 1 < YearFromTime t2.
Proof using Type.
  intros Hy Hd.
  pose proof (YearFromTime_spec t1) as [Hlo _].
  pose proof (YearFromTime_spec t2) as [_ Hhi].
  destruct (Z.lt_ge_cases (y - 1) (YearFromTime t2)) as [Hlt | Hge]; [exact Hlt | exfalso].
  pose proof (DayFromYear_mono (YearFromTime t2 + 1) y ltac:(lia)).
  pose proof (DayFromYear_mono (y + 1) (YearFromTime t1) ltac:(lia)).
  rewrite DayFromYear_succ in *. destruct (DaysInYear_cases y); lia.
Qed.

End WeekNumbers.

Section YearLoop.

Variable tz : TimeZone.
Hypothesis Hz : RegularZone tz.
Hypothesis Ho : OrderedMidnights tz.

Let midnight (d : Z) : Z := UTC tz (MakeDate d 0).

Lemma midnight_mono (k : nat) : forall d, midnight d <= midnight (d + Z.of_nat k).
Proof using Ho.
  induction k as [| k IH]; intros d.
  - rewrite Z.add_0_r. lia.
  - specialize (IH d). pose proof (Ho (d + Z.of_nat k)) as Hs.
    change (midnight (d + Z.of_nat k) < midnight (d + Z.of_nat k + 1)) in Hs.
    replace (d + Z.of_nat (S k)) with (d + Z.of_nat k + 1) by lia. lia.
Qed.

Lemma midnight_leb (d e : Z) : (midnight d <=? midnight e) = (d <=? e).
Proof using Ho.
  destruct (Z.leb_spec d e) as [Hle | Hgt].
  - apply Z.leb_le. pose proof (midnight_mono (Z.to_nat (e - d)) d) as H.
    replace (d + Z.of_nat (Z.to_nat (e - d))) with e in H by lia. exact H.
  - apply Z.leb_gt. pose proof (midnight_mono (Z.to_nat (d - e - 1)) (e + 1)) as H.
    replace (e + 1 + Z.of_nat (Z.to_nat (d - e - 1))) with d in H by lia.
    pose proof (Ho e) as Hs. change (midnight e < midnight (e + 1)) in Hs. lia.
Qed.

Lemma midnight_local (d : Z) :
  LocalTime tz (midnight d) = MakeDate d 0.
Proof using Hz. apply (zone_midnight tz Hz). Qed.

Lemma midnight_next (d : Z) :
  setDate tz (midnight d) (getDate tz (midnight d) + 1) = midnight (d + 1).
Proof using Hz.
  destruct (setDate_local_midnight tz (midnight d) 1 Hz) as [H _].
  - rewrite midnight_local. apply TimeWithinDay_MakeDate. unfold msPerDay. lia.
  - rewrite H, midnight_local, Day_midnight. reflexivity.
Qed.

(** The entry of the day [d]. *)
Let entry (d : Z) : YearDay :=
  mkYearDay (midnight d) (formatDateStr (midnight d)) (getWeekNumber tz (midnight d))
            (getDay tz (midnight d)).

Lemma yearLoop_days (n : nat) : forall (fuel : nat) (d e : Z),
  Z.of_nat n = e + 1 - d -> (n <= fuel)%nat ->
  yearLoop fuel tz (midnight d) (midnight e) = Some (entry <$> seqZ d (Z.of_nat n)).
Proof using Hz Ho.
  induction n as [| n IH]; intros fuel d e Hn Hfuel.
  - destruct fuel; cbn [yearLoop]; rewrite midnight_leb;
      destruct (Z.leb_spec d e); try lia; reflexivity.
  - destruct fuel as [| fuel]; [lia |]. cbn [yearLoop].
    rewrite midnight_leb. destruct (Z.leb_spec d e); [| lia].
    rewrite midnight_next, (IH fuel (d + 1) e) by lia.
    rewrite (seqZ_cons d (Z.of_nat (S n))) by lia.
    replace (Z.succ d) with (d + 1) by lia.
    replace (Z.pred (Z.of_nat (S n))) with (Z.of_nat n) by lia.
    reflexivity.
Qed.

Lemma getYearDays_days (fuel : nat) (year : Z) :
  let yr := if (0 <=? year) && (year <=? 99) then 1900 + year else year in
  (366 <= fuel)%nat ->
  getYearDays fuel tz year = Some (entry <$> seqZ (DayFromYear yr) (DaysInYear yr)).
Proof using Hz Ho.
  intros yr Hfuel. unfold getYearDays, newDate. fold yr. change (MakeTime 0 0 0 0) with 0.
  assert (H1 : MakeDay yr 0 1 = DayFromYear yr).
  { unfold MakeDay. change (0 / 12) with 0. change (0 mod 12) with 0.
    replace (yr + 0) with yr by lia. cbn [monthStart]. lia. }
  assert (H2 : MakeDay yr 11 31 = DayFromYear yr + DaysInYear yr - 1).
  { unfold MakeDay. change (11 / 12) with 0. change (11 mod 12) with 11.
    replace (yr + 0) with yr by lia. cbn [monthStart].
    destruct (DaysInYear_cases yr) as [H | H]; rewrite H;
      [change (365 =? 366) with false | change (366 =? 366) with true]; cbv iota; lia. }
  rewrite H1, H2. fold (midnight (DayFromYear yr)).
  fold (midnight (DayFromYear yr + DaysInYear yr - 1)).
  pose proof (DaysInYear_cases yr) as Hc.
  rewrite (yearLoop_days (Z.to_nat (DaysInYear yr))) by lia.
  rewrite Z2Nat.id by lia. reflexivity.
Qed.

End YearLoop.

Section OrderedZones.

Lemma fixedZone_ordered offset : OrderedMidnights (fixedZone offset).
Proof.
  intros d. unfold UTC, fixedZone, MakeDate, msPerDay; cbn [LocalTZA]. lia.
Qed.

Lemma newYork2026_ordered : OrderedMidnights newYork2026.
Proof.
  intros d. unfold UTC, newYork2026; cbn [LocalTZA].
  repeat match goal with
         | |- context [if ?b then _ else _] => destruct b
         end; unfold EST, EDT, MakeDate, msPerDay, msPerHour; lia.
Qed.

End OrderedZones.

(** X24. For a date after the year 100, [getWeekNumber] is the ISO 8601
    week number of its local day: one more than the number of whole weeks
    that lie between the first of January and the Thursday of the date's
    Monday-to-Sunday week, counted in that Thursday's year; it is a whole
    number from 1 to 53. *)
Theorem getWeekNumber_iso (tz : TimeZone) (date : Z) :
  100 < getFullYear tz date ->
  let L := Day (LocalTime tz date) in
  let thursday := L - (L + 3) mod 7 + 3 in
  WeekDay (MakeDate thursday 0) = 4 /\
  L - 3 <= thursday <= L + 3 /\
  getWeekNumber tz date = ofCount (DayWithinYear (MakeDate thursday 0) / 7 + 1) /\
  1 <= DayWithinYear (MakeDate thursday 0) / 7 + 1 <= 53.
Proof.
  intros Hy L thursday.
  split; [unfold WeekDay; rewrite Day_midnight; subst thursday; divmod |].
  split; [subst thursday; divmod |].
  split; [apply getWeekNumber_value, Hy |].
  pose proof (DayWithinYear_bounds (MakeDate thursday 0)).
  destruct (InLeapYear_cases (MakeDate thursday 0)); divmod.
Qed.

Lemma getWeekNumber_iso_witness :
  100 < getFullYear newYork2026 nov3_noon /\
  getWeekNumber newYork2026 nov3_noon = 45%float.
Proof.
  assert (H : 100 < getFullYear newYork2026 nov3_noon) by (vm_compute; reflexivity).
  split; [exact H |].
  exact (proj1 (proj2 (proj2 (getWeekNumber_iso newYork2026 nov3_noon H)))).
Defined.

(** X25. In a regular time zone the seven dates of a week, as
    [getWeekDates] of [getWeekStart D] gives them, all have the week number
    of [D] (for dates after the year 101). *)
Theorem getWeekNumber_constant_over_week (tz : TimeZone) (D d : Z) :
  RegularZone tz ->
  101 < getFullYear tz D ->
  d ∈ getWeekDates tz (getWeekStart tz D) ->
  getWeekNumber tz d = getWeekNumber tz D.
Proof.
  intros Hz Hy Hd. apply list_elem_of_lookup in Hd as [i Hi].
  apply getWeekDates_lookup in Hi as [Hi ->].
  pose proof (getWeekStart_local tz Hz D) as HW.
  assert (HdayW : Day (LocalTime tz (getWeekStart tz D))
                  = Day (LocalTime tz D) - (WeekDay (LocalTime tz D) + 6) mod 7)
    by (rewrite HW; apply Day_midnight).
  assert (Hday : Day (LocalTime tz (setDate tz (getWeekStart tz D)
                                      (getDate tz (getWeekStart tz D) + Z.of_nat i)))
                 = Day (LocalTime tz D) - ((Day (LocalTime tz D) + 4) mod 7 + 6) mod 7 + Z.of_nat i).
  { rewrite setDate_local_day by exact Hz. rewrite HdayW. reflexivity. }
  rewrite !getWeekNumber_value.
  - rewrite Hday, thursdayOf_week by lia. reflexivity.
  - unfold getFullYear in *. lia.
  - unfold getFullYear in *.
    apply (year_lower_bound (LocalTime tz D) _ 101 Hy). rewrite Hday. divmod.
Qed.

Lemma getWeekNumber_constant_over_week_witness :
  RegularZone newYork2026 /\
  getWeekNumber newYork2026 (getWeekStart newYork2026 nov3_noon)
  = getWeekNumber newYork2026 nov3_noon.
Proof.
  split; [exact newYork2026_regular |].
  apply (getWeekNumber_constant_over_week newYork2026 nov3_noon _ newYork2026_regular).
  - vm_compute. reflexivity.
  - apply list_elem_of_lookup. exists 0%nat. vm_compute. reflexivity.
Defined.

(** X26. In a regular time zone whose local midnights follow one another,
    [getYearDays] comes to an end within 366 turns of its loop and lists the
    days of the year in order, one entry for each: 365 or 366 entries, the
    entry at index [i] being the local midnight of the day [i] days after
    the first of January, in that year, with that day's weekday. *)
Theorem getYearDays_lists_the_year (tz : TimeZone) (fuel : nat) (year : Z) :
  RegularZone tz ->
  OrderedMidnights tz ->
  (366 <= fuel)%nat ->
  let yr := if (0 <=? year) && (year <=? 99) then 1900 + year else year in
  exists days,
    getYearDays fuel tz year = Some days /\
    Z.of_nat (length days) = DaysInYear yr /\
    forall (i : nat) (day : YearDay),
      days !! i = Some day ->
      LocalTime tz (yd_date day) = MakeDate (DayFromYear yr + Z.of_nat i) 0 /\
      getFullYear tz (yd_date day) = yr /\
      yd_dayOfWeek day = (DayFromYear yr + Z.of_nat i + 4) mod 7 /\
      yd_dateStr day = formatDateStr (yd_date day) /\
      yd_week day = getWeekNumber tz (yd_date day).
Proof.
  intros Hz Ho Hfuel yr.
  pose proof (getYearDays_days tz Hz Ho fuel year Hfuel) as Hdays. cbv zeta in Hdays. fold yr in Hdays.
  pose proof (DaysInYear_cases yr) as Hc.
  eexists. split; [exact Hdays |].
  split; [rewrite length_fmap, length_seqZ; lia |].
  intros i day Hi. apply list_lookup_fmap_Some in Hi as (x & -> & Hx).
  apply lookup_seqZ in Hx as [-> Hi]. cbn [yd_date yd_dateStr yd_week yd_dayOfWeek].
  assert (Hl : LocalTime tz (UTC tz (MakeDate (DayFromYear yr + Z.of_nat i) 0))
               = MakeDate (DayFromYear yr + Z.of_nat i) 0) by apply (zone_midnight tz Hz).
  split; [exact Hl |].
  split.
  - unfold getFullYear. rewrite Hl. apply YearFromTime_unique.
    rewrite Day_midnight, DayFromYear_succ. lia.
  - split; [| split; reflexivity].
    unfold getDay, WeekDay. rewrite Hl, Day_midnight. reflexivity.
Qed.

Lemma getYearDays_lists_the_year_witness :
  exists days,
    getYearDays 366 newYork2026 2026 = Some days /\ Z.of_nat (length days) = 365.
Proof.
  destruct (getYearDays_lists_the_year newYork2026 366 2026 newYork2026_regular
              newYork2026_ordered (le_n 366)) as (days & H1 & H2 & _).
  exists days. split; [exact H1 | exact H2].
Defined.

(** ** Daily data and weekly objectives *)

Section DailyData.





End DailyData.




Section Objectives.

Lemma findObjective_toggle id (objectives : list Objective) index o :
  list_find (fun o => objective_id o = Some id) objectives = Some (index, o) ->
  toggleWeeklyObjective id (Some objectives)
  = Some (<[index := mkObjective (objective_id o) (Some (notCompleted o))
                                 (objective_title o) (objective_weekStart o)]> objectives).
Proof. intros H. unfold toggleWeeklyObjective; cbn [getObjectives]. rewrite H. reflexivity. Qed.

End Objectives.

(** X29. [toggleWeeklyObjective] on an id no objective carries stores
    nothing.  On a stored id it changes only the [completed] field of the
    first objective carrying it, which becomes the negation of a boolean
    and [true] where the field is absent: that objective keeps its id, its
    title and its week, every other position keeps its objective, and
    [getWeeklyObjectives] returns as many objectives for every week as
    before.  Where the field holds a boolean, toggling twice gives back the
    stored objectives. *)
Theorem toggleWeeklyObjective_twice (id : string) (st : option (list Objective)) :
  (list_find (fun o => objective_id o = Some id) (getObjectives st) = None ->
   toggleWeeklyObjective id st = st) /\
  (forall weekStart,
      length (getWeeklyObjectives weekStart (toggleWeeklyObjective id st))
      = length (getWeeklyObjectives weekStart st)) /\
  (forall index o,
      list_find (fun o => objective_id o = Some id) (getObjectives st) = Some (index, o) ->
      objective_completed o <> None ->
      toggleWeeklyObjective id (toggleWeeklyObjective id st) = st) /\
  (forall index o,
      list_find (fun o => objective_id o = Some id) (getObjectives st) = Some (index, o) ->
      exists o',
        toggleWeeklyObjective id st = Some (<[index := o']> (getObjectives st)) /\
        (forall b, objective_completed o = Some b -> objective_completed o' = Some (negb b)) /\
        (objective_completed o = None -> objective_completed o' = Some true) /\
        objective_id o' = objective_id o /\
        objective_title o' = objective_title o /\
        objective_weekStart o' = objective_weekStart o /\
        length (<[index := o']> (getObjectives st)) = length (getObjectives st) /\
        (forall j, j <> index ->
           <[index := o']> (getObjectives st) !! j = getObjectives st !! j) /\
        list_find (fun o => objective_id o = Some id) (<[index := o']> (getObjectives st))
        = Some (index, o')).
Proof.
  split; [| split; [| split]].
  - intros H. unfold toggleWeeklyObjective. rewrite H. reflexivity.
  - intros weekStart. unfold toggleWeeklyObjective.
    destruct (list_find _ (getObjectives st)) as [[index o] |] eqn:Hf; [| reflexivity].
    apply list_find_Some in Hf as (Hl & _ & _).
    unfold getWeeklyObjectives; cbn [getObjectives].
    set (o' := mkObjective _ _ _ _).
    rewrite <- (take_drop_middle _ _ _ Hl) at 2.
    rewrite insert_take_drop by (apply lookup_lt_Some in Hl; exact Hl).
    rewrite !filter_app, !filter_cons, !length_app.
    change (objective_weekStart o') with (objective_weekStart o).
    destruct (decide (objective_weekStart o = Some weekStart)); reflexivity.
  - intros index o Hf Hb.
    destruct st as [objectives |]; [| cbn in Hf; discriminate].
    cbn [getObjectives] in Hf.
    rewrite (findObjective_toggle id objectives index o Hf).
    pose proof Hf as Hf'. apply list_find_Some in Hf' as (Hl & Hid & _).
    set (o' := mkObjective (objective_id o) (Some (notCompleted o))
                           (objective_title o) (objective_weekStart o)).
    rewrite (findObjective_toggle id _ index o').
    + rewrite list_insert_insert_eq. f_equal. apply list_insert_id.
      rewrite Hl. f_equal. destruct o as [oid [b |] title week]; [| contradiction].
      unfold notCompleted; cbn. rewrite negb_involutive. reflexivity.
    + apply (list_find_insert_found _ objectives index o o' Hf). exact Hid.
  - intros index o Hf.
    pose proof Hf as Hf'. apply list_find_Some in Hf' as (Hl & Hid & _).
    exists (mkObjective (objective_id o) (Some (notCompleted o))
                        (objective_title o) (objective_weekStart o)).
    split; [unfold toggleWeeklyObjective; rewrite Hf; reflexivity |].
    cbn [objective_id objective_completed objective_title objective_weekStart].
    split; [intros b Hb; unfold notCompleted; rewrite Hb; reflexivity |].
    split; [intros Hb; unfold notCompleted; rewrite Hb; reflexivity |].
    do 3 (split; [reflexivity |]).
    split; [apply length_insert |].
    split; [intros j Hj; apply list_lookup_insert_ne; congruence |].
    apply (list_find_insert_found _ _ index o _ Hf). exact Hid.
Qed.

Lemma toggleWeeklyObjective_twice_witness :
  toggleWeeklyObjective "w"
    (toggleWeeklyObjective "w" (Some [mkObjective (Some "w") (Some false) (Some "Plan") (Some nov2)]))
  = Some [mkObjective (Some "w") (Some false) (Some "Plan") (Some nov2)] /\
  exists o',
    toggleWeeklyObjective "w" (Some [mkObjective (Some "w") (Some false) (Some "Plan") (Some nov2)])
    = Some [o'] /\
    objective_completed o' = Some true.
Proof.
  pose proof (toggleWeeklyObjective_twice "w"
                (Some [mkObjective (Some "w") (Some false) (Some "Plan") (Some nov2)]))
    as (_ & _ & Htwice & Hflip).
  assert (Hfind : list_find (fun o => objective_id o = Some "w")
                    (getObjectives (Some [mkObjective (Some "w") (Some false) (Some "Plan") (Some nov2)]))
                  = Some (0%nat, mkObjective (Some "w") (Some false) (Some "Plan") (Some nov2)))
    by (vm_compute; reflexivity).
  split.
  - apply (Htwice _ _ Hfind). discriminate.
  - destruct (Hflip _ _ Hfind) as (o' & Hres & Hneg & _).
    exists o'. split; [exact Hres | exact (Hneg false eq_refl)].
Defined.

(** X30. Without habits the statistics are computed without a turn of the
    day loop, whatever the time zone: the habit rate is 0, the completed
    tasks are among the tasks in range and those among the stored ones, a
    range without tasks gives a completion rate of 0 and no focus time
    rather than a division by zero, and the average mood is [null] exactly
    when no day of the range has a mood. *)
Theorem getProductivityStats_no_habits (fuel : nat) (tz : TimeZone) (startDate endDate : isodate)
    (tasks : list Task) (dailyData : list (isodate * option Z)) :
  exists s,
    getProductivityStats fuel tz startDate endDate tasks [] dailyData = Some s /\
    habitCompletionRate s = 0%float /\
    0 <= completedTasks s <= totalTasks s /\
    totalTasks s <= Z.of_nat (length tasks) /\
    (totalTasks s = 0 ->
     completedTasks s = 0 /\ completionRate s = 0%float /\ focusHours s = Some 0) /\
    (averageMood s = None <-> moodsInRange startDate endDate dailyData = []).
Proof.
  unfold getProductivityStats; cbn [habitCounts].
  set (inRangeTasks := filter (fun t => taskInRange startDate endDate t = true) tasks).
  set (completed := filter (fun t => truthy_completed t = true) inRangeTasks).
  eexists. split; [reflexivity |].
  cbn [habitCompletionRate completedTasks totalTasks completionRate focusHours averageMood].
  pose proof (length_filter (fun t => taskInRange startDate endDate t = true) tasks) as H1.
  pose proof (length_filter (fun t => truthy_completed t = true) inRangeTasks) as H2.
  fold inRangeTasks in H1. fold completed in H2.
  split; [reflexivity |]. split; [lia |]. split; [lia |]. split.
  - intros H0. assert (Hnil : inRangeTasks = []) by (apply length_zero_iff_nil; lia).
    subst completed. rewrite Hnil. vm_compute. auto.
  - destruct (moodsInRange startDate endDate dailyData) as [| m ms]; cbn [length].
    + split; reflexivity.
    + destruct (Z.ltb_spec 0 (Z.of_nat (S (length ms)))); [| lia].
      split; [discriminate | discriminate].
Qed.
